(** * Multi-platform publication service: a shallow embedding

    The Python module [factory.py] gathers a Django application that
    publishes one post to several social networks.  This development
    embeds the parts with real logic:

    - the three platform adapters ([FacebookAPI], [TwitterAPI],
      [LinkedInAPI]) and their shared [_make_request];
    - [PostService]: [create_post], [publish_post], [delete_post] and
      [get_post_analytics];
    - the views [connect_account] and [publish], the validation of the
      platforms of a post and the periodic job that publishes the
      scheduled posts;
    - the rows of the tables they touch, with the constraints declared
      on them.

    Python values coming from JSON are kept as a small JSON datatype;
    exceptions and the mutable world (the database, the network, the
    clock) are threaded through a state-and-exception monad in which a
    raised exception keeps the state reached so far, as in Python. *)

From Stdlib Require Import String Ascii List ZArith Bool Arith Lia.
Import ListNotations.
Open Scope string_scope.
Open Scope list_scope.

Set Implicit Arguments.
Set Warnings "-register-all".

(* ===================================================================== *)
(** ** Python values *)

(** Values decoded from JSON, also used for [None] ([JNull]) and for the
    dictionaries the code builds.  Numbers are integers: the code never
    computes with them. *)
Inductive json : Type :=
| JNull
| JBool (b : bool)
| JNum (z : Z)
| JStr (s : string)
| JArr (l : list json)
| JObj (l : list (string * json)).

(** A Python [dict] with string keys, in insertion order. *)
Definition pydict := list (string * json).

Module Py.

(** [d.get(k, default)] on a dict. *)
Fixpoint dict_get (d : pydict) (k : string) (default : json) : json :=
  match d with
  | [] => default
  | (k', v) :: d' => if String.eqb k' k then v else dict_get d' k default
  end.

(** [k in d] on a dict. *)
Fixpoint dict_has (d : pydict) (k : string) : bool :=
  match d with
  | [] => false
  | (k', _) :: d' => if String.eqb k' k then true else dict_has d' k
  end.

(** [d[k] = v]: an existing key keeps its position, a new key goes last. *)
Fixpoint dict_set {V : Type} (d : list (string * V)) (k : string) (v : V)
  : list (string * V) :=
  match d with
  | [] => [(k, v)]
  | (k', v') :: d' =>
      if String.eqb k' k then (k', v) :: d' else (k', v') :: dict_set d' k v
  end.

Definition keys {V : Type} (d : list (string * V)) : list string :=
  map fst d.

Fixpoint lookup {V : Type} (d : list (string * V)) (k : string) : option V :=
  match d with
  | [] => None
  | (k', v) :: d' => if String.eqb k' k then Some v else lookup d' k
  end.

(** Truth value of a Python object, as [if x:] tests it. *)
Definition truthy (v : json) : bool :=
  match v with
  | JNull => false
  | JBool b => b
  | JNum z => negb (Z.eqb z 0)
  | JStr s => negb (String.eqb s "")
  | JArr l => match l with [] => false | _ => true end
  | JObj l => match l with [] => false | _ => true end
  end.

(** [sub in s] on strings. *)
Fixpoint str_contains (sub s : string) : bool :=
  if String.prefix sub s then true
  else match s with
       | EmptyString => false
       | String _ s' => str_contains sub s'
       end.

Definition is_str (k : string) (v : json) : bool :=
  match v with JStr s => String.eqb s k | _ => false end.

End Py.

(* ===================================================================== *)
(** ** Exceptions *)

Inductive exn_class : Type :=
| DoesNotExist
| MultipleObjectsReturned
| IntegrityError
| RequestException       (* connection errors, timeouts, invalid URLs *)
| HTTPError              (* raised by [raise_for_status] *)
| JSONDecodeError        (* raised by [response.json()] *)
| AttributeError
| TypeError
| KeyError
| ValueError.

(** [requests.exceptions]: [HTTPError] and [JSONDecodeError] derive from
    [RequestException]. *)
Definition is_RequestException (c : exn_class) : bool :=
  match c with
  | RequestException | HTTPError | JSONDecodeError => true
  | _ => false
  end.

Definition is_DoesNotExist (c : exn_class) : bool :=
  match c with DoesNotExist => true | _ => false end.

(** An exception object: its class and [str(e)]. *)
Record exn : Type := Exn { exn_cls : exn_class; exn_str : string }.

Inductive res (A : Type) : Type :=
| Ok (a : A)
| Raise (e : exn).
Arguments Ok {A} a.
Arguments Raise {A} e.

(** [k in v] for an arbitrary value: dict membership, list membership,
    substring; other types are not iterable. *)
Definition py_in (k : string) (v : json) : res bool :=
  match v with
  | JObj d => Ok (Py.dict_has d k)
  | JArr l => Ok (existsb (Py.is_str k) l)
  | JStr s => Ok (Py.str_contains k s)
  | _ => Raise (Exn TypeError "argument is not iterable")
  end.

(** [v.get(k, default)] for an arbitrary value: only a dict has [get]. *)
Definition py_get (v : json) (k : string) (default : json) : res json :=
  match v with
  | JObj d => Ok (Py.dict_get d k default)
  | _ => Raise (Exn AttributeError "object has no attribute 'get'")
  end.

(** [v[k]] for an arbitrary value and a string key. *)
Definition py_getitem (v : json) (k : string) : res json :=
  match v with
  | JObj d =>
      match Py.lookup d k with
      | Some x => Ok x
      | None => Raise (Exn KeyError k)
      end
  | _ => Raise (Exn TypeError "indices must be integers")
  end.

(* ===================================================================== *)
(** ** Database rows (models.py) *)

Inductive Status : Type := draft | scheduled | published | failed.

Record SocialMediaAccount : Type := {
  acc_pk : nat;
  acc_user : nat;
  acc_platform : string;
  acc_account_id : string;
  acc_account_name : string;
  acc_access_token : string;
  acc_is_active : bool
}.

Record Post : Type := {
  post_pk : nat;
  post_user : nat;
  post_content : string;
  post_platforms : list string;
  post_status : Status;
  post_scheduled_date : option Z;
  post_published_date : option Z
}.

(** [post] and [account] are foreign keys; the pair is [unique_together]. *)
Record PostPublication : Type := {
  pub_pk : nat;
  pub_post : nat;
  pub_account : nat;
  pub_platform_post_id : string;
  pub_published_at : option Z;
  pub_error_message : string;
  pub_is_success : bool
}.

Record PostAnalytics : Type := {
  an_publication : nat;
  an_likes : Z;
  an_comments : Z;
  an_shares : Z;
  an_impressions : Z;
  an_reach : Z;
  an_clicks : Z;
  an_raw_data : json
}.

Record DB : Type := {
  db_accounts : list SocialMediaAccount;
  db_posts : list Post;
  db_publications : list PostPublication;
  db_analytics : list PostAnalytics;
  db_next_pk : nat
}.

(* ===================================================================== *)
(** ** The outside world *)

Record Request : Type := {
  rq_method : string;
  rq_url : string;
  rq_headers : list (string * string);
  rq_params : list (string * string);
  rq_data : list (string * string);
  rq_json : option json;
  rq_files : list (string * string)
}.

(** What came back: the status code, the body as [response.json()] reads
    it ([None] when it is not JSON, e.g. an empty 204 body) and the raw
    [response.content]. *)
Record Response : Type := {
  rs_status_code : Z;
  rs_json : option json;
  rs_content : string
}.

Inductive NetResult : Type :=
| Responded (r : Response)
| Failed (msg : string).   (* no response: [requests] raises *)

(** Everything the code consults and does not define.  The network and
    the clock are indexed by the number of interactions made so far, so
    the same request may be answered differently at different moments. *)
Record Env : Type := {
  net : nat -> Request -> NetResult;
  clock : nat -> Z;                         (* [timezone.now()] *)
  json_dumps : json -> string;              (* [json.dumps] *)
  http_error_msg : Z -> string -> string;   (* text of an [HTTPError] *)
  decode_error_msg : string;                (* text of a [JSONDecodeError] *)
  py_repr : json -> string;                 (* [str(v)] of a non-string *)
  py_int : string -> option Z               (* [int(s)] of a string *)
}.

Record State : Type := {
  st_tick : nat;
  st_db : DB
}.

(* ===================================================================== *)
(** ** The monad: state, and exceptions that keep the state *)

Definition M (A : Type) : Type := State -> res A * State.

Definition ret {A} (a : A) : M A := fun st => (Ok a, st).

Definition bind {A B} (m : M A) (f : A -> M B) : M B :=
  fun st =>
    match m st with
    | (Ok a, st') => f a st'
    | (Raise e, st') => (Raise e, st')
    end.

Definition raise {A} (e : exn) : M A := fun st => (Raise e, st).

Definition lift {A} (r : res A) : M A := fun st => (r, st).

(** [try: m except: h] with [h] deciding per exception; [h e = None]
    means that no [except] clause matches [e]. *)
Definition try_except {A} (m : M A) (h : exn -> option (M A)) : M A :=
  fun st =>
    match m st with
    | (Ok a, st') => (Ok a, st')
    | (Raise e, st') =>
        match h e with
        | Some k => k st'
        | None => (Raise e, st')
        end
    end.

Declare Scope m_scope.
Delimit Scope m_scope with m.
Notation "x <- c1 ;; c2" := (bind c1 (fun x => c2))
  (at level 61, c1 at next level, right associativity) : m_scope.
Notation "c1 ;;; c2" := (bind c1 (fun _ => c2))
  (at level 61, right associativity) : m_scope.
Open Scope m_scope.

Definition get_db : M DB := fun st => (Ok (st_db st), st).

Definition put_db (d : DB) : M unit :=
  fun st => (Ok tt, {| st_tick := st_tick st; st_db := d |}).

Definition tick (st : State) : State :=
  {| st_tick := S (st_tick st); st_db := st_db st |}.

(* ===================================================================== *)
(** ** services/social_media_service.py *)

Notation "a ^^ b" := (String.append a b) (at level 60, right associativity).

(** Static configuration ([settings.SOCIAL_MEDIA_APIS]); only the two
    entries the adapters read. *)
Record Config : Type := { BASE_URL : string; API_VERSION : string }.

Definition FACEBOOK : Config :=
  {| BASE_URL := "https://graph.facebook.com/"; API_VERSION := "v18.0" |}.
Definition TWITTER : Config :=
  {| BASE_URL := "https://api.twitter.com/2/"; API_VERSION := "2" |}.
Definition LINKEDIN : Config :=
  {| BASE_URL := "https://api.linkedin.com/v2/"; API_VERSION := "v2" |}.

Definition request (method url : string) : Request :=
  {| rq_method := method; rq_url := url; rq_headers := []; rq_params := [];
     rq_data := []; rq_json := None; rq_files := [] |}.

Definition with_headers (h : list (string * string)) (r : Request) : Request :=
  {| rq_method := rq_method r; rq_url := rq_url r; rq_headers := h;
     rq_params := rq_params r; rq_data := rq_data r; rq_json := rq_json r;
     rq_files := rq_files r |}.
Definition with_params (p : list (string * string)) (r : Request) : Request :=
  {| rq_method := rq_method r; rq_url := rq_url r; rq_headers := rq_headers r;
     rq_params := p; rq_data := rq_data r; rq_json := rq_json r;
     rq_files := rq_files r |}.
Definition with_data (d : list (string * string)) (r : Request) : Request :=
  {| rq_method := rq_method r; rq_url := rq_url r; rq_headers := rq_headers r;
     rq_params := rq_params r; rq_data := d; rq_json := rq_json r;
     rq_files := rq_files r |}.
Definition with_json (j : json) (r : Request) : Request :=
  {| rq_method := rq_method r; rq_url := rq_url r; rq_headers := rq_headers r;
     rq_params := rq_params r; rq_data := rq_data r; rq_json := Some j;
     rq_files := rq_files r |}.
Definition with_files (f : list (string * string)) (r : Request) : Request :=
  {| rq_method := rq_method r; rq_url := rq_url r; rq_headers := rq_headers r;
     rq_params := rq_params r; rq_data := rq_data r; rq_json := rq_json r;
     rq_files := f |}.

(** The adapter interface ([class SocialMediaAPI(ABC)]); an instance is
    the class, the bound account is passed to each method. *)
Record SocialMediaAPI : Type := {
  api_create_post :
    SocialMediaAccount -> string -> option (list string) -> M json;
  api_delete_post : SocialMediaAccount -> string -> M bool;
  api_get_post_analytics : SocialMediaAccount -> string -> M json
}.

Section Http.

Variable env : Env.

(** [requests.request(method, url, **kwargs)] and [requests.get(url)]. *)
Definition requests_request (rq : Request) : M Response :=
  fun st =>
    match net env (st_tick st) rq with
    | Responded r => (Ok r, tick st)
    | Failed msg => (Raise (Exn RequestException msg), tick st)
    end.

(** [response.raise_for_status()]. *)
Definition raise_for_status (url : string) (r : Response) : M unit :=
  if andb (400 <=? rs_status_code r)%Z (rs_status_code r <? 600)%Z
  then raise (Exn HTTPError (http_error_msg env (rs_status_code r) url))
  else ret tt.

(** [response.json()]. *)
Definition response_json (r : Response) : M json :=
  match rs_json r with
  | Some j => ret j
  | None => raise (Exn JSONDecodeError (decode_error_msg env))
  end.

(** [SocialMediaAPI._make_request]: "Make HTTP request with error
    handling". *)
Definition _make_request (rq : Request) : M json :=
  try_except
    (response <- requests_request rq ;;
     raise_for_status (rq_url rq) response ;;;
     response_json response)
    (fun e =>
       if is_RequestException (exn_cls e)
       then Some (ret (JObj [("error", JStr (exn_str e))]))
       else None).

(** [x if 'error' not in result else None], where [x] may raise. *)
Definition unless_error (result : json) (x : res json) : M json :=
  has_error <- lift (py_in "error" result) ;;
  if negb has_error then lift x else ret JNull.

(** The loop shared by the three [create_post] methods:
    [[
      media_ids = []
      for media_url in media_urls:
          media_id = self._upload_media(media_url)
          if media_id:
              media_ids.append(media_id)
    ]] *)
Fixpoint upload_each (_upload_media : string -> M json)
         (media_urls : list string) (media_ids : list json) : M (list json) :=
  match media_urls with
  | [] => ret media_ids
  | media_url :: rest =>
      media_id <- _upload_media media_url ;;
      upload_each _upload_media rest
        (if Py.truthy media_id then media_ids ++ [media_id] else media_ids)
  end.

(** [if media_urls:] on an optional list. *)
Definition some_media (media_urls : option (list string)) : list string :=
  match media_urls with
  | Some l => l
  | None => []
  end.

Definition bearer (account : SocialMediaAccount) : string * string :=
  ("Authorization", "Bearer " ^^ acc_access_token account).

End Http.

(* --------------------------------------------------------------------- *)
(** *** FacebookAPI *)

Module FacebookAPI.
Section WithEnv.

Variable env : Env.
Variable account : SocialMediaAccount.

Definition config : Config := FACEBOOK.

(** The request [_upload_media] makes. *)
Definition photos_request (media_url : string) : Request :=
  let url := BASE_URL config ^^ "/" ^^ API_VERSION config ^^ "/"
             ^^ acc_account_id account ^^ "/photos" in
  let data := [("url", media_url);
               ("published", "false");
               ("access_token", acc_access_token account)] in
  with_data data (request "POST" url).

Definition _upload_media (media_url : string) : M json :=
  result <- _make_request env (photos_request media_url) ;;
  unless_error result (py_get result "id" JNull).

(** The request [create_post] ends with, for the form [data]. *)
Definition feed_request (data : list (string * string)) : Request :=
  let url := BASE_URL config ^^ "/" ^^ API_VERSION config ^^ "/"
             ^^ acc_account_id account ^^ "/feed" in
  with_data data (request "POST" url).

(** [data] before any media is attached. *)
Definition text_only (content : string) : list (string * string) :=
  [("message", content); ("access_token", acc_access_token account)].

Definition create_post (content : string) (media_urls : option (list string))
  : M json :=
  let data := text_only content in
  data <-
    (match some_media media_urls with
     | [] => ret data
     | media_urls =>
         media_ids <- upload_each _upload_media media_urls [] ;;
         match media_ids with
         | [] => ret data
         | _ =>
             ret (Py.dict_set data "attached_media"
                    (json_dumps env
                       (JArr (map (fun mid => JObj [("media_fbid", mid)])
                                  media_ids))))
         end
     end) ;;
  _make_request env (feed_request data).

(** The request [delete_post] makes. *)
Definition delete_request (post_id : string) : Request :=
  let url := BASE_URL config ^^ "/" ^^ API_VERSION config ^^ "/" ^^ post_id in
  let params := [("access_token", acc_access_token account)] in
  with_params params (request "DELETE" url).

Definition delete_post (post_id : string) : M bool :=
  result <- _make_request env (delete_request post_id) ;;
  has_error <- lift (py_in "error" result) ;;
  ret (negb has_error).

Definition get_post_analytics (post_id : string) : M json :=
  let url := BASE_URL config ^^ "/" ^^ API_VERSION config ^^ "/" ^^ post_id in
  let params :=
    [("fields", "reactions.summary(true),comments.summary(true),shares");
     ("access_token", acc_access_token account)] in
  result <- _make_request env (with_params params (request "GET" url)) ;;
  has_error <- lift (py_in "error" result) ;;
  if has_error then ret (JObj [])
  else
    reactions <- lift (py_get result "reactions" (JObj [])) ;;
    summary <- lift (py_get reactions "summary" (JObj [])) ;;
    likes <- lift (py_get summary "total_count" (JNum 0)) ;;
    comments <- lift (py_get result "comments" (JObj [])) ;;
    summary <- lift (py_get comments "summary" (JObj [])) ;;
    comments <- lift (py_get summary "total_count" (JNum 0)) ;;
    shares <- lift (py_get result "shares" (JObj [])) ;;
    shares <- lift (py_get shares "count" (JNum 0)) ;;
    ret (JObj [("likes", likes); ("comments", comments);
               ("shares", shares); ("raw_data", result)]).

(** The request [get_post_analytics] makes. *)
Definition analytics_request (post_id : string) : Request :=
  let url := BASE_URL config ^^ "/" ^^ API_VERSION config ^^ "/" ^^ post_id in
  let params :=
    [("fields", "reactions.summary(true),comments.summary(true),shares");
     ("access_token", acc_access_token account)] in
  with_params params (request "GET" url).

End WithEnv.

Definition api (env : Env) : SocialMediaAPI :=
  {| api_create_post := create_post env;
     api_delete_post := delete_post env;
     api_get_post_analytics := get_post_analytics env |}.

End FacebookAPI.

(* --------------------------------------------------------------------- *)
(** *** TwitterAPI *)

Module TwitterAPI.
Section WithEnv.

Variable env : Env.
Variable account : SocialMediaAccount.

Definition config : Config := TWITTER.

(** The download of the media goes through [requests.get] directly, not
    through [_make_request]. *)
Definition _upload_media (media_url : string) : M json :=
  let upload_url := "https://upload.twitter.com/1.1/media/upload.json" in
  let headers := [bearer account] in
  media_response <- requests_request env (request "GET" media_url) ;;
  if negb (rs_status_code media_response =? 200)%Z then ret JNull
  else
    let files := [("media", rs_content media_response)] in
    result <- _make_request env
                (with_files files
                   (with_headers headers (request "POST" upload_url))) ;;
    unless_error result (py_get result "media_id_string" JNull).

(** The request [create_post] ends with, for the body [data]. *)
Definition tweets_request (data : pydict) : Request :=
  let url := BASE_URL config ^^ "/tweets" in
  let headers := [bearer account; ("Content-Type", "application/json")] in
  with_json (JObj data) (with_headers headers (request "POST" url)).

(** [data] before any media is attached. *)
Definition text_only (content : string) : pydict :=
  [("text", JStr content)].

Definition create_post (content : string) (media_urls : option (list string))
  : M json :=
  let data := text_only content in
  data <-
    (match some_media media_urls with
     | [] => ret data
     | media_urls =>
         media_ids <- upload_each _upload_media media_urls [] ;;
         match media_ids with
         | [] => ret data
         | _ =>
             ret (Py.dict_set data "media"
                    (JObj [("media_ids", JArr media_ids)]))
         end
     end) ;;
  _make_request env (tweets_request data).

(** The request [delete_post] makes. *)
Definition delete_request (post_id : string) : Request :=
  let url := BASE_URL config ^^ "/tweets/" ^^ post_id in
  let headers := [bearer account] in
  with_headers headers (request "DELETE" url).

Definition delete_post (post_id : string) : M bool :=
  result <- _make_request env (delete_request post_id) ;;
  has_error <- lift (py_in "error" result) ;;
  ret (negb has_error).

Definition get_post_analytics (post_id : string) : M json :=
  let url := BASE_URL config ^^ "/tweets/" ^^ post_id in
  let headers := [bearer account] in
  let params := [("tweet.fields", "public_metrics,created_at");
                 ("expansions", "author_id")] in
  result <- _make_request env
              (with_params params
                 (with_headers headers (request "GET" url))) ;;
  has_error <- lift (py_in "error" result) ;;
  if has_error then ret (JObj [])
  else
    has_data <- lift (py_in "data" result) ;;
    if negb has_data then ret (JObj [])
    else
      data <- lift (py_getitem result "data") ;;
      metrics <- lift (py_get data "public_metrics" (JObj [])) ;;
      likes <- lift (py_get metrics "like_count" (JNum 0)) ;;
      comments <- lift (py_get metrics "reply_count" (JNum 0)) ;;
      shares <- lift (py_get metrics "retweet_count" (JNum 0)) ;;
      impressions <- lift (py_get metrics "impression_count" (JNum 0)) ;;
      ret (JObj [("likes", likes); ("comments", comments);
                 ("shares", shares); ("impressions", impressions);
                 ("raw_data", result)]).

(** The request [get_post_analytics] makes. *)
Definition analytics_request (post_id : string) : Request :=
  let url := BASE_URL config ^^ "/tweets/" ^^ post_id in
  let headers := [bearer account] in
  let params := [("tweet.fields", "public_metrics,created_at");
                 ("expansions", "author_id")] in
  with_params params (with_headers headers (request "GET" url)).

End WithEnv.

Definition api (env : Env) : SocialMediaAPI :=
  {| api_create_post := create_post env;
     api_delete_post := delete_post env;
     api_get_post_analytics := get_post_analytics env |}.

End TwitterAPI.

(* --------------------------------------------------------------------- *)
(** *** LinkedInAPI *)

Module LinkedInAPI.
Section WithEnv.

Variable env : Env.
Variable account : SocialMediaAccount.

Definition config : Config := LINKEDIN.

Definition json_headers : list (string * string) :=
  [bearer account; ("Content-Type", "application/json")].

Definition _upload_media (media_url : string) : M json :=
  let register_url := BASE_URL config ^^ "/assets?action=registerUpload" in
  let register_data :=
    JObj [("registerUploadRequest",
           JObj [("recipes",
                  JArr [JStr "urn:li:digitalmediaRecipe:feedshare-image"]);
                 ("owner",
                  JStr ("urn:li:person:" ^^ acc_account_id account));
                 ("serviceRelationships",
                  JArr [JObj [("relationshipType", JStr "OWNER");
                              ("identifier",
                               JStr "urn:li:userGeneratedContent")]])])] in
  result <- _make_request env
              (with_json register_data
                 (with_headers json_headers (request "POST" register_url))) ;;
  has_error <- lift (py_in "error" result) ;;
  if has_error then ret JNull
  else
    value <- lift (py_get result "value" (JObj [])) ;;
    asset <- lift (py_get value "asset" (JStr "")) ;;
    ret (JObj [("status", JStr "READY");
               ("description", JObj [("text", JStr "Uploaded media")]);
               ("media", asset)]).

(** [post_data], with the share content given. *)
Definition post_data (share_content : pydict) : json :=
  JObj [("author", JStr ("urn:li:person:" ^^ acc_account_id account));
        ("lifecycleState", JStr "PUBLISHED");
        ("specificContent",
         JObj [("com.linkedin.ugc.ShareContent", JObj share_content)]);
        ("visibility",
         JObj [("com.linkedin.ugc.MemberNetworkVisibility",
                JStr "PUBLIC")])].

(** The request [create_post] ends with, for the share content given. *)
Definition ugc_request (share_content : pydict) : Request :=
  let url := BASE_URL config ^^ "/ugcPosts" in
  with_json (post_data share_content)
    (with_headers json_headers (request "POST" url)).

(** The share content before any media is attached. *)
Definition text_only (content : string) : pydict :=
  [("shareCommentary", JObj [("text", JStr content)]);
   ("shareMediaCategory", JStr "NONE")].

Definition create_post (content : string) (media_urls : option (list string))
  : M json :=
  let share_content := text_only content in
  share_content <-
    (match some_media media_urls with
     | [] => ret share_content
     | media_urls =>
         media_assets <- upload_each _upload_media media_urls [] ;;
         match media_assets with
         | [] => ret share_content
         | _ =>
             ret (Py.dict_set
                    (Py.dict_set share_content
                       "shareMediaCategory" (JStr "IMAGE"))
                    "media" (JArr media_assets))
         end
     end) ;;
  _make_request env (ugc_request share_content).

(** The request [delete_post] makes. *)
Definition delete_request (post_id : string) : Request :=
  let url := BASE_URL config ^^ "/ugcPosts/" ^^ post_id in
  let headers := [bearer account] in
  with_headers headers (request "DELETE" url).

Definition delete_post (post_id : string) : M bool :=
  result <- _make_request env (delete_request post_id) ;;
  has_error <- lift (py_in "error" result) ;;
  ret (negb has_error).

Definition get_post_analytics (post_id : string) : M json :=
  let url := BASE_URL config ^^ "/socialActions/" ^^ post_id in
  let headers := [bearer account] in
  result <- _make_request env (with_headers headers (request "GET" url)) ;;
  has_error <- lift (py_in "error" result) ;;
  if has_error then ret (JObj [])
  else
    likes <- lift (py_get result "numLikes" (JNum 0)) ;;
    comments <- lift (py_get result "numComments" (JNum 0)) ;;
    shares <- lift (py_get result "numShares" (JNum 0)) ;;
    ret (JObj [("likes", likes); ("comments", comments);
               ("shares", shares); ("raw_data", result)]).

(** The request [get_post_analytics] makes. *)
Definition analytics_request (post_id : string) : Request :=
  let url := BASE_URL config ^^ "/socialActions/" ^^ post_id in
  let headers := [bearer account] in
  with_headers headers (request "GET" url).

End WithEnv.

Definition api (env : Env) : SocialMediaAPI :=
  {| api_create_post := create_post env;
     api_delete_post := delete_post env;
     api_get_post_analytics := get_post_analytics env |}.

End LinkedInAPI.

(* ===================================================================== *)
(** ** The object-relational layer

    Only what the service uses: [get], [create], [get_or_create],
    [update_or_create] and [save], with the constraints declared in
    models.py ([unique_together], columns that are not nullable).
    Limits that depend on the database backend (column widths, integer
    ranges) are left out. *)

Module ORM.
Section WithEnv.

Variable env : Env.

Definition now : M Z :=
  fun st => (Ok (clock env (st_tick st)), tick st).

Definition fresh_pk : M nat :=
  fun st =>
    let d := st_db st in
    (Ok (db_next_pk d),
     {| st_tick := st_tick st;
        st_db := {| db_accounts := db_accounts d;
                    db_posts := db_posts d;
                    db_publications := db_publications d;
                    db_analytics := db_analytics d;
                    db_next_pk := S (db_next_pk d) |} |}).

Definition set_accounts (l : list SocialMediaAccount) (d : DB) : DB :=
  {| db_accounts := l; db_posts := db_posts d;
     db_publications := db_publications d;
     db_analytics := db_analytics d; db_next_pk := db_next_pk d |}.
Definition set_posts (l : list Post) (d : DB) : DB :=
  {| db_accounts := db_accounts d; db_posts := l;
     db_publications := db_publications d;
     db_analytics := db_analytics d; db_next_pk := db_next_pk d |}.
Definition set_publications (l : list PostPublication) (d : DB) : DB :=
  {| db_accounts := db_accounts d; db_posts := db_posts d;
     db_publications := l;
     db_analytics := db_analytics d; db_next_pk := db_next_pk d |}.
Definition set_analytics (l : list PostAnalytics) (d : DB) : DB :=
  {| db_accounts := db_accounts d; db_posts := db_posts d;
     db_publications := db_publications d;
     db_analytics := l; db_next_pk := db_next_pk d |}.

(** [CharField] / [TextField] on a column that is not nullable:
    a string is stored as it is, [None] violates the constraint, any
    other object is stored as [str(value)]. *)
Definition text_field (v : json) : res string :=
  match v with
  | JStr s => Ok s
  | JNull => Raise (Exn IntegrityError "NOT NULL constraint failed")
  | _ => Ok (py_repr env v)
  end.

(** [IntegerField.get_prep_value]: [int(value)], [None] kept. *)
Definition integer_field (v : json) : res (option Z) :=
  match v with
  | JNull => Ok None
  | JNum z => Ok (Some z)
  | JBool b => Ok (Some (if b then 1 else 0)%Z)
  | JStr s =>
      match py_int env s with
      | Some z => Ok (Some z)
      | None => Raise (Exn ValueError "Field expected a number")
      end
  | _ => Raise (Exn TypeError "Field expected a number")
  end.

(* ------------------------------------------------------------------- *)
(** *** SocialMediaAccount *)

Definition account_matches (user : nat) (platform : string)
           (a : SocialMediaAccount) : bool :=
  Nat.eqb (acc_user a) (user) && String.eqb (acc_platform a) platform
  && acc_is_active a.

(** [SocialMediaAccount.objects.get(user=, platform=, is_active=True)]. *)
Definition SocialMediaAccount_get (user : nat) (platform : string)
  : M SocialMediaAccount :=
  d <- get_db ;;
  match filter (account_matches user platform) (db_accounts d) with
  | [] =>
      raise (Exn DoesNotExist
               "SocialMediaAccount matching query does not exist.")
  | [a] => ret a
  | _ =>
      raise (Exn MultipleObjectsReturned
               "get() returned more than one SocialMediaAccount")
  end.

(** Following a foreign key to an account. *)
Definition SocialMediaAccount_by_pk (pk : nat) : M SocialMediaAccount :=
  d <- get_db ;;
  match find (fun a => Nat.eqb (acc_pk a) (pk)) (db_accounts d) with
  | Some a => ret a
  | None =>
      raise (Exn DoesNotExist
               "SocialMediaAccount matching query does not exist.")
  end.

Definition same_account_key (user : nat) (platform account_id : string)
           (a : SocialMediaAccount) : bool :=
  Nat.eqb (acc_user a) (user) && String.eqb (acc_platform a) platform
  && String.eqb (acc_account_id a) account_id.

(** [SocialMediaAccount.objects.update_or_create(user=, platform=,
    account_id=, defaults={account_name, access_token, is_active})].
    The values are those of the request, of any JSON type.  The lookup
    and the row take their text ([text_field]); a [None] among them
    violates NOT NULL when the row is written, inside the transaction
    of [update_or_create], so that nothing is written then. *)
Definition SocialMediaAccount_update_or_create
           (user : nat) (platform account_id : json)
           (account_name access_token : json) (is_active : bool)
  : M (SocialMediaAccount * bool) :=
  platform <- lift (text_field platform) ;;
  account_id <- lift (text_field account_id) ;;
  d <- get_db ;;
  match find (same_account_key user platform account_id) (db_accounts d) with
  | Some a =>
      account_name <- lift (text_field account_name) ;;
      access_token <- lift (text_field access_token) ;;
      let a' := {| acc_pk := acc_pk a; acc_user := acc_user a;
                   acc_platform := acc_platform a;
                   acc_account_id := acc_account_id a;
                   acc_account_name := account_name;
                   acc_access_token := access_token;
                   acc_is_active := is_active |} in
      put_db (set_accounts
                (map (fun x => if Nat.eqb (acc_pk x) (acc_pk a) then a' else x)
                     (db_accounts d)) d) ;;;
      ret (a', false)
  | None =>
      account_name <- lift (text_field account_name) ;;
      access_token <- lift (text_field access_token) ;;
      pk <- fresh_pk ;;
      d <- get_db ;;
      let a' := {| acc_pk := pk; acc_user := user;
                   acc_platform := platform;
                   acc_account_id := account_id;
                   acc_account_name := account_name;
                   acc_access_token := access_token;
                   acc_is_active := is_active |} in
      put_db (set_accounts (db_accounts d ++ [a']) d) ;;;
      ret (a', true)
  end.

(* ------------------------------------------------------------------- *)
(** *** Post *)

(** [post.save()]: the row with this primary key is updated, or
    inserted when there is none. *)
Definition Post_save (post : Post) : M unit :=
  d <- get_db ;;
  if existsb (fun p => Nat.eqb (post_pk p) (post_pk post)) (db_posts d)
  then put_db (set_posts
                 (map (fun p => if Nat.eqb (post_pk p) (post_pk post)
                                then post else p)
                      (db_posts d)) d)
  else put_db (set_posts (db_posts d ++ [post]) d).

(** [Post.objects.create(user=, content=, platforms=, scheduled_date=,
    status=)]; [published_date] takes its default, [None]. *)
Definition Post_create (user : nat) (content : string)
           (platforms : list string) (scheduled_date : option Z)
           (status : Status) : M Post :=
  pk <- fresh_pk ;;
  d <- get_db ;;
  let post := {| post_pk := pk; post_user := user;
                 post_content := content; post_platforms := platforms;
                 post_status := status;
                 post_scheduled_date := scheduled_date;
                 post_published_date := None |} in
  put_db (set_posts (db_posts d ++ [post]) d) ;;;
  ret post.

(** The row [get_object_or_404(Post, pk=pk, user=user)] looks for; the
    primary key identifies at most one row. *)
Definition Post_lookup (pk user : nat) (d : DB) : option Post :=
  find (fun p => Nat.eqb (post_pk p) pk && Nat.eqb (post_user p) user)
       (db_posts d).

(* ------------------------------------------------------------------- *)
(** *** PostPublication *)

Definition same_pair (post account : nat) (p : PostPublication) : bool :=
  Nat.eqb (pub_post p) (post) && Nat.eqb (pub_account p) (account).

(** [PostPublication.objects.create(post=, account=, platform_post_id=,
    published_at=, error_message=, is_success=)].  The insertion is
    refused when a row for the same (post, account) exists
    ([unique_together]). *)
Definition PostPublication_create
           (post : Post) (account : SocialMediaAccount)
           (platform_post_id : json) (published_at : option Z)
           (error_message : json) (is_success : bool) : M PostPublication :=
  id_text <- lift (text_field platform_post_id) ;;
  error_text <- lift (text_field error_message) ;;
  d <- get_db ;;
  if existsb (same_pair (post_pk post) (acc_pk account)) (db_publications d)
  then raise (Exn IntegrityError
                "UNIQUE constraint failed: postpublication.post_id, postpublication.account_id")
  else
    pk <- fresh_pk ;;
    d <- get_db ;;
    let row := {| pub_pk := pk;
                  pub_post := post_pk post;
                  pub_account := acc_pk account;
                  pub_platform_post_id := id_text;
                  pub_published_at := published_at;
                  pub_error_message := error_text;
                  pub_is_success := is_success |} in
    put_db (set_publications (db_publications d ++ [row]) d) ;;;
    ret row.

(** [post.publications.filter(is_success=True)]. *)
Definition successful_publications (post : Post) : M (list PostPublication) :=
  d <- get_db ;;
  ret (filter (fun p => Nat.eqb (pub_post p) (post_pk post) && pub_is_success p)
              (db_publications d)).

(* ------------------------------------------------------------------- *)
(** *** PostAnalytics *)

(** A [PostAnalytics] instance in memory: its attributes hold whatever
    was assigned, the conversion to integers happens at [save]. *)
Record AnalyticsObj : Type := {
  o_publication : nat;
  o_likes : json;
  o_comments : json;
  o_shares : json;
  o_impressions : json;
  o_reach : json;
  o_clicks : json;
  o_raw_data : json
}.

Definition of_row (r : PostAnalytics) : AnalyticsObj :=
  {| o_publication := an_publication r;
     o_likes := JNum (an_likes r);
     o_comments := JNum (an_comments r);
     o_shares := JNum (an_shares r);
     o_impressions := JNum (an_impressions r);
     o_reach := JNum (an_reach r);
     o_clicks := JNum (an_clicks r);
     o_raw_data := an_raw_data r |}.

(** The field defaults of models.py. *)
Definition blank (publication : nat) : AnalyticsObj :=
  {| o_publication := publication;
     o_likes := JNum 0; o_comments := JNum 0; o_shares := JNum 0;
     o_impressions := JNum 0; o_reach := JNum 0; o_clicks := JNum 0;
     o_raw_data := JObj [] |}.

(** [setattr(obj, key, value)] for the fields of the model; [None] for
    a name that is not a field. *)
Definition set_field (o : AnalyticsObj) (key : string) (value : json)
  : option AnalyticsObj :=
  let mk l c s i r k w :=
    {| o_publication := o_publication o;
       o_likes := l; o_comments := c; o_shares := s; o_impressions := i;
       o_reach := r; o_clicks := k; o_raw_data := w |} in
  let '(l, c, s, i, r, k, w) :=
    (o_likes o, o_comments o, o_shares o, o_impressions o,
     o_reach o, o_clicks o, o_raw_data o) in
  if String.eqb key "likes" then Some (mk value c s i r k w)
  else if String.eqb key "comments" then Some (mk l value s i r k w)
  else if String.eqb key "shares" then Some (mk l c value i r k w)
  else if String.eqb key "impressions" then Some (mk l c s value r k w)
  else if String.eqb key "reach" then Some (mk l c s i value k w)
  else if String.eqb key "clicks" then Some (mk l c s i r value w)
  else if String.eqb key "raw_data" then Some (mk l c s i r k value)
  else None.

(** [setattr] as Python does it: a name that is not a field becomes a
    plain attribute of the instance, which no [save] writes. *)
Definition setattr (o : AnalyticsObj) (key : string) (value : json)
  : AnalyticsObj :=
  match set_field o key value with
  | Some o' => o'
  | None => o
  end.

Definition not_null {A} (v : option A) : res A :=
  match v with
  | Some a => Ok a
  | None => Raise (Exn IntegrityError "NOT NULL constraint failed")
  end.

(** The row an instance is written as; the conversions come first, in
    field order, the constraints of the table after them. *)
Definition to_row (o : AnalyticsObj) : M PostAnalytics :=
  likes <- lift (integer_field (o_likes o)) ;;
  comments <- lift (integer_field (o_comments o)) ;;
  shares <- lift (integer_field (o_shares o)) ;;
  impressions <- lift (integer_field (o_impressions o)) ;;
  reach <- lift (integer_field (o_reach o)) ;;
  clicks <- lift (integer_field (o_clicks o)) ;;
  likes <- lift (not_null likes) ;;
  comments <- lift (not_null comments) ;;
  shares <- lift (not_null shares) ;;
  impressions <- lift (not_null impressions) ;;
  reach <- lift (not_null reach) ;;
  clicks <- lift (not_null clicks) ;;
  match o_raw_data o with
  | JNull => raise (Exn IntegrityError "NOT NULL constraint failed")
  | raw_data =>
      ret {| an_publication := o_publication o;
             an_likes := likes; an_comments := comments;
             an_shares := shares; an_impressions := impressions;
             an_reach := reach; an_clicks := clicks;
             an_raw_data := raw_data |}
  end.

Definition for_publication (pk : nat) (r : PostAnalytics) : bool :=
  Nat.eqb (an_publication r) pk.

(** [post_analytics.save()] of an instance that has a row already. *)
Definition PostAnalytics_save (o : AnalyticsObj) : M unit :=
  row <- to_row o ;;
  d <- get_db ;;
  put_db (set_analytics
            (map (fun r => if for_publication (o_publication o) r
                           then row else r)
                 (db_analytics d)) d).

(** [PostAnalytics(publication=publication, **defaults)]: a keyword
    that is not a field is a [TypeError]. *)
Fixpoint init_kwargs (o : AnalyticsObj) (kwargs : pydict) : res AnalyticsObj :=
  match kwargs with
  | [] => Ok o
  | (key, value) :: rest =>
      match set_field o key value with
      | Some o' => init_kwargs o' rest
      | None =>
          Raise (Exn TypeError
                   ("PostAnalytics() got unexpected keyword arguments: "
                    ^^ key))
      end
  end.

(** [PostAnalytics.objects.get_or_create(publication=, defaults=)]. *)
Definition PostAnalytics_get_or_create
           (publication : PostPublication) (defaults : json)
  : M (AnalyticsObj * bool) :=
  d <- get_db ;;
  match find (for_publication (pub_pk publication)) (db_analytics d) with
  | Some r => ret (of_row r, false)
  | None =>
      match defaults with
      | JObj kwargs =>
          o <- lift (init_kwargs (blank (pub_pk publication)) kwargs) ;;
          row <- to_row o ;;
          d <- get_db ;;
          put_db (set_analytics (db_analytics d ++ [row]) d) ;;;
          ret (o, true)
      | _ => raise (Exn AttributeError "object has no attribute 'items'")
      end
  end.

End WithEnv.
End ORM.

(* ===================================================================== *)
(** ** services/post_service.py *)

Module PostService.
Section WithEnv.

Variable env : Env.

Definition API_CLASSES (platform : string) : option SocialMediaAPI :=
  if String.eqb platform "facebook" then Some (FacebookAPI.api env)
  else if String.eqb platform "twitter" then Some (TwitterAPI.api env)
  else if String.eqb platform "linkedin" then Some (LinkedInAPI.api env)
  else None.

(** The map [publish_post] returns: platform name to outcome dict. *)
Definition Results := list (string * pydict).

(** The body of the loop of [publish_post], one platform. *)
Definition publish_to (post : Post) (media_urls : option (list string))
           (results : Results) (platform : string) : M Results :=
  try_except
    (account <- ORM.SocialMediaAccount_get (post_user post) platform ;;
     match API_CLASSES platform with
     | None =>
         ret (Py.dict_set results platform
                [("error",
                  JStr ("Platform " ^^ platform ^^ " not supported"))])
     | Some api =>
         result <- api_create_post api account (post_content post)
                     media_urls ;;
         platform_post_id <- lift (py_get result "id" (JStr "")) ;;
         has_error <- lift (py_in "error" result) ;;
         published_at <-
           (if negb has_error
            then (t <- ORM.now env ;; ret (Some t))
            else ret None) ;;
         error_message <- lift (py_get result "error" (JStr "")) ;;
         has_error <- lift (py_in "error" result) ;;
         publication <- ORM.PostPublication_create env post account
                          platform_post_id published_at error_message
                          (negb has_error) ;;
         ret (Py.dict_set results platform
                [("success", JBool (pub_is_success publication));
                 ("post_id", platform_post_id);
                 ("error", error_message)])
     end)
    (fun e =>
       if is_DoesNotExist (exn_cls e)
       then Some (ret (Py.dict_set results platform
                         [("error",
                           JStr ("No active " ^^ platform
                                 ^^ " account found"))]))
       else Some (ret (Py.dict_set results platform
                         [("error", JStr (exn_str e))]))).

Fixpoint for_each {A B} (body : A -> B -> M A) (l : list B) (acc : A)
  : M A :=
  match l with
  | [] => ret acc
  | x :: rest => acc' <- body acc x ;; for_each body rest acc'
  end.

(** [[p for p, r in results.items() if r.get('success')]] *)
Definition successful_platforms (results : Results) : list string :=
  map fst
    (filter (fun pr => Py.truthy (Py.dict_get (snd pr) "success" JNull))
            results).

Definition set_status (s : Status) (post : Post) : Post :=
  {| post_pk := post_pk post; post_user := post_user post;
     post_content := post_content post;
     post_platforms := post_platforms post;
     post_status := s;
     post_scheduled_date := post_scheduled_date post;
     post_published_date := post_published_date post |}.

Definition set_published_date (t : option Z) (post : Post) : Post :=
  {| post_pk := post_pk post; post_user := post_user post;
     post_content := post_content post;
     post_platforms := post_platforms post;
     post_status := post_status post;
     post_scheduled_date := post_scheduled_date post;
     post_published_date := t |}.

(** [PostService.publish_post]; the post object is mutated in place,
    so it is returned next to the results. *)
Definition publish_post (post : Post) (media_urls : option (list string))
  : M (Results * Post) :=
  results <- for_each (publish_to post media_urls) (post_platforms post) [] ;;
  post <-
    (match successful_platforms results with
     | _ :: _ =>
         let post := set_status published post in
         t <- ORM.now env ;;
         ret (set_published_date (Some t) post)
     | [] => ret (set_status failed post)
     end) ;;
  ORM.Post_save post ;;;
  ret (results, post).

(** The map [get_post_analytics] returns. *)
Definition Analytics := list (string * json).

(** [v.items()]. *)
Definition py_items (v : json) : res pydict :=
  match v with
  | JObj d => Ok d
  | _ => Raise (Exn AttributeError "object has no attribute 'items'")
  end.

(** [[
      for key, value in platform_analytics.items():
          if key != 'raw_data':
              setattr(post_analytics, key, value)
    ]] *)
Fixpoint copy_counters (o : ORM.AnalyticsObj) (items : pydict)
  : ORM.AnalyticsObj :=
  match items with
  | [] => o
  | (key, value) :: rest =>
      copy_counters
        (if negb (String.eqb key "raw_data") then ORM.setattr o key value
         else o)
        rest
  end.

(** The body of the loop of [get_post_analytics], one publication. *)
Definition sync_publication (analytics : Analytics)
           (publication : PostPublication) : M Analytics :=
  try_except
    (account <- ORM.SocialMediaAccount_by_pk (pub_account publication) ;;
     match API_CLASSES (acc_platform account) with
     | None => ret analytics
     | Some api =>
         platform_analytics <-
           api_get_post_analytics api account
             (pub_platform_post_id publication) ;;
         if Py.truthy platform_analytics then
           got <- ORM.PostAnalytics_get_or_create env publication
                    platform_analytics ;;
           let '(post_analytics, created) := got in
           (if negb created then
              items <- lift (py_items platform_analytics) ;;
              let post_analytics := copy_counters post_analytics items in
              raw_data <- lift (py_get platform_analytics "raw_data"
                                  (JObj [])) ;;
              let post_analytics :=
                ORM.setattr post_analytics "raw_data" raw_data in
              ORM.PostAnalytics_save env post_analytics
            else ret tt) ;;;
           ret (Py.dict_set analytics (acc_platform account)
                  platform_analytics)
         else ret analytics
     end)
    (fun e =>
       Some (account <- ORM.SocialMediaAccount_by_pk
                          (pub_account publication) ;;
             ret (Py.dict_set analytics (acc_platform account)
                    (JObj [("error", JStr (exn_str e))])))).

(** [PostService.get_post_analytics]. *)
Definition get_post_analytics (post : Post) : M Analytics :=
  publications <- ORM.successful_publications post ;;
  for_each sync_publication publications [].

(** [PostService.create_post]: the post is created as a draft and
    published at once, or created as scheduled and left alone.  The
    object returned is the one [publish_post] has updated. *)
Definition create_post (user : nat) (content : string)
           (platforms : list string) (scheduled_date : option Z)
           (media_urls : option (list string)) : M Post :=
  post <- ORM.Post_create user content platforms scheduled_date
            (match scheduled_date with
             | Some _ => scheduled
             | None => draft
             end) ;;
  match scheduled_date with
  | None =>
      published <- publish_post post media_urls ;;
      ret (snd published)
  | Some _ => ret post
  end.

(** The body of the loop of [PostService.delete_post], one publication. *)
Definition delete_publication (results : Results)
           (publication : PostPublication) : M Results :=
  try_except
    (account <- ORM.SocialMediaAccount_by_pk (pub_account publication) ;;
     match API_CLASSES (acc_platform account) with
     | None => ret results
     | Some api =>
         success <- api_delete_post api account
                      (pub_platform_post_id publication) ;;
         ret (Py.dict_set results (acc_platform account)
                [("success", JBool success);
                 ("error",
                  JStr (if success then ""
                        else "Failed to delete from platform"))])
     end)
    (fun e =>
       Some (account <- ORM.SocialMediaAccount_by_pk
                          (pub_account publication) ;;
             ret (Py.dict_set results (acc_platform account)
                    [("success", JBool false);
                     ("error", JStr (exn_str e))]))).

(** [PostService.delete_post]. *)
Definition delete_post (post : Post) : M Results :=
  publications <- ORM.successful_publications post ;;
  for_each delete_publication publications [].

End WithEnv.
End PostService.

(* ===================================================================== *)
(** ** views.py: connecting an account *)

(** [SocialMediaAccountViewSet.connect_account].  The four values are
    read with [request.data.get], so each is a JSON value or [None]
    ([JNull]) when the request does not carry it; only three of them
    are required.  [None] as a result is the 400 response given when a
    required value is missing or empty. *)
Definition connect_account (env : Env) (user : nat)
           (platform access_token account_id account_name : json)
  : M (option (SocialMediaAccount * bool)) :=
  if negb (Py.truthy platform && Py.truthy access_token
           && Py.truthy account_id)
  then ret None
  else
    r <- ORM.SocialMediaAccount_update_or_create env user platform account_id
           account_name access_token true ;;
    ret (Some r).

(* ===================================================================== *)
(** ** views.py: publishing a draft *)

(** What a view answers. *)
Inductive HttpResponse (A : Type) : Type :=
| Http200 (body : A)
| Http400 (error : string)
| Http404.
Arguments Http200 {A} body.
Arguments Http400 {A} error.
Arguments Http404 {A}.

(** [PostViewSet.publish]: "Manually publish a draft post".
    [media_urls] is [request.data.get('media_urls', [])]. *)
Definition publish (env : Env) (user pk : nat) (media_urls : list string)
  : M (HttpResponse (Post * PostService.Results)) :=
  d <- get_db ;;
  match ORM.Post_lookup pk user d with
  | None => ret Http404
  | Some post =>
      match post_status post with
      | draft =>
          results <- PostService.publish_post env post (Some media_urls) ;;
          ret (Http200 (snd results, fst results))
      | _ => ret (Http400 "Only draft posts can be published")
      end
  end.

(* ===================================================================== *)
(** ** serializers.py: validating the platforms of a post *)

(** [[
      for platform in value:
          if platform not in available_platforms:
              raise serializers.ValidationError(...)
      return value
    ]]
    with the [ValidationError] as [inl] of its message. *)
Fixpoint check_platforms (available : list string) (value : list string)
  : option string :=
  match value with
  | [] => None
  | platform :: rest =>
      if existsb (String.eqb platform) available
      then check_platforms available rest
      else Some ("No active " ^^ platform
                 ^^ " account found. Please connect your account first.")
  end.

(** [PostSerializer.validate_platforms]. *)
Definition validate_platforms (user : nat) (value : list string)
  : M (string + list string) :=
  d <- get_db ;;
  let available_platforms :=
    map acc_platform
        (filter (fun a => Nat.eqb (acc_user a) user && acc_is_active a)
                (db_accounts d)) in
  match check_platforms available_platforms value with
  | Some message => ret (inl message)
  | None => ret (inr value)
  end.

(* ===================================================================== *)
(** ** tasks.py: the periodic jobs *)

(** [status='scheduled', scheduled_date__lte=now]; a post without a
    scheduled date does not match. *)
Definition is_due (now : Z) (p : Post) : bool :=
  match post_status p, post_scheduled_date p with
  | scheduled, Some t => (t <=? now)%Z
  | _, _ => false
  end.

(** The body of the loop of [publish_scheduled_posts]; the [print]s
    leave no trace. *)
Definition publish_scheduled (env : Env) (_ : unit) (post : Post) : M unit :=
  try_except
    (results <- PostService.publish_post env post None ;;
     ret tt)
    (fun e =>
       Some (ORM.Post_save (PostService.set_status failed post))).

(** [publish_scheduled_posts]: "Publish posts that are scheduled for
    now or earlier". *)
Definition publish_scheduled_posts (env : Env) : M unit :=
  now <- ORM.now env ;;
  d <- get_db ;;
  PostService.for_each (publish_scheduled env)
    (filter (is_due now) (db_posts d)) tt.

(* ===================================================================== *)
(** ** Predicates used in the statements *)

(** Weakest precondition of a computation: [Q] holds of what [m] gives
    from [st], be it a value or an exception, and of the state reached. *)
Definition wp {A} (m : M A) (Q : res A -> State -> Prop) (st : State) : Prop :=
  Q (fst (m st)) (snd (m st)).

(** The computation leaves the database as it found it. *)
Definition keeps_db {A} (m : M A) : Prop :=
  forall st, st_db (snd (m st)) = st_db st.

(** The computation never raises. *)
Definition total {A} (m : M A) : Prop :=
  forall st, exists a, fst (m st) = Ok a.

Definition pair_of (p : PostPublication) : nat * nat :=
  (pub_post p, pub_account p).

(** The constraint [unique_together = ['post', 'account']]. *)
Definition unique_pairs (l : list PostPublication) : Prop :=
  NoDup (map pair_of l).

(** What a publish may do to the database: rows of [PostPublication]
    are added after the existing ones, for pairs that had no row, and
    nothing else changes but the primary-key counter. *)
Definition grows (d d' : DB) : Prop :=
  db_accounts d' = db_accounts d /\
  db_posts d' = db_posts d /\
  db_analytics d' = db_analytics d /\
  exists added,
    db_publications d' = db_publications d ++ added /\
    (unique_pairs (db_publications d) -> unique_pairs (db_publications d')).

(** [r.get('success')] is true for the outcome [r]. *)
Definition succeeded (r : pydict) : bool :=
  Py.truthy (Py.dict_get r "success" JNull).

(** The stored snapshot of a publication, if any. *)
Definition snapshot (d : DB) (publication : nat) : option PostAnalytics :=
  find (ORM.for_publication publication) (db_analytics d).

(** Every publication row points to an account row. *)
Definition accounts_exist (d : DB) : Prop :=
  forall p, In p (db_publications d) ->
            exists a, find (fun a => Nat.eqb (acc_pk a) (pub_account p))
                           (db_accounts d) = Some a.

(** Primary keys of publications are distinct. *)
Definition distinct_pks (d : DB) : Prop :=
  NoDup (map pub_pk (db_publications d)).

(** A response that [_make_request] turns into an error dict: none at
    all, a 4xx or 5xx status, or a body that is not JSON. *)
Definition remote_failure (r : NetResult) : bool :=
  match r with
  | Failed _ => true
  | Responded r =>
      ((400 <=? rs_status_code r)%Z && (rs_status_code r <? 600)%Z)
      || match rs_json r with None => true | Some _ => false end
  end.

(** An answer that leaves [FacebookAPI._upload_media] without a media
    id: no answer at all, a 4xx or 5xx status, a body that is not JSON,
    a body with an ['error'] entry, or a body whose ['id'] is missing,
    [None] or empty. *)
Definition upload_failed (r : NetResult) : bool :=
  match r with
  | Failed _ => true
  | Responded r =>
      if (400 <=? rs_status_code r)%Z && (rs_status_code r <? 600)%Z
      then true
      else
        match rs_json r with
        | None => true
        | Some j =>
            match py_in "error" j with
            | Ok true => true
            | Ok false =>
                match py_get j "id" JNull with
                | Ok media_id => negb (Py.truthy media_id)
                | Raise _ => false
                end
            | Raise _ => false
            end
        end
  end.

(** The state after [n] more interactions with the outside world. *)
Definition advance (n : nat) (st : State) : State :=
  {| st_tick := n + st_tick st; st_db := st_db st |}.


(** What the synchronisation of the publication [k] may do to the
    database: only the snapshot of [k] may change. *)
Definition touches_only (k : nat) (d d' : DB) : Prop :=
  db_accounts d' = db_accounts d /\
  db_publications d' = db_publications d /\
  forall k', k' <> k -> snapshot d' k' = snapshot d k'.

(** The publication is a successful attempt of the post. *)
Definition successful_attempt (post : Post) (p : PostPublication) : bool :=
  Nat.eqb (pub_post p) (post_pk post) && pub_is_success p.

(** The account a publication was made with. *)
Definition account_of (d : DB) (p : PostPublication)
  : option SocialMediaAccount :=
  find (fun a => Nat.eqb (acc_pk a) (pub_account p)) (db_accounts d).

(** The adapter has nothing to report for the publication when it is
    asked in the state [st]: its call returns an empty result. *)
Definition nothing_to_report (env : Env) (st : State) (p : PostPublication)
  : Prop :=
  exists account api platform_analytics,
    account_of (st_db st) p = Some account /\
    PostService.API_CLASSES env (acc_platform account) = Some api /\
    fst (api_get_post_analytics api account (pub_platform_post_id p) st)
    = Ok platform_analytics /\
    Py.truthy platform_analytics = false.

(** The request by which the adapter of a platform reads the analytics
    of a post; none for a platform without adapter. *)
Definition analytics_request_of (platform : string)
           (account : SocialMediaAccount) (post_id : string)
  : option Request :=
  if String.eqb platform "facebook"
  then Some (FacebookAPI.analytics_request account post_id)
  else if String.eqb platform "twitter"
  then Some (TwitterAPI.analytics_request account post_id)
  else if String.eqb platform "linkedin"
  then Some (LinkedInAPI.analytics_request account post_id)
  else None.

(** The requests for the analytics of the publications [l], in order:
    one for each publication whose account is on a platform with an
    adapter. *)
Definition analytics_requests (d : DB) (l : list PostPublication)
  : list Request :=
  flat_map
    (fun p =>
       match account_of d p with
       | Some account =>
           match analytics_request_of (acc_platform account) account
                   (pub_platform_post_id p) with
           | Some rq => [rq]
           | None => []
           end
       | None => []
       end) l.

(** The successful attempts of a post, as [get_post_analytics] and
    [delete_post] go through them. *)
Definition successful_attempts (d : DB) (post : Post)
  : list PostPublication :=
  filter (successful_attempt post) (db_publications d).

(** The same world with another network. *)
Definition with_net (network : nat -> Request -> NetResult) (env : Env)
  : Env :=
  {| net := network;
     clock := clock env;
     json_dumps := json_dumps env;
     http_error_msg := http_error_msg env;
     decode_error_msg := decode_error_msg env;
     py_repr := py_repr env;
     py_int := py_int env |}.

(** The computation makes no interaction with the outside world. *)
Definition keeps_tick {A} (m : M A) : Prop :=
  forall st, st_tick (snd (m st)) = st_tick st.

(* ===================================================================== *)
(** ** Concrete worlds *)

Module Scenario.

Definition answer (status : Z) (body : option json) : NetResult :=
  Responded {| rs_status_code := status; rs_json := body; rs_content := "" |}.

Definition error_text (status : Z) (url : string) : string :=
  (if (status =? 429)%Z then "429 Client Error: Too Many Requests"
   else if (status <? 500)%Z then "Client Error"
   else "Server Error") ^^ " for url: " ^^ url.

(** A world with the given network; the clock shows 1000 at the start
    and advances by one at each interaction. *)
Definition world (network : nat -> Request -> NetResult) : Env :=
  {| net := network;
     clock := fun n => (1000 + Z.of_nat n)%Z;
     json_dumps := fun _ => "[...]";
     http_error_msg := error_text;
     decode_error_msg := "Expecting value: line 1 column 1 (char 0)";
     py_repr := fun _ => "<object>";
     py_int := fun _ => None |}.

Definition account (pk : nat) (platform : string) : SocialMediaAccount :=
  {| acc_pk := pk; acc_user := 1; acc_platform := platform;
     acc_account_id := "me"; acc_account_name := "Me";
     acc_access_token := "secret"; acc_is_active := true |}.

Definition facebook_account := account 1 "facebook".
Definition twitter_account := account 2 "twitter".

Definition post (platforms : list string) : Post :=
  {| post_pk := 7; post_user := 1; post_content := "hello";
     post_platforms := platforms; post_status := draft;
     post_scheduled_date := None; post_published_date := None |}.

Definition start (accounts : list SocialMediaAccount) (p : Post) : State :=
  {| st_tick := 0;
     st_db := {| db_accounts := accounts; db_posts := [p];
                 db_publications := []; db_analytics := [];
                 db_next_pk := 100 |} |}.

Definition to (site : string) (rq : Request) : bool :=
  Py.str_contains site (rq_url rq).

(** What a computation returned, if it did. *)
Definition returned {A} (x : res A * State) : option A :=
  match fst x with
  | Ok a => Some a
  | Raise _ => None
  end.

(** Facebook accepts the post with id ["fb123"], Twitter answers 429. *)
Definition facebook_ok_twitter_limited (_ : nat) (rq : Request) : NetResult :=
  if to "graph.facebook.com" rq
  then answer 201 (Some (JObj [("id", JStr "fb123")]))
  else answer 429 None.

(** Both platforms accept the post; Twitter answers in the shape of its
    API, the created tweet under ["data"]. *)
Definition all_accept (_ : nat) (rq : Request) : NetResult :=
  if to "graph.facebook.com" rq
  then answer 200 (Some (JObj [("id", JStr "fb123")]))
  else answer 201 (Some (JObj [("data",
                                JObj [("id", JStr "1445880548472328192");
                                      ("text", JStr "hello")])])).

(** The first request is answered 500, the later ones are accepted. *)
Definition fails_once (n : nat) (rq : Request) : NetResult :=
  match n with
  | 0 => answer 500 None
  | _ => answer 200 (Some (JObj [("id", JStr "fb123")]))
  end.


(** The media cannot be fetched: the connection is refused. *)
Definition media_unreachable (_ : nat) (rq : Request) : NetResult :=
  if to "img.example" rq then Failed "Connection refused"
  else answer 201 (Some (JObj [("data",
                                JObj [("id", JStr "1445880548472328192");
                                      ("text", JStr "hello")])])).

(** A 200 answer that says the deletion did not happen. *)
Definition delete_denied (_ : nat) (rq : Request) : NetResult :=
  answer 200 (Some (JObj [("success", JBool false)])).

(** Nothing answers. *)
Definition down (_ : nat) (rq : Request) : NetResult := Failed "Timeout".

(** The date of publication of the post a publish returned. *)
Definition date_after (x : res (PostService.Results * Post) * State)
  : option (option Z) :=
  option_map (fun rp => post_published_date (snd rp)) (returned x).

(** Whether some outcome of the map a publish returned succeeded. *)
Definition any_success (x : res (PostService.Results * Post) * State)
  : option bool :=
  option_map (fun rp => existsb (fun outcome => succeeded (snd outcome))
                                (fst rp))
             (returned x).

(** C1: a first publish reaches Facebook only (no Twitter account yet);
    a Twitter account is connected; the post is published again. *)
Definition both := post ["facebook"; "twitter"].
Definition first_publish :=
  PostService.publish_post (world all_accept) both None
    (start [facebook_account] both).
Definition after_first : Post :=
  match returned first_publish with
  | Some (_, p) => p
  | None => both
  end.
Definition connected : State :=
  snd (connect_account (world all_accept) 1 (JStr "twitter") (JStr "secret")
         (JStr "me") (JStr "Me") (snd first_publish)).
Definition second_publish :=
  PostService.publish_post (world all_accept) after_first None connected.

Definition only_twitter := post ["twitter"].

(** C2: publish, the platform fails; publish again, the platform
    accepts. *)
Definition only_facebook := post ["facebook"].
Definition failed_publish :=
  PostService.publish_post (world fails_once) only_facebook None
    (start [facebook_account] only_facebook).
Definition after_failed : Post :=
  match returned failed_publish with
  | Some (_, p) => p
  | None => only_facebook
  end.
Definition retried_publish :=
  PostService.publish_post (world fails_once) after_failed None
    (snd failed_publish).

(** C8: a publication with a stored snapshot of ten likes. *)
Definition published_row : PostPublication :=
  {| pub_pk := 100; pub_post := 7; pub_account := 1;
     pub_platform_post_id := "fb123"; pub_published_at := Some 1001%Z;
     pub_error_message := ""; pub_is_success := true |}.
Definition ten_likes : PostAnalytics :=
  {| an_publication := 100; an_likes := 10; an_comments := 0;
     an_shares := 0; an_impressions := 0; an_reach := 0; an_clicks := 0;
     an_raw_data := JObj [] |}.
Definition synced : State :=
  {| st_tick := 5;
     st_db := {| db_accounts := [facebook_account];
                 db_posts := [only_facebook];
                 db_publications := [published_row];
                 db_analytics := [ten_likes];
                 db_next_pk := 101 |} |}.


(** C10: a post dated by an earlier publish whose platforms have been
    emptied since ([platforms] and [status] are writable through
    [PostSerializer], [published_date] is read-only). *)
Definition dated : Post :=
  {| post_pk := 7; post_user := 1; post_content := "hello";
     post_platforms := []; post_status := draft;
     post_scheduled_date := None; post_published_date := Some 500%Z |}.
Definition dated_publish :=
  PostService.publish_post (world all_accept) dated None
    (start [facebook_account] dated).

End Scenario.

(* ===================================================================== *)
(** ** More predicates and worlds *)

(** A JSON value that is neither a container nor a string. *)
Definition is_scalar (j : json) : bool :=
  match j with
  | JNull | JBool _ | JNum _ => true
  | _ => false
  end.

(** A status that [raise_for_status] lets through. *)
Definition status_ok (r : Response) : bool :=
  negb ((400 <=? rs_status_code r)%Z && (rs_status_code r <? 600)%Z).

(** The number of active accounts of a user on a platform. *)
Definition active_accounts (d : DB) (user : nat) (platform : string)
  : list SocialMediaAccount :=
  filter (ORM.account_matches user platform) (db_accounts d).

(** [publish_post] has nothing to call for the platform: the user has
    no active account on it or more than one, or no adapter exists. *)
Definition undeliverable (env : Env) (d : DB) (user : nat)
           (platform : string) : Prop :=
  length (active_accounts d user platform) <> 1 \/
  PostService.API_CLASSES env platform = None.

(** What every row stored by a publish satisfies: a success carries a
    date and no error message, a failure carries no date. *)
Definition coherent (row : PostPublication) : Prop :=
  if pub_is_success row
  then pub_published_at row <> None /\ pub_error_message row = ""
  else pub_published_at row = None.

(** The row is an attempt of [post], made with an active account of the
    post's author on one of the post's platforms. *)
Definition attempt_of (d : DB) (post : Post) (row : PostPublication) : Prop :=
  pub_post row = post_pk post /\
  exists account,
    In account (db_accounts d) /\
    acc_pk account = pub_account row /\
    acc_user account = post_user post /\
    acc_is_active account = true /\
    In (acc_platform account) (post_platforms post).

(** The text a column of characters takes for a value that is not
    [None]: the string itself, or [str(value)]. *)
Definition text_of (env : Env) (v : json) : string :=
  match v with
  | JStr s => s
  | _ => py_repr env v
  end.

(** The key of [unique_together = ['user', 'platform', 'account_id']]. *)
Definition account_key (a : SocialMediaAccount) : nat * string * string :=
  (acc_user a, acc_platform a, acc_account_id a).

(** The table of accounts is well keyed: primary keys are distinct and
    below the next one to be given, and no two rows share
    (user, platform, account_id). *)
Definition accounts_ok (d : DB) : Prop :=
  NoDup (map acc_pk (db_accounts d)) /\
  NoDup (map account_key (db_accounts d)) /\
  forall a, In a (db_accounts d) -> acc_pk a < db_next_pk d.

(** The rows of [Post] after [post.save()]. *)
Definition rows_after_save (post : Post) (rows : list Post) : list Post :=
  if existsb (fun p => Nat.eqb (post_pk p) (post_pk post)) rows
  then map (fun p => if Nat.eqb (post_pk p) (post_pk post) then post else p)
           rows
  else rows ++ [post].

(** An outcome of [PostService.delete_post]: a flag and a message, the
    message empty when the flag is true. *)
Definition deletion_outcome (outcome : pydict) : Prop :=
  exists success msg,
    outcome = [("success", JBool success); ("error", JStr msg)] /\
    (success = true -> msg = "").

(** [publication = models.OneToOneField(PostPublication)]: at most one
    snapshot for a publication. *)
Definition one_snapshot_each (d : DB) : Prop :=
  NoDup (map an_publication (db_analytics d)).

(** Every snapshot of [d] is still there in [d'], with the same reach
    and clicks. *)
Definition keeps_reach_and_clicks (d d' : DB) : Prop :=
  forall k row,
    snapshot d k = Some row ->
    exists row',
      snapshot d' k = Some row' /\
      an_reach row' = an_reach row /\
      an_clicks row' = an_clicks row.

(** The request by which the adapter of a platform deletes a post; none
    for a platform without adapter. *)
Definition delete_request_of (platform : string)
           (account : SocialMediaAccount) (post_id : string)
  : option Request :=
  if String.eqb platform "facebook"
  then Some (FacebookAPI.delete_request account post_id)
  else if String.eqb platform "twitter"
  then Some (TwitterAPI.delete_request account post_id)
  else if String.eqb platform "linkedin"
  then Some (LinkedInAPI.delete_request account post_id)
  else None.

(** The requests for the deletion of the publications [l], in order:
    one for each publication whose account is on a platform with an
    adapter. *)
Definition deletion_requests (d : DB) (l : list PostPublication)
  : list Request :=
  flat_map
    (fun p =>
       match account_of d p with
       | Some account =>
           match delete_request_of (acc_platform account) account
                   (pub_platform_post_id p) with
           | Some rq => [rq]
           | None => []
           end
       | None => []
       end) l.

(** What [PostService.delete_post] records for a call of an adapter's
    [delete_post]: the boolean returned, or the exception raised. *)
Definition deletion_report (r : res bool) : pydict :=
  match r with
  | Ok success =>
      [("success", JBool success);
       ("error",
        JStr (if success then "" else "Failed to delete from platform"))]
  | Raise e => [("success", JBool false); ("error", JStr (exn_str e))]
  end.

(** [upload], applied to each media item in order: the handles
    obtained, those of failed uploads included. *)
Fixpoint upload_all (upload : string -> M json) (media_urls : list string)
  : M (list json) :=
  match media_urls with
  | [] => ret []
  | media_url :: rest =>
      handle <- upload media_url ;;
      handles <- upload_all upload rest ;;
      ret (handle :: handles)
  end.

(** An outcome that only reports an error. *)
Definition only_error (outcome : pydict) : Prop :=
  exists msg, outcome = [("error", JStr msg)].

Module Cases.

(** The network gives the same answer to everything. *)
Definition always (r : NetResult) (_ : nat) (_ : Request) : NetResult := r.

Definition says (j : json) : NetResult := Scenario.answer 200 (Some j).

Definition at_start (accounts : list SocialMediaAccount)
           (posts : list Post) : State :=
  {| st_tick := 0;
     st_db := {| db_accounts := accounts; db_posts := posts;
                 db_publications := []; db_analytics := [];
                 db_next_pk := 100 |} |}.

Definition nothing : State := at_start [] [].

(** The platform answers [null] to everything. *)
Definition null_response : Response :=
  {| rs_status_code := 200; rs_json := Some JNull; rs_content := "" |}.
Definition null_world : Env :=
  Scenario.world (always (Responded null_response)).

Definition down_world : Env := Scenario.world Scenario.down.

(** A post for two platforms nothing can be sent to: the author has no
    LinkedIn account, and Instagram has no adapter. *)
Definition unreachable_post : Post :=
  Scenario.post ["linkedin"; "instagram"].
Definition with_instagram : State :=
  at_start [Scenario.facebook_account; Scenario.account 3 "instagram"]
           [unreachable_post].

(** The author has a Facebook account and connects a second one. *)
Definition one_account : State := at_start [Scenario.facebook_account] [].

(** A draft of the author, stored, with a Facebook account to send it. *)
Definition draft_post : Post := Scenario.post ["facebook"].
Definition with_draft : State :=
  at_start [Scenario.facebook_account] [draft_post].

(** Two scheduled posts, one due at 1000 and one due at 5000, and a
    draft. *)
Definition scheduled_at (pk : nat) (t : Z) : Post :=
  {| post_pk := pk; post_user := 1; post_content := "later";
     post_platforms := ["facebook"]; post_status := scheduled;
     post_scheduled_date := Some t; post_published_date := None |}.
Definition with_scheduled : State :=
  at_start [Scenario.facebook_account]
           [scheduled_at 8 1000; scheduled_at 9 5000; draft_post].

(** The view publishes the draft. *)
Definition view_publish :=
  publish (Scenario.world Scenario.all_accept) 1 7 [] with_draft.
Definition view_body : Post * PostService.Results :=
  match fst view_publish with
  | Ok (Http200 body) => body
  | _ => (draft_post, [])
  end.

(** The platform accepts everything and answers with an id only. *)
Definition accepted : Response :=
  {| rs_status_code := 201;
     rs_json := Some (JObj [("id", JStr "urn:li:share:1")]);
     rs_content := "" |}.
Definition accepting_world : Env :=
  Scenario.world (always (Responded accepted)).

(** An outage that passes: nothing answers at the fifth interaction,
    and Facebook reports three reactions at any other moment. *)
Definition outage (n : nat) (rq : Request) : NetResult :=
  if Nat.eqb n 5 then Failed "Timeout"
  else says (JObj [("reactions",
                    JObj [("summary", JObj [("total_count", JNum 3)])])]).
Definition outage_world : Env := Scenario.world outage.

(** The stored example after a sync at the moment of the outage. *)
Definition after_outage : State :=
  {| st_tick := 6; st_db := st_db Scenario.synced |}.

End Cases.

(* ===================================================================== *)
(** * Properties *)

(** ** Rules for computations *)

Section Rules.

Context {A B : Type}.

Lemma wp_ret (a : A) Q st : Q (Ok a) st -> wp (ret a) Q st.
Proof. exact (fun H => H). Qed.

Lemma wp_raise (e : exn) (Q : res A -> State -> Prop) st :
  Q (Raise e) st -> wp (raise e) Q st.
Proof. exact (fun H => H). Qed.

Lemma wp_lift (r : res A) Q st : Q r st -> wp (lift r) Q st.
Proof. exact (fun H => H). Qed.

Lemma wp_bind (m : M A) (f : A -> M B) Q st :
  wp m (fun r st1 =>
          match r with
          | Ok a => wp (f a) Q st1
          | Raise e => Q (Raise e) st1
          end) st ->
  wp (bind m f) Q st.
Proof.
  unfold wp, bind. destruct (m st) as [[a | e] st1]; simpl; auto.
Qed.

Lemma wp_try (m : M A) (h : exn -> option (M A)) Q st :
  wp m (fun r st1 =>
          match r with
          | Ok a => Q (Ok a) st1
          | Raise e =>
              match h e with
              | Some k => wp k Q st1
              | None => Q (Raise e) st1
              end
          end) st ->
  wp (try_except m h) Q st.
Proof.
  unfold wp, try_except. destruct (m st) as [[a | e] st1]; simpl; auto.
  destruct (h e); auto.
Qed.

Lemma wp_weaken (m : M A) (Q Q' : res A -> State -> Prop) st :
  wp m Q st -> (forall r st1, Q r st1 -> Q' r st1) -> wp m Q' st.
Proof. unfold wp. auto. Qed.

Lemma wp_and (m : M A) (Q Q' : res A -> State -> Prop) st :
  wp m Q st -> wp m Q' st -> wp m (fun r st1 => Q r st1 /\ Q' r st1) st.
Proof. unfold wp. auto. Qed.

Lemma wp_keeps_db (m : M A) (Q : res A -> State -> Prop) st :
  keeps_db m ->
  (forall r st1, st_db st1 = st_db st -> Q r st1) ->
  wp m Q st.
Proof. unfold wp. intros H HQ. apply HQ, H. Qed.

Lemma keeps_db_ret (a : A) : keeps_db (ret a).
Proof. intro st. reflexivity. Qed.

Lemma keeps_db_raise (e : exn) : keeps_db (@raise A e).
Proof. intro st. reflexivity. Qed.

Lemma keeps_db_lift (r : res A) : keeps_db (lift r).
Proof. intro st. reflexivity. Qed.

Lemma keeps_db_bind (m : M A) (f : A -> M B) :
  keeps_db m -> (forall a, keeps_db (f a)) -> keeps_db (bind m f).
Proof.
  intros Hm Hf st. unfold bind. specialize (Hm st).
  destruct (m st) as [[a | e] st1]; simpl in *; auto.
  rewrite Hf. exact Hm.
Qed.

Lemma keeps_db_try (m : M A) (h : exn -> option (M A)) :
  keeps_db m -> (forall e k, h e = Some k -> keeps_db k) ->
  keeps_db (try_except m h).
Proof.
  intros Hm Hh st. unfold try_except. specialize (Hm st).
  destruct (m st) as [[a | e] st1]; simpl in *; auto.
  destruct (h e) as [k |] eqn:E; simpl; auto.
  rewrite (Hh _ _ E). exact Hm.
Qed.

End Rules.

Lemma keeps_db_if {A} (b : bool) (m1 m2 : M A) :
  keeps_db m1 -> keeps_db m2 -> keeps_db (if b then m1 else m2).
Proof. destruct b; auto. Qed.

Create HintDb keeps.
#[export] Hint Resolve keeps_db_ret keeps_db_raise keeps_db_lift
  keeps_db_try keeps_db_if : keeps.

(** Splits a computation along its binds and branches. *)
Ltac keeps_step :=
  match goal with
  | |- keeps_db (bind _ _) => apply keeps_db_bind; [| intro]
  | |- keeps_db (match ?x with _ => _ end) => destruct x
  | |- keeps_db (let _ := _ in _) => cbv zeta
  | |- forall _, _ => intro
  end.
Ltac keeps := repeat keeps_step; auto with keeps.

(** ** The adapters never touch the database *)

Section AdapterFrames.

Variable env : Env.

Lemma keeps_db_requests_request rq : keeps_db (requests_request env rq).
Proof.
  intro st. unfold requests_request.
  destruct (net env (st_tick st) rq); reflexivity.
Qed.

Lemma keeps_db_raise_for_status url r : keeps_db (raise_for_status env url r).
Proof. unfold raise_for_status. keeps. Qed.

Lemma keeps_db_response_json r : keeps_db (response_json env r).
Proof. unfold response_json. keeps. Qed.

Hint Resolve keeps_db_requests_request keeps_db_raise_for_status
  keeps_db_response_json : keeps.

Lemma keeps_db_make_request rq : keeps_db (_make_request env rq).
Proof.
  unfold _make_request. apply keeps_db_try.
  - keeps.
  - intros e k. destruct (is_RequestException (exn_cls e)); [| discriminate].
    intros [= <-]. keeps.
Qed.

Lemma keeps_db_unless_error result x : keeps_db (unless_error result x).
Proof. unfold unless_error. keeps. Qed.

Lemma keeps_db_upload_each up urls ids :
  (forall u, keeps_db (up u)) -> keeps_db (upload_each up urls ids).
Proof.
  intro Hup. revert ids.
  induction urls as [| u urls IH]; intro ids; simpl; keeps.
Qed.

Lemma keeps_db_now : keeps_db (ORM.now env).
Proof. intro st. reflexivity. Qed.

Hint Resolve keeps_db_make_request keeps_db_unless_error
  keeps_db_upload_each keeps_db_now : keeps.

Lemma keeps_db_api platform api :
  PostService.API_CLASSES env platform = Some api ->
  (forall account content media,
      keeps_db (api_create_post api account content media)) /\
  (forall account post_id, keeps_db (api_delete_post api account post_id)) /\
  (forall account post_id,
      keeps_db (api_get_post_analytics api account post_id)).
Proof.
  unfold PostService.API_CLASSES.
  destruct (String.eqb platform "facebook");
    [| destruct (String.eqb platform "twitter");
       [| destruct (String.eqb platform "linkedin"); [| discriminate]]];
    intros [= <-]; simpl; repeat split; intros.
  - unfold FacebookAPI.create_post.
    assert (forall u, keeps_db (FacebookAPI._upload_media env account u))
      by (intro; unfold FacebookAPI._upload_media; keeps).
    keeps.
  - unfold FacebookAPI.delete_post. keeps.
  - unfold FacebookAPI.get_post_analytics. keeps.
  - unfold TwitterAPI.create_post.
    assert (forall u, keeps_db (TwitterAPI._upload_media env account u))
      by (intro; unfold TwitterAPI._upload_media; keeps).
    keeps.
  - unfold TwitterAPI.delete_post. keeps.
  - unfold TwitterAPI.get_post_analytics. keeps.
  - unfold LinkedInAPI.create_post.
    assert (forall u, keeps_db (LinkedInAPI._upload_media env account u))
      by (intro; unfold LinkedInAPI._upload_media; keeps).
    keeps.
  - unfold LinkedInAPI.delete_post. keeps.
  - unfold LinkedInAPI.get_post_analytics. keeps.
Qed.

End AdapterFrames.

(** ** Dictionaries *)

Lemma dict_set_keys {V} (d : list (string * V)) k v x :
  In x (Py.keys (Py.dict_set d k v)) <-> x = k \/ In x (Py.keys d).
Proof.
  induction d as [| [k' v'] d IH]; simpl.
  - intuition.
  - destruct (String.eqb_spec k' k) as [-> | Hne]; simpl.
    + intuition.
    + rewrite IH. intuition.
Qed.

Lemma dict_set_NoDup {V} (d : list (string * V)) k v :
  NoDup (Py.keys d) -> NoDup (Py.keys (Py.dict_set d k v)).
Proof.
  induction d as [| [k' v'] d IH]; simpl; intro H.
  - constructor; [intros [] | constructor].
  - inversion H as [| ? ? Hnotin Hd]; subst.
    destruct (String.eqb_spec k' k) as [-> | Hne]; simpl.
    + constructor; assumption.
    + constructor; [| auto].
      intro Hin. apply dict_set_keys in Hin. destruct Hin; [congruence | auto].
Qed.

Lemma lookup_dict_set_same {V} (d : list (string * V)) k v :
  Py.lookup (Py.dict_set d k v) k = Some v.
Proof.
  induction d as [| [k' v'] d IH]; simpl.
  - rewrite String.eqb_refl. reflexivity.
  - destruct (String.eqb k' k) eqn:E; simpl; rewrite E; auto.
Qed.

Lemma lookup_dict_set_other {V} (d : list (string * V)) k v k' :
  k <> k' -> Py.lookup (Py.dict_set d k v) k' = Py.lookup d k'.
Proof.
  intro Hne. induction d as [| [k0 v0] d IH]; simpl.
  - destruct (String.eqb_spec k k'); [contradiction | reflexivity].
  - destruct (String.eqb_spec k0 k) as [-> | Hk]; simpl.
    + destruct (String.eqb_spec k k'); [contradiction | reflexivity].
    + destruct (String.eqb k0 k'); [reflexivity | exact IH].
Qed.

(** ** How a publish changes the database *)

Lemma grows_refl d : grows d d.
Proof.
  repeat split. exists []. rewrite app_nil_r. auto.
Qed.

Lemma grows_eq d d' : d' = d -> grows d d'.
Proof. intros ->. apply grows_refl. Qed.

Lemma grows_trans d1 d2 d3 : grows d1 d2 -> grows d2 d3 -> grows d1 d3.
Proof.
  intros (Ha & Hp & Hn & l & Hl & Hu) (Ha' & Hp' & Hn' & l' & Hl' & Hu').
  repeat split; try congruence.
  exists (l ++ l'). split; [| auto].
  rewrite Hl', Hl, app_assoc. reflexivity.
Qed.

Lemma same_pair_absent post account l :
  existsb (ORM.same_pair post account) l = false ->
  ~ In (post, account) (map pair_of l).
Proof.
  intros H Hin. apply in_map_iff in Hin. destruct Hin as (p & Hp & Hin).
  assert (E : existsb (ORM.same_pair post account) l = true).
  { apply existsb_exists. exists p. split; [assumption |].
    unfold pair_of in Hp. injection Hp as <- <-.
    unfold ORM.same_pair. rewrite !Nat.eqb_refl. reflexivity. }
  congruence.
Qed.

Lemma unique_pairs_snoc l row :
  unique_pairs l ->
  existsb (ORM.same_pair (pub_post row) (pub_account row)) l = false ->
  unique_pairs (l ++ [row]).
Proof.
  unfold unique_pairs. intros Hl Hrow. rewrite map_app. simpl.
  apply same_pair_absent in Hrow.
  induction (map pair_of l) as [| x xs IH]; simpl.
  - constructor; [intros [] | constructor].
  - inversion Hl as [| ? ? Hx Hxs]; subst. constructor.
    + rewrite in_app_iff. simpl. intros [H | [H | []]]; [auto |].
      apply Hrow. left. symmetry. exact H.
    + apply IH; [assumption |]. intro H. apply Hrow. right. exact H.
Qed.

Section PublishFacts.

Variable env : Env.

Lemma keeps_db_SocialMediaAccount_get user platform :
  keeps_db (ORM.SocialMediaAccount_get user platform).
Proof.
  intro st. unfold ORM.SocialMediaAccount_get, bind, get_db. simpl.
  destruct (filter _ _) as [| a [| b l]]; reflexivity.
Qed.

(** [create] either refuses and changes nothing, or appends one row, for
    a pair that had none, holding the values it was given. *)
Lemma wp_PostPublication_create post account pid at_ em ok st :
  wp (ORM.PostPublication_create env post account pid at_ em ok)
     (fun r st1 =>
        match r with
        | Raise _ => st_db st1 = st_db st
        | Ok row =>
            existsb (ORM.same_pair (post_pk post) (acc_pk account))
                    (db_publications (st_db st)) = false /\
            ORM.text_field env pid = Ok (pub_platform_post_id row) /\
            ORM.text_field env em = Ok (pub_error_message row) /\
            pub_post row = post_pk post /\
            pub_account row = acc_pk account /\
            pub_published_at row = at_ /\
            pub_is_success row = ok /\
            db_publications (st_db st1) = db_publications (st_db st) ++ [row] /\
            db_accounts (st_db st1) = db_accounts (st_db st) /\
            db_posts (st_db st1) = db_posts (st_db st) /\
            db_analytics (st_db st1) = db_analytics (st_db st)
        end) st.
Proof.
  unfold wp, ORM.PostPublication_create, bind, lift, get_db.
  destruct (ORM.text_field env pid) as [id_text | e]; simpl; [| reflexivity].
  destruct (ORM.text_field env em) as [error_text | e]; simpl; [| reflexivity].
  destruct (existsb _ _) eqn:E; simpl; [reflexivity |].
  repeat split.
Qed.

Lemma grows_create post account pid at_ em ok st :
  wp (ORM.PostPublication_create env post account pid at_ em ok)
     (fun r st1 => grows (st_db st) (st_db st1)) st.
Proof.
  eapply wp_weaken; [apply wp_PostPublication_create |].
  intros [row | e] st1; simpl.
  - intros (Hfresh & _ & _ & Hpost & Hacc & _ & _ & Hpubs & Ha & Hp & Hn).
    repeat split; try assumption.
    exists [row]. split; [assumption |].
    intro Hu. rewrite Hpubs. apply unique_pairs_snoc; [assumption |].
    rewrite Hpost, Hacc. exact Hfresh.
  - apply grows_eq.
Qed.

(** One turn of the loop of [publish_post] never raises, records an
    outcome under the platform's name and at most adds a row. *)
Lemma publish_to_spec post media results platform st :
  wp (PostService.publish_to env post media results platform)
     (fun r st1 =>
        (exists v, r = Ok (Py.dict_set results platform v)) /\
        grows (st_db st) (st_db st1)) st.
Proof.
  unfold PostService.publish_to.
  assert (Hcaught : forall (e : exn) st1,
             st_db st1 = st_db st ->
             match
               (if is_DoesNotExist (exn_cls e)
                then Some (ret (Py.dict_set results platform
                                  [("error",
                                    JStr ("No active " ^^ platform
                                          ^^ " account found"))]))
                else Some (ret (Py.dict_set results platform
                                  [("error", JStr (exn_str e))])))
             with
             | Some k =>
                 wp k (fun r st2 =>
                         (exists v, r = Ok (Py.dict_set results platform v)) /\
                         grows (st_db st) (st_db st2)) st1
             | None =>
                 (exists v, Raise e = Ok (Py.dict_set results platform v)) /\
                 grows (st_db st) (st_db st1)
             end).
  { intros e st1 H. destruct (is_DoesNotExist (exn_cls e));
      (apply wp_ret; split; [eexists; reflexivity | apply grows_eq, H]). }
  apply wp_try, wp_bind.
  apply wp_keeps_db; [apply keeps_db_SocialMediaAccount_get |].
  intros [account | e] st1 H1; [| apply Hcaught, H1].
  destruct (PostService.API_CLASSES env platform) as [api |] eqn:Hapi.
  2: { apply wp_ret. split; [eexists; reflexivity | apply grows_eq, H1]. }
  destruct (keeps_db_api env _ Hapi) as (Hcreate & _ & _).
  apply wp_bind, wp_keeps_db; [apply Hcreate |].
  intros [result | e] st2 H2; [| apply Hcaught; congruence].
  apply wp_bind, wp_lift.
  destruct (py_get result "id" (JStr "")) as [platform_post_id | e];
    [| apply Hcaught; congruence].
  apply wp_bind, wp_lift.
  destruct (py_in "error" result) as [has_error | e];
    [| apply Hcaught; congruence].
  apply wp_bind.
  apply wp_keeps_db; [destruct (negb has_error); keeps; apply keeps_db_now |].
  intros [published_at | e] st3 H3; [| apply Hcaught; congruence].
  apply wp_bind, wp_lift.
  destruct (py_get result "error" (JStr "")) as [error_message | e];
    [| apply Hcaught; congruence].
  apply wp_bind, wp_lift, wp_bind.
  eapply wp_weaken;
    [apply wp_and; [apply wp_PostPublication_create | apply grows_create] |].
  intros [row | e] st4 [H4 G]; [| apply Hcaught; congruence].
  apply wp_ret. split; [eexists; reflexivity |].
  apply grows_trans with (st_db st3); [apply grows_eq; congruence | exact G].
Qed.

(** The whole loop: it never raises, the keys of the map it returns are
    the platforms gone through (besides those already there), each once. *)
Lemma publish_loop_spec post media platforms results st :
  wp (PostService.for_each (PostService.publish_to env post media)
        platforms results)
     (fun r st1 =>
        (exists results',
            r = Ok results' /\
            (forall p, In p (Py.keys results') <->
                       In p platforms \/ In p (Py.keys results)) /\
            (NoDup (Py.keys results) -> NoDup (Py.keys results'))) /\
        grows (st_db st) (st_db st1)) st.
Proof.
  revert results st.
  induction platforms as [| platform rest IH]; intros results st; simpl.
  - apply wp_ret. split; [| apply grows_refl].
    exists results. intuition.
  - apply wp_bind.
    eapply wp_weaken; [apply publish_to_spec |].
    intros r st1 [[v ->] G].
    eapply wp_weaken; [apply IH |].
    intros r st2 [(results' & -> & Hkeys & Hnodup) G'].
    split; [| eapply grows_trans; eassumption].
    exists results'. split; [reflexivity |]. split.
    + intro p. rewrite Hkeys, dict_set_keys. intuition.
    + intro H. apply Hnodup, dict_set_NoDup, H.
Qed.

(** A turn for a platform whose account already has a row for the post:
    whatever the platform answers, the outcome is an error and the
    database is left as it was. *)
Lemma publish_to_refused post media results platform account st :
  filter (ORM.account_matches (post_user post) platform)
         (db_accounts (st_db st)) = [account] ->
  existsb (ORM.same_pair (post_pk post) (acc_pk account))
          (db_publications (st_db st)) = true ->
  wp (PostService.publish_to env post media results platform)
     (fun r st1 =>
        (exists msg,
            r = Ok (Py.dict_set results platform [("error", JStr msg)])) /\
        st_db st1 = st_db st) st.
Proof.
  intros Haccount Hrow.
  unfold PostService.publish_to.
  assert (Hcaught : forall (e : exn) st1,
             st_db st1 = st_db st ->
             match
               (if is_DoesNotExist (exn_cls e)
                then Some (ret (Py.dict_set results platform
                                  [("error",
                                    JStr ("No active " ^^ platform
                                          ^^ " account found"))]))
                else Some (ret (Py.dict_set results platform
                                  [("error", JStr (exn_str e))])))
             with
             | Some k =>
                 wp k (fun r st2 =>
                         (exists msg,
                             r = Ok (Py.dict_set results platform
                                       [("error", JStr msg)])) /\
                         st_db st2 = st_db st) st1
             | None =>
                 (exists msg,
                     Raise e = Ok (Py.dict_set results platform
                                     [("error", JStr msg)])) /\
                 st_db st1 = st_db st
             end).
  { intros e st1 H. destruct (is_DoesNotExist (exn_cls e));
      (apply wp_ret; split; [eexists; reflexivity | exact H]). }
  assert (Hget : ORM.SocialMediaAccount_get (post_user post) platform st
                 = (Ok account, st)).
  { unfold ORM.SocialMediaAccount_get, bind, get_db. simpl.
    rewrite Haccount. reflexivity. }
  apply wp_try, wp_bind.
  unfold wp at 1. rewrite Hget. cbn [fst snd].
  destruct (PostService.API_CLASSES env platform) as [api |] eqn:Hapi.
  2: { apply wp_ret. split; [eexists; reflexivity | reflexivity]. }
  destruct (keeps_db_api env _ Hapi) as (Hcreate & _ & _).
  apply wp_bind, wp_keeps_db; [apply Hcreate |].
  intros [result | e] st2 H2; [| apply Hcaught; congruence].
  apply wp_bind, wp_lift.
  destruct (py_get result "id" (JStr "")) as [platform_post_id | e];
    [| apply Hcaught; congruence].
  apply wp_bind, wp_lift.
  destruct (py_in "error" result) as [has_error | e];
    [| apply Hcaught; congruence].
  apply wp_bind.
  apply wp_keeps_db; [destruct (negb has_error); keeps; apply keeps_db_now |].
  intros [published_at | e] st3 H3; [| apply Hcaught; congruence].
  apply wp_bind, wp_lift.
  destruct (py_get result "error" (JStr "")) as [error_message | e];
    [| apply Hcaught; congruence].
  apply wp_bind, wp_lift, wp_bind.
  eapply wp_weaken; [apply wp_PostPublication_create |].
  intros [row | e] st4 H4; [| apply Hcaught; congruence].
  destruct H4 as (Hfresh & _).
  rewrite H3, H2 in Hfresh. congruence.
Qed.

(** The row a turn stores when the adapter returns the dict [d] and the
    account has no row for the post yet: the id is what [d] has under
    ['id'] at its top level, the attempt is a success when [d] has no
    ['error']. *)
Lemma publish_to_stores post media results platform account api d st st1
      id_text error_text :
  filter (ORM.account_matches (post_user post) platform)
         (db_accounts (st_db st)) = [account] ->
  PostService.API_CLASSES env platform = Some api ->
  api_create_post api account (post_content post) media st
  = (Ok (JObj d), st1) ->
  ORM.text_field env (Py.dict_get d "id" (JStr "")) = Ok id_text ->
  ORM.text_field env (Py.dict_get d "error" (JStr "")) = Ok error_text ->
  existsb (ORM.same_pair (post_pk post) (acc_pk account))
          (db_publications (st_db st)) = false ->
  db_publications
    (st_db (snd (PostService.publish_to env post media results platform st)))
  = db_publications (st_db st)
    ++ [ {| pub_pk := db_next_pk (st_db st);
            pub_post := post_pk post;
            pub_account := acc_pk account;
            pub_platform_post_id := id_text;
            pub_published_at :=
              if Py.dict_has d "error" then None
              else Some (clock env (st_tick st1));
            pub_error_message := error_text;
            pub_is_success := negb (Py.dict_has d "error") |} ].
Proof.
  intros Haccount Hapi Hcreate Hid Herror Hfresh.
  destruct (keeps_db_api env _ Hapi) as (Hkeeps & _ & _).
  pose proof (Hkeeps account (post_content post) media st) as Hdb.
  rewrite Hcreate in Hdb. simpl in Hdb.
  assert (Hget : ORM.SocialMediaAccount_get (post_user post) platform st
                 = (Ok account, st)).
  { unfold ORM.SocialMediaAccount_get, bind, get_db. simpl.
    rewrite Haccount. reflexivity. }
  unfold PostService.publish_to, try_except.
  unfold bind at 1. rewrite Hget, Hapi.
  unfold bind at 1. rewrite Hcreate.
  unfold bind, lift, ORM.PostPublication_create, bind, lift, get_db,
    ORM.now, ORM.fresh_pk, put_db, ret.
  simpl py_get. simpl py_in. cbv beta iota.
  destruct (Py.dict_has d "error"); simpl;
    rewrite Hid, Herror; simpl; rewrite Hdb, Hfresh; simpl;
    rewrite Hdb; reflexivity.
Qed.

(** The loop, when the last turn for [platform] is such a turn. *)
Lemma publish_loop_refused post media platform account platforms results st :
  filter (ORM.account_matches (post_user post) platform)
         (db_accounts (st_db st)) = [account] ->
  existsb (ORM.same_pair (post_pk post) (acc_pk account))
          (db_publications (st_db st)) = true ->
  In platform platforms \/
  (exists msg, Py.lookup results platform = Some [("error", JStr msg)]) ->
  exists results' st1 msg,
    PostService.for_each (PostService.publish_to env post media)
      platforms results st = (Ok results', st1) /\
    Py.lookup results' platform = Some [("error", JStr msg)].
Proof.
  revert results st.
  induction platforms as [| p rest IH]; intros results st Haccount Hrow Hin.
  - destruct Hin as [[] | [msg Hmsg]]. exists results, st, msg. auto.
  - simpl. unfold bind.
    destruct (String.eqb_spec p platform) as [-> | Hne].
    + pose proof (@publish_to_refused post media results platform account st
                    Haccount Hrow) as H.
      unfold wp in H.
      destruct (PostService.publish_to env post media results platform st)
        as [r st1]. simpl in H.
      destruct H as [[msg ->] Hdb].
      apply IH; try (rewrite Hdb; assumption).
      right. exists msg. apply lookup_dict_set_same.
    + pose proof (publish_to_spec post media results p st) as H.
      unfold wp in H.
      destruct (PostService.publish_to env post media results p st)
        as [r st1]. simpl in H.
      destruct H as [[v ->] (Ha & _ & _ & added & Hadded & _)].
      apply IH.
      * rewrite Ha. exact Haccount.
      * rewrite Hadded, existsb_app, Hrow. reflexivity.
      * destruct Hin as [[Heq | Hin] | [msg Hmsg]];
          [contradiction | left; exact Hin |].
        right. exists msg. rewrite lookup_dict_set_other; assumption.
Qed.

Lemma successful_platforms_nil results :
  PostService.successful_platforms results = [] <->
  existsb (fun pr => succeeded (snd pr)) results = false.
Proof.
  unfold PostService.successful_platforms, succeeded.
  induction results as [| [p r] results IH]; simpl.
  - intuition.
  - destruct (Py.truthy (Py.dict_get r "success" JNull)); simpl.
    + split; discriminate.
    + exact IH.
Qed.

(** [publish_post], step by step: the loop gives a map [results] in a
    state [st1]; then the status is set, the date too when an outcome
    succeeded (read from the clock at [st1]), and the post is saved. *)
Lemma publish_post_run post media st :
  exists results st1,
    PostService.for_each (PostService.publish_to env post media)
      (post_platforms post) [] st = (Ok results, st1) /\
    NoDup (Py.keys results) /\
    (forall p, In p (Py.keys results) <-> In p (post_platforms post)) /\
    grows (st_db st) (st_db st1) /\
    PostService.publish_post env post media st =
      if existsb (fun pr => succeeded (snd pr)) results
      then
        let post' :=
          PostService.set_published_date (Some (clock env (st_tick st1)))
            (PostService.set_status published post) in
        (Ok (results, post'), snd (ORM.Post_save post' (tick st1)))
      else
        let post' := PostService.set_status failed post in
        (Ok (results, post'), snd (ORM.Post_save post' st1)).
Proof.
  pose proof (publish_loop_spec post media (post_platforms post) [] st) as H.
  unfold wp in H.
  unfold PostService.publish_post, bind.
  destruct (PostService.for_each _ _ _ st) as [r st1]. simpl in H.
  destruct H as [(results & -> & Hkeys & Hnodup) G].
  exists results, st1. split; [reflexivity |].
  split; [apply Hnodup; constructor |].
  split; [intro p; rewrite Hkeys; simpl; intuition |].
  split; [exact G |].
  pose proof (successful_platforms_nil results) as Hnil.
  destruct (PostService.successful_platforms results) as [| p ps].
  - rewrite (proj1 Hnil eq_refl). simpl.
    unfold ORM.Post_save, bind, get_db. simpl.
    destruct (existsb _ (db_posts (st_db st1))); reflexivity.
  - destruct (existsb _ results).
    + simpl. unfold ORM.Post_save, bind, get_db. simpl.
      destruct (existsb _ (db_posts (st_db st1))); reflexivity.
    + destruct Hnil as [_ Hnil]. discriminate (Hnil eq_refl).
Qed.

End PublishFacts.

(* ===================================================================== *)
(** ** Publishing *)

Lemma Post_save_publications post st :
  db_publications (st_db (snd (ORM.Post_save post st)))
  = db_publications (st_db st).
Proof.
  unfold ORM.Post_save, bind, get_db. simpl.
  destruct (existsb _ _); reflexivity.
Qed.

Lemma Post_save_tick post st :
  st_tick (snd (ORM.Post_save post st)) = st_tick st.
Proof.
  unfold ORM.Post_save, bind, get_db. simpl.
  destruct (existsb _ _); reflexivity.
Qed.

(** C3: [publish_post] always returns, and the map it returns has one
    outcome for each platform of the post and for nothing else, whatever
    happened on each platform (the adapter failed, no account was found,
    an exception was raised). *)
Theorem publish_post_one_outcome_per_platform
        (env : Env) (post : Post) (media_urls : option (list string))
        (st : State) :
  exists results post' st',
    PostService.publish_post env post media_urls st
    = (Ok (results, post'), st') /\
    NoDup (Py.keys results) /\
    forall platform,
      In platform (Py.keys results) <-> In platform (post_platforms post).
Proof.
  destruct (publish_post_run env post media_urls st)
    as (results & st1 & _ & Hnodup & Hkeys & _ & Hrun).
  destruct (existsb _ results); simpl in Hrun;
    (eexists results, _, _; split; [exact Hrun | split; assumption]).
Qed.

(** C1, as the code has it: a publish with a successful outcome sets
    [published_date] to the time read at the end of that publish, whether
    or not the date was set before; a publish without a successful
    outcome leaves the date as it was. *)
Theorem publish_post_published_date
        (env : Env) (post : Post) (media_urls : option (list string))
        (st : State) :
  exists results post' st',
    PostService.publish_post env post media_urls st
    = (Ok (results, post'), st') /\
    post_published_date post' =
      if existsb (fun outcome => succeeded (snd outcome)) results
      then Some (clock env (pred (st_tick st')))
      else post_published_date post.
Proof.
  destruct (publish_post_run env post media_urls st)
    as (results & st1 & _ & _ & _ & _ & Hrun).
  destruct (existsb _ results) eqn:E; simpl in Hrun;
    (eexists results, _, _; split; [exact Hrun | rewrite E]).
  - rewrite Post_save_tick. reflexivity.
  - reflexivity.
Qed.

(** C1 fails as stated: the first publish succeeds on Facebook and dates
    the post 1002; once a Twitter account is connected, the second
    publish of the same post succeeds on Twitter and dates it 1007. *)
Lemma republish_advances_published_date :
  Scenario.any_success Scenario.first_publish = Some true /\
  Scenario.date_after Scenario.first_publish = Some (Some 1002%Z) /\
  post_pk Scenario.after_first = post_pk Scenario.both /\
  Scenario.any_success Scenario.second_publish = Some true /\
  Scenario.date_after Scenario.second_publish = Some (Some 1007%Z).
Proof. vm_compute. repeat split. Qed.

(** C2, as the code has it: a publish keeps the constraint that a
    (post, account) pair has at most one row, and it never rewrites a
    row: the rows found are all kept, in place and unchanged, new rows
    come after them; for a platform whose account already has a row for
    the post, the outcome returned is an error. *)
Theorem publish_post_keeps_attempts
        (env : Env) (post : Post) (media_urls : option (list string))
        (st : State) :
  unique_pairs (db_publications (st_db st)) ->
  exists results post' st',
    PostService.publish_post env post media_urls st
    = (Ok (results, post'), st') /\
    unique_pairs (db_publications (st_db st')) /\
    (exists added,
        db_publications (st_db st') = db_publications (st_db st) ++ added) /\
    (forall platform account,
        In platform (post_platforms post) ->
        filter (ORM.account_matches (post_user post) platform)
               (db_accounts (st_db st)) = [account] ->
        existsb (ORM.same_pair (post_pk post) (acc_pk account))
                (db_publications (st_db st)) = true ->
        exists msg,
          Py.lookup results platform = Some [("error", JStr msg)]).
Proof.
  intros Hunique.
  destruct (publish_post_run env post media_urls st)
    as (results & st1 & Hloop & _ & _ & G & Hrun).
  destruct G as (_ & _ & _ & added & Hadded & Hkeep).
  assert (Hrefused :
            forall platform account,
              In platform (post_platforms post) ->
              filter (ORM.account_matches (post_user post) platform)
                     (db_accounts (st_db st)) = [account] ->
              existsb (ORM.same_pair (post_pk post) (acc_pk account))
                      (db_publications (st_db st)) = true ->
              exists msg,
                Py.lookup results platform = Some [("error", JStr msg)]).
  { intros platform account Hin Haccount Hrow.
    destruct (publish_loop_refused env post media_urls platform
                (post_platforms post) [] st Haccount Hrow (or_introl Hin))
      as (results' & st1' & msg & Hloop' & Hmsg).
    pose proof (eq_trans (eq_sym Hloop) Hloop') as E.
    injection E as <- <-. exists msg. exact Hmsg. }
  destruct (existsb _ results); simpl in Hrun;
    (eexists results, _, _; split; [exact Hrun |]);
    rewrite Post_save_publications; simpl;
    (split; [apply Hkeep, Hunique |]);
    (split; [exists added; exact Hadded | exact Hrefused]).
Qed.

Lemma publish_post_keeps_attempts_witness :
  unique_pairs (db_publications (st_db (snd Scenario.failed_publish))) /\
  exists results post' st',
    Scenario.retried_publish = (Ok (results, post'), st') /\
    unique_pairs (db_publications (st_db st')) /\
    (exists added,
        db_publications (st_db st')
        = db_publications (st_db (snd Scenario.failed_publish)) ++ added) /\
    (forall platform account,
        In platform (post_platforms Scenario.after_failed) ->
        filter (ORM.account_matches (post_user Scenario.after_failed) platform)
               (db_accounts (st_db (snd Scenario.failed_publish)))
        = [account] ->
        existsb (ORM.same_pair (post_pk Scenario.after_failed)
                   (acc_pk account))
                (db_publications (st_db (snd Scenario.failed_publish)))
        = true ->
        exists msg,
          Py.lookup results platform = Some [("error", JStr msg)]).
Proof.
  assert (H : unique_pairs
                (db_publications (st_db (snd Scenario.failed_publish)))).
  { vm_compute. constructor; [intros [] | constructor]. }
  split; [exact H |].
  exact (publish_post_keeps_attempts (Scenario.world Scenario.fails_once)
           Scenario.after_failed None (snd Scenario.failed_publish) H).
Defined.

(** C2 fails as stated: the first publish to Facebook fails and stores a
    failed attempt; at the second publish Facebook accepts the post, yet
    the row stored for the pair is still the failed attempt and the
    outcome reported is the refusal of the insertion. *)
Lemma republish_keeps_failed_attempt :
  fst (FacebookAPI.create_post (Scenario.world Scenario.fails_once)
         Scenario.facebook_account "hello" None (snd Scenario.failed_publish))
  = Ok (JObj [("id", JStr "fb123")]) /\
  option_map fst (Scenario.returned Scenario.retried_publish)
  = Some [("facebook",
           [("error",
             JStr "UNIQUE constraint failed: postpublication.post_id, postpublication.account_id")])] /\
  db_publications (st_db (snd Scenario.retried_publish))
  = [ {| pub_pk := 100; pub_post := 7; pub_account := 1;
         pub_platform_post_id := "";
         pub_published_at := None;
         pub_error_message :=
           "Server Error for url: https://graph.facebook.com//v18.0/me/feed";
         pub_is_success := false |} ].
Proof. vm_compute. repeat split. Qed.

(* ===================================================================== *)
(** ** The adapters *)

Section AdapterFacts.

Variable env : Env.

(** [_make_request] never raises: what goes wrong comes back as data. *)
Lemma make_request_never_raises rq : total (_make_request env rq).
Proof.
  intro st.
  unfold _make_request, try_except, bind, requests_request,
    raise_for_status, response_json.
  destruct (net env (st_tick st) rq) as [r | msg]; simpl;
    [| eexists; reflexivity].
  destruct (_ && _); simpl; [eexists; reflexivity |].
  destruct (rs_json r); simpl; eexists; reflexivity.
Qed.

(** A remote failure comes back as a dict with an ['error'] entry, after
    one interaction. *)
Lemma make_request_remote_failure rq st :
  remote_failure (net env (st_tick st) rq) = true ->
  exists msg,
    _make_request env rq st = (Ok (JObj [("error", JStr msg)]), tick st).
Proof.
  unfold remote_failure, _make_request, try_except, bind, requests_request,
    raise_for_status, response_json.
  destruct (net env (st_tick st) rq) as [r | msg]; simpl;
    [| intros _; eexists; reflexivity].
  destruct (_ && _); simpl; [intros _; eexists; reflexivity |].
  destruct (rs_json r); simpl;
    [intro; discriminate | intros _; eexists; reflexivity].
Qed.

Lemma tick_advance n st : advance n (tick st) = advance (S n) st.
Proof. unfold advance, tick. simpl. rewrite Nat.add_succ_r. reflexivity. Qed.

Lemma advance_0 st : advance 0 st = st.
Proof. destruct st. reflexivity. Qed.

Lemma remote_failure_upload_failed r :
  remote_failure r = true -> upload_failed r = true.
Proof.
  unfold remote_failure, upload_failed. destruct r as [r | msg]; auto.
  destruct (_ && _); simpl; [reflexivity |].
  destruct (rs_json r); [discriminate | reflexivity].
Qed.

(** An upload that fails gives a handle [if media_id:] rejects, after
    one interaction. *)
Lemma facebook_upload_fails account media_url st :
  upload_failed
    (net env (st_tick st) (FacebookAPI.photos_request account media_url))
  = true ->
  exists media_id,
    FacebookAPI._upload_media env account media_url st
    = (Ok media_id, tick st) /\
    Py.truthy media_id = false.
Proof.
  unfold upload_failed, FacebookAPI._upload_media, _make_request, try_except,
    bind, requests_request, raise_for_status, response_json, unless_error,
    lift, ret.
  destruct (net env (st_tick st) (FacebookAPI.photos_request account media_url))
    as [r | msg]; simpl; [| intros _; exists JNull; auto].
  destruct (_ && _); simpl; [intros _; exists JNull; auto |].
  destruct (rs_json r) as [j |]; simpl; [| intros _; exists JNull; auto].
  destruct (py_in "error" j) as [[] | e]; simpl;
    [intros _; exists JNull; auto | | discriminate].
  destruct (py_get j "id" JNull) as [media_id | e]; simpl; [| discriminate].
  intro H. exists media_id. apply negb_true_iff in H. auto.
Qed.

(** The loop, when each upload fails at the moment it is made: the
    [i]-th upload is made [i] interactions after the start. *)
Lemma facebook_uploads_fail account media media_ids st :
  (forall i media_url,
      nth_error media i = Some media_url ->
      upload_failed
        (net env (st_tick st + i)
           (FacebookAPI.photos_request account media_url)) = true) ->
  upload_each (FacebookAPI._upload_media env account) media media_ids st
  = (Ok media_ids, advance (length media) st).
Proof.
  revert st. induction media as [| u rest IH]; intros st H; simpl.
  - rewrite advance_0. reflexivity.
  - destruct (facebook_upload_fails account u st) as (media_id & Hrun & Hno).
    { specialize (H 0 u eq_refl). rewrite Nat.add_0_r in H. exact H. }
    unfold bind. rewrite Hrun, Hno. rewrite IH.
    + rewrite tick_advance. reflexivity.
    + intros i media_url Hi. specialize (H (S i) media_url Hi).
      simpl. rewrite Nat.add_succ_r in H. exact H.
Qed.

Lemma facebook_posts_text_without_handles account content media st st1 :
  upload_each (FacebookAPI._upload_media env account) media [] st
  = (Ok [], st1) ->
  FacebookAPI.create_post env account content (Some media) st
  = _make_request env
      (FacebookAPI.feed_request account (FacebookAPI.text_only account content))
      st1.
Proof.
  intro H. unfold FacebookAPI.create_post, some_media.
  destruct media as [| u rest].
  - simpl in H. unfold ret in H. injection H as <-. reflexivity.
  - cbv beta match zeta. unfold bind at 1. unfold bind at 1.
    rewrite H. reflexivity.
Qed.


(** The same design in the two other adapters: with no media handle
    obtained, the text alone is posted. *)
Lemma twitter_posts_text_without_handles account content media st st1 :
  upload_each (TwitterAPI._upload_media env account) media [] st
  = (Ok [], st1) ->
  TwitterAPI.create_post env account content (Some media) st
  = _make_request env
      (TwitterAPI.tweets_request account (TwitterAPI.text_only content)) st1.
Proof.
  intro H. unfold TwitterAPI.create_post, some_media.
  destruct media as [| u rest].
  - simpl in H. unfold ret in H. injection H as <-. reflexivity.
  - cbv beta match zeta. unfold bind at 1. unfold bind at 1.
    rewrite H. reflexivity.
Qed.

Lemma linkedin_posts_text_without_handles account content media st st1 :
  upload_each (LinkedInAPI._upload_media env account) media [] st
  = (Ok [], st1) ->
  LinkedInAPI.create_post env account content (Some media) st
  = _make_request env
      (LinkedInAPI.ugc_request account (LinkedInAPI.text_only content)) st1.
Proof.
  intro H. unfold LinkedInAPI.create_post, some_media.
  destruct media as [| u rest].
  - simpl in H. unfold ret in H. injection H as <-. reflexivity.
  - cbv beta match zeta. unfold bind at 1. unfold bind at 1.
    rewrite H. reflexivity.
Qed.

Lemma linkedin_upload_fails account media_url st :
  (forall rq, remote_failure (net env (st_tick st) rq) = true) ->
  LinkedInAPI._upload_media env account media_url st = (Ok JNull, tick st).
Proof.
  intro H. unfold LinkedInAPI._upload_media. cbv zeta.
  unfold bind at 1.
  match goal with
  | |- context [_make_request env ?rq st] =>
      destruct (make_request_remote_failure rq st (H rq)) as [msg ->]
  end.
  reflexivity.
Qed.

Lemma linkedin_uploads_fail account media media_ids st :
  (forall n rq, remote_failure (net env n rq) = true) ->
  upload_each (LinkedInAPI._upload_media env account) media media_ids st
  = (Ok media_ids, advance (length media) st).
Proof.
  intro H. revert st. induction media as [| u rest IH]; intro st; simpl.
  - rewrite advance_0. reflexivity.
  - unfold bind. rewrite linkedin_upload_fails by (intro; apply H).
    simpl. rewrite IH, tick_advance. reflexivity.
Qed.

(** Where every call goes through [_make_request], remote failures
    never make [create_post] raise: with a network on which every
    request fails, the Facebook and LinkedIn adapters return an error
    dict, and so does the Twitter adapter when there is no media. *)
Lemma create_post_returns_remote_failure account content media st :
  (forall n rq, remote_failure (net env n rq) = true) ->
  (exists msg st',
      FacebookAPI.create_post env account content media st
      = (Ok (JObj [("error", JStr msg)]), st')) /\
  (exists msg st',
      LinkedInAPI.create_post env account content media st
      = (Ok (JObj [("error", JStr msg)]), st')) /\
  (exists msg st',
      TwitterAPI.create_post env account content None st
      = (Ok (JObj [("error", JStr msg)]), st')).
Proof.
  intro H.
  assert (Hreq : forall rq st0, exists msg,
               _make_request env rq st0
               = (Ok (JObj [("error", JStr msg)]), tick st0))
    by (intros; apply make_request_remote_failure, H).
  repeat split.
  - destruct media as [media |].
    + rewrite facebook_posts_text_without_handles
        with (st1 := advance (length media) st)
        by (apply facebook_uploads_fail; intros;
            apply remote_failure_upload_failed, H).
      destruct (Hreq (FacebookAPI.feed_request account
                        (FacebookAPI.text_only account content))
                     (advance (length media) st)) as [msg ->].
      eauto.
    + unfold FacebookAPI.create_post. simpl. unfold bind, ret.
      destruct (Hreq (FacebookAPI.feed_request account
                        (FacebookAPI.text_only account content)) st)
        as [msg ->].
      eauto.
  - destruct media as [media |].
    + rewrite linkedin_posts_text_without_handles
        with (st1 := advance (length media) st)
        by (apply linkedin_uploads_fail, H).
      destruct (Hreq (LinkedInAPI.ugc_request account
                        (LinkedInAPI.text_only content))
                     (advance (length media) st)) as [msg ->].
      eauto.
    + unfold LinkedInAPI.create_post. simpl. unfold bind, ret.
      destruct (Hreq (LinkedInAPI.ugc_request account
                        (LinkedInAPI.text_only content)) st) as [msg ->].
      eauto.
  - unfold TwitterAPI.create_post. simpl. unfold bind, ret.
    destruct (Hreq (TwitterAPI.tweets_request account
                      (TwitterAPI.text_only content)) st) as [msg ->].
    eauto.
Qed.

(** When the media cannot be fetched, [TwitterAPI.create_post] raises:
    the download does not go through [_make_request]. *)
Lemma twitter_create_post_raises account content media_url rest st msg :
  net env (st_tick st) (request "GET" media_url) = Failed msg ->
  TwitterAPI.create_post env account content (Some (media_url :: rest)) st
  = (Raise (Exn RequestException msg), tick st).
Proof.
  intro H. unfold TwitterAPI.create_post. simpl.
  unfold bind, TwitterAPI._upload_media, bind, requests_request.
  rewrite H. reflexivity.
Qed.



End AdapterFacts.



(** C6 at a failing input: the media of a tweet cannot be fetched, and
    [TwitterAPI.create_post] raises instead of returning an error. *)
Theorem twitter_create_post_raises_on_unreachable_media :
  fst (TwitterAPI.create_post (Scenario.world Scenario.media_unreachable)
         Scenario.twitter_account "hello" (Some ["http://img.example/1.png"])
         (Scenario.start [] Scenario.both))
  = Raise (Exn RequestException "Connection refused").
Proof. vm_compute. reflexivity. Qed.


(** C9 at a failing input: Twitter accepts the post and answers with the
    id of the tweet under ["data"]; the attempt is stored as a success
    with an empty platform post id. *)
Theorem twitter_success_stores_empty_id :
  let run :=
    PostService.publish_post (Scenario.world Scenario.all_accept)
      Scenario.only_twitter None
      (Scenario.start [Scenario.twitter_account] Scenario.only_twitter) in
  option_map fst (Scenario.returned run)
  = Some [("twitter", [("success", JBool true); ("post_id", JStr "");
                       ("error", JStr "")])] /\
  db_publications (st_db (snd run))
  = [ {| pub_pk := 100; pub_post := 7; pub_account := 2;
         pub_platform_post_id := "";
         pub_published_at := Some 1001%Z;
         pub_error_message := "";
         pub_is_success := true |} ].
Proof. vm_compute. split; reflexivity. Qed.

(* ===================================================================== *)
(** ** Synchronising analytics *)

Lemma touches_only_refl k d : touches_only k d d.
Proof. repeat split. Qed.

Lemma touches_only_eq k d d' : d' = d -> touches_only k d d'.
Proof. intros ->. apply touches_only_refl. Qed.

Lemma touches_only_trans k d1 d2 d3 :
  touches_only k d1 d2 -> touches_only k d2 d3 -> touches_only k d1 d3.
Proof.
  intros (Ha & Hp & Hs) (Ha' & Hp' & Hs').
  repeat split; try congruence.
  intros k' Hk'. rewrite Hs', Hs by assumption. reflexivity.
Qed.

Lemma find_snoc {A} (f : A -> bool) l x :
  f x = false -> find f (l ++ [x]) = find f l.
Proof.
  intro H. induction l as [| y l IH]; simpl.
  - rewrite H. reflexivity.
  - destruct (f y); auto.
Qed.

Lemma find_replace k k' row l :
  k' <> k -> an_publication row = k ->
  find (ORM.for_publication k')
       (map (fun r => if ORM.for_publication k r then row else r) l)
  = find (ORM.for_publication k') l.
Proof.
  intros Hne Hrow. induction l as [| r l IH]; simpl; [reflexivity |].
  destruct (ORM.for_publication k r) eqn:Hr.
  - apply Nat.eqb_eq in Hr.
    assert (E : ORM.for_publication k' row = false)
      by (apply Nat.eqb_neq; congruence).
    assert (E' : ORM.for_publication k' r = false)
      by (apply Nat.eqb_neq; congruence).
    rewrite E, E'. exact IH.
  - destruct (ORM.for_publication k' r); [reflexivity | exact IH].
Qed.

Lemma set_field_publication o key value o' :
  ORM.set_field o key value = Some o' ->
  ORM.o_publication o' = ORM.o_publication o.
Proof.
  unfold ORM.set_field.
  repeat (destruct (String.eqb key _); [intros [= <-]; reflexivity |]).
  discriminate.
Qed.

Lemma setattr_publication o key value :
  ORM.o_publication (ORM.setattr o key value) = ORM.o_publication o.
Proof.
  unfold ORM.setattr.
  destruct (ORM.set_field o key value) eqn:E; [| reflexivity].
  eapply set_field_publication, E.
Qed.

Lemma init_kwargs_publication kwargs o o' :
  ORM.init_kwargs o kwargs = Ok o' ->
  ORM.o_publication o' = ORM.o_publication o.
Proof.
  revert o. induction kwargs as [| [key value] rest IH]; intros o; simpl.
  - intros [= <-]. reflexivity.
  - destruct (ORM.set_field o key value) eqn:E; [| discriminate].
    intro H. rewrite (IH _ H). eapply set_field_publication, E.
Qed.

Lemma copy_counters_publication items o :
  ORM.o_publication (PostService.copy_counters o items) = ORM.o_publication o.
Proof.
  revert o. induction items as [| [key value] rest IH]; intros o; simpl.
  - reflexivity.
  - rewrite IH. destruct (negb _); [apply setattr_publication | reflexivity].
Qed.

Section SyncFacts.

Variable env : Env.

(** Writing an instance as a row reads nothing but the instance. *)
Lemma wp_to_row o st :
  wp (ORM.to_row env o)
     (fun r st1 =>
        st1 = st /\
        match r with
        | Ok row => an_publication row = ORM.o_publication o
        | Raise _ => True
        end) st.
Proof.
  unfold wp, ORM.to_row, bind, lift.
  repeat match goal with
         | |- context [match ?x with _ => _ end] => destruct x; simpl
         end; auto.
Qed.

Lemma wp_PostAnalytics_save o st :
  wp (ORM.PostAnalytics_save env o)
     (fun _ st1 => touches_only (ORM.o_publication o) (st_db st) (st_db st1))
     st.
Proof.
  unfold ORM.PostAnalytics_save.
  apply wp_bind. eapply wp_weaken; [apply wp_to_row |].
  intros [row | e] st1 [-> Hrow]; [| apply touches_only_refl].
  unfold wp, bind, get_db, put_db. simpl.
  repeat split. simpl. intros k' Hk'. unfold snapshot. simpl.
  apply find_replace; assumption.
Qed.

Lemma wp_get_or_create publication defaults st :
  wp (ORM.PostAnalytics_get_or_create env publication defaults)
     (fun r st1 =>
        touches_only (pub_pk publication) (st_db st) (st_db st1) /\
        match r with
        | Ok (o, _) => ORM.o_publication o = pub_pk publication
        | Raise _ => True
        end) st.
Proof.
  unfold ORM.PostAnalytics_get_or_create.
  apply wp_bind. unfold wp at 1, get_db. simpl.
  destruct (find _ _) as [r |] eqn:Hfind.
  - apply wp_ret. split; [apply touches_only_refl |].
    apply find_some in Hfind. destruct Hfind as [_ H].
    apply Nat.eqb_eq in H. exact H.
  - destruct defaults;
      try (apply wp_raise; split; [apply touches_only_refl | exact I]).
    apply wp_bind, wp_lift.
    destruct (ORM.init_kwargs _ _) as [o | e] eqn:Hinit;
      [| split; [apply touches_only_refl | exact I]].
    apply init_kwargs_publication in Hinit. simpl in Hinit.
    apply wp_bind. eapply wp_weaken; [apply wp_to_row |].
    intros [row | e] st1 [-> Hrow];
      [| split; [apply touches_only_refl | exact I]].
    unfold wp, bind, get_db, put_db, ret. simpl.
    split; [| exact Hinit].
    repeat split. simpl. intros k' Hk'. unfold snapshot. simpl.
    apply find_snoc. unfold ORM.for_publication.
    apply Nat.eqb_neq. congruence.
Qed.

Lemma by_pk_found publication account st :
  account_of (st_db st) publication = Some account ->
  ORM.SocialMediaAccount_by_pk (pub_account publication) st = (Ok account, st).
Proof.
  unfold account_of, ORM.SocialMediaAccount_by_pk, bind, get_db. simpl.
  intros ->. reflexivity.
Qed.

(** One turn of the loop of [get_post_analytics]: it does not raise, it
    records at most one entry, under the platform of the publication's
    account, and it changes at most the snapshot of this publication. *)
Lemma sync_publication_spec analytics publication account st :
  account_of (st_db st) publication = Some account ->
  wp (PostService.sync_publication env analytics publication)
     (fun r st1 =>
        (exists analytics',
            r = Ok analytics' /\
            (analytics' = analytics \/
             exists v,
               analytics' = Py.dict_set analytics (acc_platform account) v)) /\
        touches_only (pub_pk publication) (st_db st) (st_db st1)) st.
Proof.
  intro Haccount.
  set (Q := fun (r : res PostService.Analytics) st1 =>
              (exists analytics',
                  r = Ok analytics' /\
                  (analytics' = analytics \/
                   exists v,
                     analytics'
                     = Py.dict_set analytics (acc_platform account) v)) /\
              touches_only (pub_pk publication) (st_db st) (st_db st1)).
  assert (Hcaught : forall (e : exn) st1,
             touches_only (pub_pk publication) (st_db st) (st_db st1) ->
             wp (bind (ORM.SocialMediaAccount_by_pk (pub_account publication))
                      (fun account =>
                         ret (Py.dict_set analytics (acc_platform account)
                                (JObj [("error", JStr (exn_str e))]))))
                Q st1).
  { intros e st1 T. unfold wp, bind.
    rewrite by_pk_found with (account := account).
    - simpl. split; [| exact T]. eexists. split; [reflexivity |].
      right. eexists. reflexivity.
    - unfold account_of. destruct T as (-> & _). exact Haccount. }
  assert (Hsame : forall st1, st_db st1 = st_db st ->
                              touches_only (pub_pk publication)
                                (st_db st) (st_db st1))
    by (intros; apply touches_only_eq; assumption).
  unfold PostService.sync_publication.
  apply wp_try, wp_bind.
  unfold wp at 1. rewrite (by_pk_found _ _ Haccount). simpl.
  destruct (PostService.API_CLASSES env (acc_platform account))
    as [api |] eqn:Hapi.
  2: { apply wp_ret. split; [| apply touches_only_refl].
       eexists. split; [reflexivity | left; reflexivity]. }
  destruct (keeps_db_api env _ Hapi) as (_ & _ & Hget).
  apply wp_bind, wp_keeps_db; [apply Hget |].
  intros [platform_analytics | e] st1 H1; [| apply Hcaught, Hsame, H1].
  destruct (Py.truthy platform_analytics).
  2: { apply wp_ret. split; [| apply Hsame, H1].
       eexists. split; [reflexivity | left; reflexivity]. }
  apply wp_bind. eapply wp_weaken; [apply wp_get_or_create |].
  intros [[post_analytics created] | e] st2 [T2 Ho].
  2: { apply Hcaught. rewrite <- H1. exact T2. }
  assert (T2' : touches_only (pub_pk publication) (st_db st) (st_db st2))
    by (rewrite <- H1; exact T2).
  assert (Hdone : forall st3,
             touches_only (pub_pk publication) (st_db st) (st_db st3) ->
             wp (ret (Py.dict_set analytics (acc_platform account)
                        platform_analytics)) Q st3).
  { intros st3 T3. apply wp_ret. split; [| exact T3].
    eexists. split; [reflexivity |]. right. eexists. reflexivity. }
  apply wp_bind.
  destruct created; simpl.
  - apply wp_ret. apply Hdone, T2'.
  - apply wp_bind, wp_lift.
    destruct (PostService.py_items platform_analytics) as [items | e];
      [| apply Hcaught, T2'].
    apply wp_bind, wp_lift.
    destruct (py_get platform_analytics "raw_data" (JObj []))
      as [raw_data | e]; [| apply Hcaught, T2'].
    eapply wp_weaken; [apply wp_PostAnalytics_save |].
    intros r st3 T3.
    rewrite setattr_publication, copy_counters_publication, Ho in T3.
    pose proof (touches_only_trans T2' T3) as T.
    destruct r as [[] | e]; [apply Hdone, T | apply Hcaught, T].
Qed.

Lemma try_bind_found {A B} (m : M A) (f : A -> M B) h a st :
  m st = (Ok a, st) -> try_except (bind m f) h st = try_except (f a) h st.
Proof. intro H. unfold try_except, bind. rewrite H. reflexivity. Qed.

(** One turn, as a run: it returns, and touches at most the snapshot of
    its publication. *)
Lemma sync_publication_run analytics publication account st :
  account_of (st_db st) publication = Some account ->
  exists analytics' st',
    PostService.sync_publication env analytics publication st
    = (Ok analytics', st') /\
    (analytics' = analytics \/
     exists v, analytics' = Py.dict_set analytics (acc_platform account) v) /\
    touches_only (pub_pk publication) (st_db st) (st_db st').
Proof.
  intro Haccount.
  pose proof (sync_publication_spec analytics publication st Haccount) as H.
  unfold wp in H.
  destruct (PostService.sync_publication env analytics publication st)
    as [r st']. simpl in H.
  destruct H as ((analytics' & -> & Hshape) & Htouch).
  exists analytics', st'. auto.
Qed.

(** The guard [if platform_analytics:]: when the adapter has nothing to
    report at the moment it is asked, the turn writes nothing. *)
Lemma sync_publication_nothing analytics publication st :
  nothing_to_report env st publication ->
  st_db (snd (PostService.sync_publication env analytics publication st))
  = st_db st.
Proof.
  intros (account & api & j & Haccount & Hapi & Hj & Hfalsy).
  unfold PostService.sync_publication, try_except.
  unfold bind at 1. rewrite (by_pk_found _ _ Haccount). rewrite Hapi.
  unfold bind.
  destruct (keeps_db_api env _ Hapi) as (_ & _ & Hget).
  specialize (Hget account (pub_platform_post_id publication) st).
  destruct (api_get_post_analytics api account _ st) as [r st1].
  simpl in Hj, Hget. subst r. rewrite Hfalsy. simpl. exact Hget.
Qed.

Lemma account_of_same_accounts d d' p :
  db_accounts d' = db_accounts d -> account_of d' p = account_of d p.
Proof. unfold account_of. intros ->. reflexivity. Qed.

Lemma analytics_requests_same_accounts d d' l :
  db_accounts d' = db_accounts d ->
  analytics_requests d' l = analytics_requests d l.
Proof.
  intro H. unfold analytics_requests.
  induction l as [| p l IH]; simpl; [reflexivity |].
  rewrite IH, (@account_of_same_accounts _ _ p H). reflexivity.
Qed.

(** The whole loop, over the publications [l]: it returns, every entry
    it records is for the platform of one of them, and the snapshots of
    all other publications are left as they were. *)
Lemma sync_loop_spec l analytics st :
  (forall p, In p l -> exists a, account_of (st_db st) p = Some a) ->
  exists analytics' st',
    PostService.for_each (PostService.sync_publication env) l analytics st
    = (Ok analytics', st') /\
    (forall platform,
        In platform (Py.keys analytics') ->
        In platform (Py.keys analytics) \/
        exists p a, In p l /\ account_of (st_db st) p = Some a /\
                    acc_platform a = platform) /\
    db_accounts (st_db st') = db_accounts (st_db st) /\
    db_publications (st_db st') = db_publications (st_db st) /\
    forall k, ~ In k (map pub_pk l) ->
              snapshot (st_db st') k = snapshot (st_db st) k.
Proof.
  revert analytics st.
  induction l as [| p l IH]; intros analytics st Haccounts; simpl.
  - exists analytics, st. auto.
  - destruct (Haccounts p (or_introl eq_refl)) as [a Ha].
    destruct (@sync_publication_run analytics p a st Ha)
      as (analytics1 & st1 & Hrun & Hkeys1 & Hacc1 & Hpub1 & Hsnap1).
    unfold bind. rewrite Hrun.
    destruct (IH analytics1 st1)
      as (analytics2 & st2 & Hloop & Hkeys2 & Hacc2 & Hpub2 & Hsnap2).
    { intros q Hq. rewrite (@account_of_same_accounts _ _ q Hacc1).
      apply Haccounts. right. exact Hq. }
    exists analytics2, st2. split; [exact Hloop |].
    split; [| split; [congruence | split; [congruence |]]].
    + intros platform Hin. destruct (Hkeys2 platform Hin) as [H | H].
      * destruct Hkeys1 as [-> | [v ->]]; [left; exact H |].
        apply dict_set_keys in H. destruct H as [-> | H]; [| left; exact H].
        right. exists p, a. auto.
      * right. destruct H as (q & b & Hq & Hb & Hplatform).
        exists q, b. split; [right; exact Hq |]. split; [| exact Hplatform].
        rewrite <- (@account_of_same_accounts _ _ q Hacc1). exact Hb.
    + intros k Hk. rewrite Hsnap2, Hsnap1; [reflexivity | |]; intro H;
        apply Hk; [left; symmetry; exact H | right; exact H].
Qed.

(** The snapshot of a publication for which the adapter has nothing to
    report when its turn comes is the same after the loop. *)
Lemma sync_loop_nothing before p after analytics st :
  (forall q, In q (before ++ p :: after) ->
             exists a, account_of (st_db st) q = Some a) ->
  NoDup (map pub_pk (before ++ p :: after)) ->
  nothing_to_report env
    (snd (PostService.for_each (PostService.sync_publication env)
            before analytics st)) p ->
  snapshot
    (st_db (snd (PostService.for_each (PostService.sync_publication env)
                   (before ++ p :: after) analytics st)))
    (pub_pk p)
  = snapshot (st_db st) (pub_pk p).
Proof.
  revert analytics st.
  induction before as [| q before IH]; intros analytics st Haccounts Hnd
                                              Hnothing.
  - simpl in *. inversion Hnd as [| ? ? Hp Hafter]; subst.
    destruct (Haccounts p (or_introl eq_refl)) as [a Ha].
    destruct (@sync_publication_run analytics p a st Ha)
      as (analytics1 & st1 & Hrun & _ & Hacc1 & _).
    pose proof (@sync_publication_nothing analytics p st Hnothing) as Hdb.
    rewrite Hrun in Hdb. simpl in Hdb.
    unfold bind. rewrite Hrun.
    destruct (sync_loop_spec after analytics1 st1)
      as (analytics2 & st2 & Hloop & _ & _ & _ & Hsnap).
    { intros q Hq. rewrite Hdb. apply Haccounts. right. exact Hq. }
    rewrite Hloop. simpl. rewrite (Hsnap _ Hp), Hdb. reflexivity.
  - simpl in *. inversion Hnd as [| ? ? Hq Hrest]; subst.
    destruct (Haccounts q (or_introl eq_refl)) as [a Ha].
    destruct (@sync_publication_run analytics q a st Ha)
      as (analytics1 & st1 & Hrun & _ & Hacc1 & _ & Hsnap1).
    unfold bind in *. rewrite Hrun in *.
    rewrite IH; [apply Hsnap1 | | exact Hrest | exact Hnothing].
    + intro E. apply Hq. rewrite <- E, map_app. apply in_or_app.
      right. left. reflexivity.
    + intros r Hr. rewrite (@account_of_same_accounts _ _ r Hacc1).
      apply Haccounts. right. exact Hr.
Qed.

End SyncFacts.

(** *** Interactions *)

Section TickRules.

Context {A B : Type}.

Lemma keeps_tick_ret (a : A) : keeps_tick (ret a).
Proof. intro st. reflexivity. Qed.

Lemma keeps_tick_raise (e : exn) : keeps_tick (@raise A e).
Proof. intro st. reflexivity. Qed.

Lemma keeps_tick_lift (r : res A) : keeps_tick (lift r).
Proof. intro st. reflexivity. Qed.

Lemma keeps_tick_bind (m : M A) (f : A -> M B) :
  keeps_tick m -> (forall a, keeps_tick (f a)) -> keeps_tick (bind m f).
Proof.
  intros Hm Hf st. unfold bind. specialize (Hm st).
  destruct (m st) as [[a | e] st1]; simpl in *; auto.
  rewrite Hf. exact Hm.
Qed.

(** What follows a computation adds no interaction when it makes
    none. *)
Lemma tick_bind (m : M A) (f : A -> M B) st :
  (forall a, keeps_tick (f a)) ->
  st_tick (snd (bind m f st)) = st_tick (snd (m st)).
Proof.
  intro Hf. unfold bind.
  destruct (m st) as [[a | e] st1]; simpl; [apply Hf | reflexivity].
Qed.

Lemma tick_try (m : M A) (h : exn -> option (M A)) st :
  (forall e k, h e = Some k -> keeps_tick k) ->
  st_tick (snd (try_except m h st)) = st_tick (snd (m st)).
Proof.
  intro Hh. unfold try_except.
  destruct (m st) as [[a | e] st1]; simpl; [reflexivity |].
  destruct (h e) as [k |] eqn:E; [apply (Hh _ _ E) | reflexivity].
Qed.

End TickRules.

Lemma keeps_tick_get_db : keeps_tick get_db.
Proof. intro st. reflexivity. Qed.

Lemma keeps_tick_put_db d : keeps_tick (put_db d).
Proof. intro st. reflexivity. Qed.

Create HintDb ticks.
#[export] Hint Resolve keeps_tick_ret keeps_tick_raise keeps_tick_lift
  keeps_tick_get_db keeps_tick_put_db : ticks.

Ltac ticks_step :=
  match goal with
  | |- keeps_tick (bind _ _) => apply keeps_tick_bind; [| intro]
  | |- keeps_tick (match ?x with _ => _ end) => destruct x
  | |- keeps_tick (let _ := _ in _) => cbv zeta
  | |- forall _, _ => intro
  end.
Ltac ticks := repeat ticks_step; auto with ticks.

Section SyncInteractions.

Variable env : Env.

Lemma keeps_tick_to_row o : keeps_tick (ORM.to_row env o).
Proof. unfold ORM.to_row. ticks. Qed.

Hint Resolve keeps_tick_to_row : ticks.

Lemma keeps_tick_PostAnalytics_save o :
  keeps_tick (ORM.PostAnalytics_save env o).
Proof. unfold ORM.PostAnalytics_save. ticks. Qed.

Lemma keeps_tick_get_or_create publication defaults :
  keeps_tick (ORM.PostAnalytics_get_or_create env publication defaults).
Proof. unfold ORM.PostAnalytics_get_or_create. ticks. Qed.

Lemma keeps_tick_by_pk pk : keeps_tick (ORM.SocialMediaAccount_by_pk pk).
Proof. unfold ORM.SocialMediaAccount_by_pk. ticks. Qed.

Hint Resolve keeps_tick_PostAnalytics_save keeps_tick_get_or_create
  keeps_tick_by_pk : ticks.

Lemma make_request_state rq st : snd (_make_request env rq st) = tick st.
Proof.
  unfold _make_request, try_except, bind, requests_request,
    raise_for_status, response_json.
  destruct (net env (st_tick st) rq) as [r | msg]; simpl; [| reflexivity].
  destruct (_ && _); simpl; [reflexivity |].
  destruct (rs_json r); reflexivity.
Qed.

(** Each adapter reads the analytics with one request. *)
Lemma get_post_analytics_tick platform api account post_id st :
  PostService.API_CLASSES env platform = Some api ->
  st_tick (snd (api_get_post_analytics api account post_id st))
  = S (st_tick st).
Proof.
  unfold PostService.API_CLASSES.
  destruct (String.eqb platform "facebook");
    [| destruct (String.eqb platform "twitter");
       [| destruct (String.eqb platform "linkedin"); [| discriminate]]];
    intros [= <-]; simpl;
    unfold FacebookAPI.get_post_analytics, TwitterAPI.get_post_analytics,
      LinkedInAPI.get_post_analytics; cbv zeta;
    (rewrite tick_bind; [rewrite make_request_state; reflexivity | ticks]).
Qed.

Lemma adapter_iff_request platform account post_id :
  match PostService.API_CLASSES env platform,
        analytics_request_of platform account post_id with
  | Some _, Some _ | None, None => True
  | _, _ => False
  end.
Proof.
  unfold PostService.API_CLASSES, analytics_request_of.
  repeat match goal with
         | |- context [String.eqb platform ?s] =>
             destruct (String.eqb platform s)
         end; exact I.
Qed.

(** One turn makes the request for its publication, if there is one,
    and no other interaction. *)
Lemma sync_publication_tick analytics p account st :
  account_of (st_db st) p = Some account ->
  st_tick (snd (PostService.sync_publication env analytics p st))
  = st_tick st + length (analytics_requests (st_db st) [p]).
Proof.
  intro Haccount.
  unfold PostService.sync_publication.
  rewrite (@try_bind_found _ _ _ _ _ _ _ (by_pk_found _ _ Haccount)).
  unfold analytics_requests. simpl flat_map. rewrite Haccount, app_nil_r.
  pose proof (adapter_iff_request (acc_platform account) account
                (pub_platform_post_id p)) as Hboth.
  rewrite tick_try by (intros e k [= <-]; ticks).
  destruct (PostService.API_CLASSES env (acc_platform account))
    as [api |] eqn:Hapi;
    destruct (analytics_request_of (acc_platform account) account
                (pub_platform_post_id p)) as [rq |];
    try contradiction; simpl.
  - rewrite tick_bind.
    + rewrite (@get_post_analytics_tick _ _ _ _ _ Hapi). lia.
    + intro platform_analytics. ticks.
  - lia.
Qed.

Lemma analytics_requests_cons d p l :
  analytics_requests d (p :: l)
  = analytics_requests d [p] ++ analytics_requests d l.
Proof.
  unfold analytics_requests. simpl. rewrite app_nil_r. reflexivity.
Qed.

Lemma sync_loop_ticks l analytics st :
  (forall p, In p l -> exists a, account_of (st_db st) p = Some a) ->
  st_tick (snd (PostService.for_each (PostService.sync_publication env)
                  l analytics st))
  = st_tick st + length (analytics_requests (st_db st) l).
Proof.
  revert analytics st.
  induction l as [| p l IH]; intros analytics st Haccounts.
  - simpl. lia.
  - destruct (Haccounts p (or_introl eq_refl)) as [a Ha].
    destruct (@sync_publication_run env analytics p a st Ha)
      as (analytics1 & st1 & Hrun & _ & Hacc1 & _).
    pose proof (@sync_publication_tick analytics p a st Ha) as Htick.
    rewrite Hrun in Htick. cbn [snd] in Htick.
    rewrite (analytics_requests_cons (st_db st) p l), length_app.
    simpl PostService.for_each. unfold bind. rewrite Hrun.
    rewrite IH.
    + rewrite (@analytics_requests_same_accounts _ _ l Hacc1). lia.
    + intros q Hq. rewrite (@account_of_same_accounts _ _ q Hacc1).
      apply Haccounts. right. exact Hq.
Qed.

(** *** What the synchronisation reads of the network *)

Variable network : nat -> Request -> NetResult.

Lemma make_request_same_answer rq st :
  network (st_tick st) rq = net env (st_tick st) rq ->
  _make_request (with_net network env) rq st = _make_request env rq st.
Proof.
  intro H. unfold _make_request, try_except, bind, requests_request.
  simpl. rewrite H. reflexivity.
Qed.

Lemma get_post_analytics_same_answer platform account post_id rq st :
  analytics_request_of platform account post_id = Some rq ->
  network (st_tick st) rq = net env (st_tick st) rq ->
  exists api api',
    PostService.API_CLASSES env platform = Some api /\
    PostService.API_CLASSES (with_net network env) platform = Some api' /\
    api_get_post_analytics api' account post_id st
    = api_get_post_analytics api account post_id st.
Proof.
  unfold PostService.API_CLASSES, analytics_request_of.
  destruct (String.eqb platform "facebook");
    [| destruct (String.eqb platform "twitter");
       [| destruct (String.eqb platform "linkedin"); [| discriminate]]];
    intros [= <-] H; eexists _, _;
    (split; [reflexivity |]); (split; [reflexivity |]); simpl;
    unfold FacebookAPI.get_post_analytics, TwitterAPI.get_post_analytics,
      LinkedInAPI.get_post_analytics; cbv zeta; unfold bind at 1 3;
    unfold FacebookAPI.analytics_request, TwitterAPI.analytics_request,
      LinkedInAPI.analytics_request in H; cbv zeta in H;
    rewrite (@make_request_same_answer _ _ H); reflexivity.
Qed.

Lemma sync_publication_same_answer analytics p account st :
  account_of (st_db st) p = Some account ->
  (forall rq,
      analytics_request_of (acc_platform account) account
        (pub_platform_post_id p) = Some rq ->
      network (st_tick st) rq = net env (st_tick st) rq) ->
  PostService.sync_publication (with_net network env) analytics p st
  = PostService.sync_publication env analytics p st.
Proof.
  intros Haccount H.
  unfold PostService.sync_publication.
  rewrite !(@try_bind_found _ _ _ _ _ _ _ (by_pk_found _ _ Haccount)).
  pose proof (adapter_iff_request (acc_platform account) account
                (pub_platform_post_id p)) as Hboth.
  destruct (analytics_request_of (acc_platform account) account
              (pub_platform_post_id p)) as [rq |] eqn:Hrq.
  - destruct (@get_post_analytics_same_answer _ _ _ _ st Hrq (H rq eq_refl))
      as (api & api' & -> & -> & Hsame).
    unfold try_except, bind. rewrite Hsame. reflexivity.
  - clear Hboth. unfold analytics_request_of in Hrq.
    unfold PostService.API_CLASSES.
    repeat match goal with
           | |- context [String.eqb (acc_platform account) ?s] =>
               destruct (String.eqb (acc_platform account) s);
               try discriminate
           end.
    reflexivity.
Qed.

Lemma sync_loop_same_answers l analytics st :
  (forall p, In p l -> exists a, account_of (st_db st) p = Some a) ->
  (forall i rq,
      nth_error (analytics_requests (st_db st) l) i = Some rq ->
      network (st_tick st + i) rq = net env (st_tick st + i) rq) ->
  PostService.for_each (PostService.sync_publication (with_net network env))
    l analytics st
  = PostService.for_each (PostService.sync_publication env) l analytics st.
Proof.
  revert analytics st.
  induction l as [| p l IH]; intros analytics st Haccounts H;
    [reflexivity |].
  destruct (Haccounts p (or_introl eq_refl)) as [a Ha].
  destruct (@sync_publication_run env analytics p a st Ha)
    as (analytics1 & st1 & Hrun & _ & Hacc1 & _).
  pose proof (@sync_publication_tick analytics p a st Ha) as Htick.
  rewrite Hrun in Htick. cbn [snd] in Htick.
  rewrite (analytics_requests_cons (st_db st) p l) in H.
  simpl PostService.for_each. unfold bind.
  rewrite sync_publication_same_answer with (account := a); [| exact Ha |].
  - rewrite Hrun. apply IH.
    + intros q Hq. rewrite (@account_of_same_accounts _ _ q Hacc1).
      apply Haccounts. right. exact Hq.
    + intros i rq Hi.
      rewrite (@analytics_requests_same_accounts _ _ l Hacc1) in Hi.
      rewrite Htick, <- Nat.add_assoc. apply H.
      rewrite nth_error_app2 by lia.
      replace (length (analytics_requests (st_db st) [p]) + i
               - length (analytics_requests (st_db st) [p])) with i by lia.
      exact Hi.
  - intros rq Hrq. specialize (H 0 rq). rewrite Nat.add_0_r in H.
    apply H. unfold analytics_requests. simpl. rewrite Ha, Hrq. reflexivity.
Qed.

End SyncInteractions.

Lemma NoDup_map_eq {A B} (f : A -> B) l x y :
  NoDup (map f l) -> In x l -> In y l -> f x = f y -> x = y.
Proof.
  induction l as [| z l IH]; simpl; [intros _ [] |].
  intros Hnd Hx Hy Hxy. inversion Hnd as [| ? ? Hz Hl]; subst.
  destruct Hx as [-> | Hx], Hy as [-> | Hy]; auto.
  - exfalso. apply Hz. rewrite Hxy. apply in_map, Hy.
  - exfalso. apply Hz. rewrite <- Hxy. apply in_map, Hx.
Qed.

Lemma NoDup_map_filter {A B} (f : A -> B) (keep : A -> bool) l :
  NoDup (map f l) -> NoDup (map f (filter keep l)).
Proof.
  induction l as [| x l IH]; simpl; intro H; [constructor |].
  inversion H as [| ? ? Hx Hl]; subst.
  destruct (keep x); simpl; [| auto].
  constructor; [| auto].
  intro Hin. apply Hx. apply in_map_iff in Hin.
  destruct Hin as (y & Hy & Hin). apply filter_In in Hin.
  rewrite <- Hy. apply in_map, Hin.
Qed.

(** C8: with every publication pointing to an account row and distinct
    primary keys, [get_post_analytics] returns, and
    - every platform of the map it returns is the platform of a
      successful attempt of the post;
    - the snapshot of an attempt that is not a successful attempt of the
      post is left as it was;
    - it makes one request for each successful attempt of the post whose
      platform has an adapter, in order, and no other: so many
      interactions are made, and with any other network that answers
      these requests alike, each at its moment, the run is the same;
    - the snapshot of a successful attempt for which the adapter returns
      an empty result when its turn comes is left as it was. *)
Theorem sync_analytics_frame (env : Env) (post : Post) (st : State) :
  accounts_exist (st_db st) ->
  distinct_pks (st_db st) ->
  exists analytics st',
    PostService.get_post_analytics env post st = (Ok analytics, st') /\
    (forall platform,
        In platform (Py.keys analytics) ->
        exists p a,
          In p (db_publications (st_db st)) /\
          successful_attempt post p = true /\
          account_of (st_db st) p = Some a /\
          acc_platform a = platform) /\
    (forall p,
        In p (db_publications (st_db st)) ->
        successful_attempt post p = false ->
        snapshot (st_db st') (pub_pk p) = snapshot (st_db st) (pub_pk p)) /\
    st_tick st'
    = st_tick st
      + length (analytics_requests (st_db st)
                  (successful_attempts (st_db st) post)) /\
    (forall network,
        (forall i rq,
            nth_error (analytics_requests (st_db st)
                         (successful_attempts (st_db st) post)) i
            = Some rq ->
            network (st_tick st + i) rq = net env (st_tick st + i) rq) ->
        PostService.get_post_analytics (with_net network env) post st
        = (Ok analytics, st')) /\
    (forall before p after,
        successful_attempts (st_db st) post = before ++ p :: after ->
        nothing_to_report env
          (snd (PostService.for_each (PostService.sync_publication env)
                  before [] st)) p ->
        snapshot (st_db st') (pub_pk p) = snapshot (st_db st) (pub_pk p)).
Proof.
  intros Haccounts Hpks.
  set (l := successful_attempts (st_db st) post).
  assert (Hrun : forall env0,
             PostService.get_post_analytics env0 post st
             = PostService.for_each (PostService.sync_publication env0)
                 l [] st)
    by reflexivity.
  assert (Hl : forall p, In p l <->
                         In p (db_publications (st_db st)) /\
                         successful_attempt post p = true)
    by (intro p; apply filter_In).
  assert (Hfound : forall p, In p l ->
                             exists a, account_of (st_db st) p = Some a)
    by (intros p Hp; apply Haccounts, Hl, Hp).
  assert (Hnd : NoDup (map pub_pk l)) by (apply NoDup_map_filter, Hpks).
  destruct (sync_loop_spec env l [] st Hfound)
    as (analytics & st' & Hloop & Hkeys & _ & _ & Hsnap).
  exists analytics, st'. rewrite Hrun. split; [exact Hloop |].
  split; [| split; [| split; [| split]]].
  - intros platform Hin.
    destruct (Hkeys platform Hin) as [[] | (p & a & Hp & Ha & Hplatform)].
    apply Hl in Hp. destruct Hp as [Hp Hsucc].
    exists p, a. auto.
  - intros p Hp Hfailed. apply Hsnap.
    intro Hin. apply in_map_iff in Hin. destruct Hin as (q & Hqp & Hq).
    apply Hl in Hq. destruct Hq as [Hq Hsucc].
    assert (q = p) by exact (@NoDup_map_eq _ _ pub_pk _ q p Hpks Hq Hp Hqp).
    subst q. congruence.
  - pose proof (sync_loop_ticks env l [] st Hfound) as Hticks.
    rewrite Hloop in Hticks. exact Hticks.
  - intros network Hsame. rewrite Hrun.
    rewrite (sync_loop_same_answers env network l [] st Hfound Hsame).
    exact Hloop.
  - intros before p after Hsplit Hnothing.
    pose proof (@sync_loop_nothing env before p after [] st) as H.
    rewrite <- Hsplit in H. rewrite Hloop in H. apply H; assumption.
Qed.

(** A post without a successful attempt: nothing is asked, nothing is
    returned, nothing is written. *)
Lemma sync_without_successful_attempt (env : Env) (post : Post) (st : State) :
  (forall p, In p (db_publications (st_db st)) ->
             successful_attempt post p = false) ->
  PostService.get_post_analytics env post st = (Ok [], st).
Proof.
  intro H.
  unfold PostService.get_post_analytics, ORM.successful_publications.
  unfold bind at 1. unfold bind at 1. unfold get_db, ret.
  assert (E : filter (fun p => Nat.eqb (pub_post p) (post_pk post)
                               && pub_is_success p)
                     (db_publications (st_db st)) = []).
  { induction (db_publications (st_db st)) as [| p l IH]; simpl;
      [reflexivity |].
    pose proof (H p (or_introl eq_refl)) as Hp.
    unfold successful_attempt in Hp. rewrite Hp.
    apply IH. intros q Hq. apply H. right. exact Hq. }
  rewrite E. reflexivity.
Qed.

(** The example of the specification, with an outage that passes: ten
    likes are stored; Facebook cannot be reached at the moment of the
    sync, which returns nothing and keeps the ten likes; the next sync
    reaches it and stores what it reports. *)
Example ten_likes_are_kept :
  PostService.get_post_analytics Cases.outage_world Scenario.only_facebook
    Scenario.synced
  = (Ok [], Cases.after_outage) /\
  snapshot (st_db Cases.after_outage) 100 = Some Scenario.ten_likes /\
  option_map an_likes
    (snapshot
       (st_db (snd (PostService.get_post_analytics Cases.outage_world
                      Scenario.only_facebook Cases.after_outage))) 100)
  = Some 3%Z.
Proof. vm_compute. repeat split. Qed.

Lemma sync_analytics_frame_witness :
  accounts_exist (st_db Scenario.synced) /\
  distinct_pks (st_db Scenario.synced) /\
  exists analytics st',
    PostService.get_post_analytics Cases.outage_world Scenario.only_facebook
      Scenario.synced = (Ok analytics, st') /\
    (forall platform,
        In platform (Py.keys analytics) ->
        exists p a,
          In p (db_publications (st_db Scenario.synced)) /\
          successful_attempt Scenario.only_facebook p = true /\
          account_of (st_db Scenario.synced) p = Some a /\
          acc_platform a = platform) /\
    (forall p,
        In p (db_publications (st_db Scenario.synced)) ->
        successful_attempt Scenario.only_facebook p = false ->
        snapshot (st_db st') (pub_pk p)
        = snapshot (st_db Scenario.synced) (pub_pk p)) /\
    st_tick st'
    = st_tick Scenario.synced
      + length (analytics_requests (st_db Scenario.synced)
                  (successful_attempts (st_db Scenario.synced)
                     Scenario.only_facebook)) /\
    (forall network,
        (forall i rq,
            nth_error (analytics_requests (st_db Scenario.synced)
                         (successful_attempts (st_db Scenario.synced)
                            Scenario.only_facebook)) i
            = Some rq ->
            network (st_tick Scenario.synced + i) rq
            = net Cases.outage_world (st_tick Scenario.synced + i) rq) ->
        PostService.get_post_analytics (with_net network Cases.outage_world)
          Scenario.only_facebook Scenario.synced
        = (Ok analytics, st')) /\
    (forall before p after,
        successful_attempts (st_db Scenario.synced) Scenario.only_facebook
        = before ++ p :: after ->
        nothing_to_report Cases.outage_world
          (snd (PostService.for_each
                  (PostService.sync_publication Cases.outage_world)
                  before [] Scenario.synced)) p ->
        snapshot (st_db st') (pub_pk p)
        = snapshot (st_db Scenario.synced) (pub_pk p)).
Proof.
  assert (Ha : accounts_exist (st_db Scenario.synced)).
  { intros p [<- | []]. eexists. reflexivity. }
  assert (Hp : distinct_pks (st_db Scenario.synced)).
  { vm_compute. constructor; [intros [] | constructor]. }
  split; [exact Ha |]. split; [exact Hp |].
  exact (sync_analytics_frame Cases.outage_world
           Scenario.only_facebook Scenario.synced Ha Hp).
Defined.

(** In that run the adapter has nothing to report at the moment it is
    asked, and has something to report a moment later. *)
Example outage_passes :
  nothing_to_report Cases.outage_world Scenario.synced Scenario.published_row
  /\ ~ nothing_to_report Cases.outage_world Cases.after_outage
         Scenario.published_row.
Proof.
  split.
  - exists Scenario.facebook_account, (FacebookAPI.api Cases.outage_world),
      (JObj []).
    repeat split.
  - intros (account & api & j & Haccount & Hapi & Hj & Hfalsy).
    vm_compute in Haccount. injection Haccount as <-.
    vm_compute in Hapi. injection Hapi as <-.
    vm_compute in Hj. injection Hj as <-. discriminate.
Qed.

(* ===================================================================== *)
(** * Further properties *)

(** ** The adapters, beyond the claims *)

Section MoreAdapterFacts.

Variable env : Env.


Lemma scalar_not_iterable j :
  is_scalar j = true ->
  py_in "error" j = Raise (Exn TypeError "argument is not iterable").
Proof. destruct j; simpl; (discriminate || reflexivity). Qed.

Lemma make_request_body rq st r j :
  net env (st_tick st) rq = Responded r ->
  status_ok r = true ->
  rs_json r = Some j ->
  _make_request env rq st = (Ok j, tick st).
Proof.
  unfold status_ok. intros Hnet Hok Hjson.
  apply negb_true_iff in Hok.
  unfold _make_request, try_except, bind, requests_request,
    raise_for_status, response_json.
  rewrite Hnet. simpl. rewrite Hok. simpl. rewrite Hjson. reflexivity.
Qed.

(** X2: when the platform answers a deletion with a JSON scalar
    ([null], a number, [true]), [delete_post] of every adapter raises a
    [TypeError] instead of returning a boolean. *)
Theorem delete_post_raises_on_scalar_body
        (account : SocialMediaAccount) (post_id : string) (st : State)
        (r : Response) (j : json) :
  (forall rq, net env (st_tick st) rq = Responded r) ->
  status_ok r = true ->
  rs_json r = Some j ->
  is_scalar j = true ->
  let raised := (Raise (Exn TypeError "argument is not iterable"), tick st) in
  FacebookAPI.delete_post env account post_id st = raised /\
  TwitterAPI.delete_post env account post_id st = raised /\
  LinkedInAPI.delete_post env account post_id st = raised.
Proof.
  intros Hnet Hok Hjson Hscalar raised. subst raised.
  unfold FacebookAPI.delete_post, TwitterAPI.delete_post,
    LinkedInAPI.delete_post, bind.
  rewrite !(fun rq => make_request_body rq st (Hnet rq) Hok Hjson).
  unfold lift. rewrite (scalar_not_iterable j Hscalar).
  repeat split.
Qed.

(** X3: when the request fails remotely, [get_post_analytics] of every
    adapter returns the empty dict, after one interaction. *)
Theorem analytics_empty_on_remote_failure
        (account : SocialMediaAccount) (post_id : string) (st : State) :
  (forall rq, remote_failure (net env (st_tick st) rq) = true) ->
  FacebookAPI.get_post_analytics env account post_id st
  = (Ok (JObj []), tick st) /\
  TwitterAPI.get_post_analytics env account post_id st
  = (Ok (JObj []), tick st) /\
  LinkedInAPI.get_post_analytics env account post_id st
  = (Ok (JObj []), tick st).
Proof.
  intro H.
  assert (Hreq : forall rq, exists msg,
               _make_request env rq st
               = (Ok (JObj [("error", JStr msg)]), tick st))
    by (intro; apply make_request_remote_failure, H).
  unfold FacebookAPI.get_post_analytics, TwitterAPI.get_post_analytics,
    LinkedInAPI.get_post_analytics. cbv zeta.
  repeat split; unfold bind at 1;
    match goal with
    | |- context [_make_request env ?rq st] =>
        destruct (Hreq rq) as [msg ->]
    end; reflexivity.
Qed.

End MoreAdapterFacts.

Lemma delete_post_raises_on_scalar_body_witness :
  (forall rq,
      net Cases.null_world (st_tick Cases.nothing) rq
      = Responded Cases.null_response) /\
  status_ok Cases.null_response = true /\
  rs_json Cases.null_response = Some JNull /\
  is_scalar JNull = true /\
  FacebookAPI.delete_post Cases.null_world Scenario.facebook_account
    "fb123" Cases.nothing
  = (Raise (Exn TypeError "argument is not iterable"), tick Cases.nothing) /\
  TwitterAPI.delete_post Cases.null_world Scenario.facebook_account
    "fb123" Cases.nothing
  = (Raise (Exn TypeError "argument is not iterable"), tick Cases.nothing) /\
  LinkedInAPI.delete_post Cases.null_world Scenario.facebook_account
    "fb123" Cases.nothing
  = (Raise (Exn TypeError "argument is not iterable"), tick Cases.nothing).
Proof.
  assert (Hnet : forall rq,
             net Cases.null_world (st_tick Cases.nothing) rq
             = Responded Cases.null_response)
    by (intro; reflexivity).
  split; [exact Hnet |].
  split; [reflexivity |]. split; [reflexivity |]. split; [reflexivity |].
  exact (@delete_post_raises_on_scalar_body Cases.null_world
           Scenario.facebook_account "fb123" Cases.nothing
           Cases.null_response JNull Hnet eq_refl eq_refl eq_refl).
Defined.

Lemma analytics_empty_on_remote_failure_witness :
  (forall rq,
      remote_failure (net Cases.down_world (st_tick Cases.nothing) rq)
      = true) /\
  FacebookAPI.get_post_analytics Cases.down_world Scenario.facebook_account
    "fb123" Cases.nothing
  = (Ok (JObj []), tick Cases.nothing) /\
  TwitterAPI.get_post_analytics Cases.down_world Scenario.facebook_account
    "fb123" Cases.nothing
  = (Ok (JObj []), tick Cases.nothing) /\
  LinkedInAPI.get_post_analytics Cases.down_world Scenario.facebook_account
    "fb123" Cases.nothing
  = (Ok (JObj []), tick Cases.nothing).
Proof.
  assert (H : forall rq,
             remote_failure (net Cases.down_world (st_tick Cases.nothing) rq)
             = true)
    by (intro; reflexivity).
  split; [exact H |].
  exact (@analytics_empty_on_remote_failure Cases.down_world
           Scenario.facebook_account "fb123" Cases.nothing H).
Defined.

(** Case analysis along a computation that returned. *)
Ltac returned_cases H :=
  simpl in H;
  repeat match type of H with
         | context [match ?x with _ => _ end] =>
             destruct x eqn:?; simpl in H; try discriminate H
         end.

(** X4: whatever an adapter's [get_post_analytics] returns is a dict
    whose keys are all fields of [PostAnalytics], so that
    [PostAnalytics(publication=..., **defaults)] never meets an
    unexpected keyword. *)
Theorem adapter_analytics_are_model_fields
        (env : Env) (platform : string) (api : SocialMediaAPI)
        (account : SocialMediaAccount) (post_id : string) (st : State)
        (j : json) :
  PostService.API_CLASSES env platform = Some api ->
  fst (api_get_post_analytics api account post_id st) = Ok j ->
  exists d,
    j = JObj d /\
    forall o, exists o', ORM.init_kwargs o d = Ok o'.
Proof.
  unfold PostService.API_CLASSES.
  destruct (String.eqb platform "facebook");
    [| destruct (String.eqb platform "twitter");
       [| destruct (String.eqb platform "linkedin"); [| discriminate]]];
    intros [= <-]; simpl;
    unfold FacebookAPI.get_post_analytics, TwitterAPI.get_post_analytics,
      LinkedInAPI.get_post_analytics, bind, lift, ret;
    intro H; returned_cases H; injection H as <-;
    (eexists; split; [reflexivity |]; intro o; simpl; eexists; reflexivity).
Qed.

Lemma adapter_analytics_are_model_fields_witness :
  PostService.API_CLASSES (Scenario.world Scenario.all_accept) "facebook"
  = Some (FacebookAPI.api (Scenario.world Scenario.all_accept)) /\
  fst (api_get_post_analytics
         (FacebookAPI.api (Scenario.world Scenario.all_accept))
         Scenario.facebook_account "fb123" Cases.nothing)
  = Ok (JObj [("likes", JNum 0); ("comments", JNum 0); ("shares", JNum 0);
              ("raw_data", JObj [("id", JStr "fb123")])]) /\
  exists d,
    JObj [("likes", JNum 0); ("comments", JNum 0); ("shares", JNum 0);
          ("raw_data", JObj [("id", JStr "fb123")])] = JObj d /\
    forall o, exists o', ORM.init_kwargs o d = Ok o'.
Proof.
  split; [reflexivity |]. split; [reflexivity |].
  exact (@adapter_analytics_are_model_fields
           (Scenario.world Scenario.all_accept) "facebook"
           (FacebookAPI.api (Scenario.world Scenario.all_accept))
           Scenario.facebook_account "fb123" Cases.nothing _
           eq_refl eq_refl).
Defined.

(** X5: the media loop uploads every media item once, in the order of
    the media, and goes on after an upload that gave nothing; it returns
    the handles it was given followed by exactly those obtained that
    are true values, in that order.  It stops only when an upload
    raises. *)
Theorem upload_each_keeps_true_handles
        (upload : string -> M json) (media_urls : list string)
        (media_ids : list json) (st : State) :
  upload_each upload media_urls media_ids st
  = (handles <- upload_all upload media_urls ;;
     ret (media_ids ++ filter Py.truthy handles)) st.
Proof.
  revert media_ids st.
  induction media_urls as [| u rest IH]; intros media_ids st; simpl.
  - unfold bind, ret. rewrite app_nil_r. reflexivity.
  - unfold bind.
    destruct (upload u st) as [[handle | e] st1]; [| reflexivity].
    rewrite IH. unfold bind.
    destruct (upload_all upload rest st1) as [[handles | e] st2];
      [| reflexivity].
    unfold ret. simpl.
    destruct (Py.truthy handle); [rewrite <- app_assoc |]; reflexivity.
Qed.

(** The first upload is refused, the second gives ["fb123"]. *)
Lemma upload_each_keeps_true_handles_witness :
  upload_all
    (FacebookAPI._upload_media (Scenario.world Scenario.fails_once)
       Scenario.facebook_account)
    ["http://img.example/1.png"; "http://img.example/2.png"] Cases.nothing
  = (Ok [JNull; JStr "fb123"], advance 2 Cases.nothing) /\
  upload_each
    (FacebookAPI._upload_media (Scenario.world Scenario.fails_once)
       Scenario.facebook_account)
    ["http://img.example/1.png"; "http://img.example/2.png"] []
    Cases.nothing
  = (Ok [JStr "fb123"], advance 2 Cases.nothing).
Proof.
  split; [reflexivity |].
  rewrite (upload_each_keeps_true_handles
             (FacebookAPI._upload_media (Scenario.world Scenario.fails_once)
                Scenario.facebook_account)
             ["http://img.example/1.png"; "http://img.example/2.png"] []
             Cases.nothing).
  reflexivity.
Defined.

Lemma dict_get_absent d k default :
  Py.dict_has d k = false -> Py.dict_get d k default = default.
Proof.
  induction d as [| [k' v] d IH]; simpl; [reflexivity |].
  destruct (String.eqb k' k); [discriminate | exact IH].
Qed.

Section MoreCreateFacts.

Variable env : Env.

Lemma twitter_download_refused account media_url st r :
  net env (st_tick st) (request "GET" media_url) = Responded r ->
  rs_status_code r <> 200%Z ->
  TwitterAPI._upload_media env account media_url st = (Ok JNull, tick st).
Proof.
  intros Hnet Hstatus.
  unfold TwitterAPI._upload_media, bind, requests_request. cbv zeta.
  rewrite Hnet. apply Z.eqb_neq in Hstatus. rewrite Hstatus. reflexivity.
Qed.

(** X6: when no media of a tweet can be downloaded with status 200,
    [TwitterAPI.create_post] uploads nothing and posts the text alone,
    after one interaction per media item. *)
Theorem twitter_posts_text_when_downloads_fail
        (account : SocialMediaAccount) (content : string)
        (media : list string) (st : State) :
  (forall n media_url,
      In media_url media ->
      exists r, net env n (request "GET" media_url) = Responded r /\
                rs_status_code r <> 200%Z) ->
  TwitterAPI.create_post env account content (Some media) st
  = _make_request env
      (TwitterAPI.tweets_request account (TwitterAPI.text_only content))
      (advance (length media) st).
Proof.
  intro H.
  apply twitter_posts_text_without_handles.
  revert st. generalize (@nil json) as media_ids.
  induction media as [| u rest IH]; intros media_ids st; simpl.
  - rewrite advance_0. reflexivity.
  - destruct (H (st_tick st) u (or_introl eq_refl)) as (r & Hnet & Hstatus).
    unfold bind. rewrite (twitter_download_refused account u st Hnet Hstatus).
    simpl. rewrite IH by (intros; apply H; right; assumption).
    rewrite tick_advance. reflexivity.
Qed.

(** X7: a LinkedIn upload whose registration is accepted without any
    ['value'] in the answer still yields a media handle, with an empty
    asset, and [LinkedInAPI.create_post] attaches it as an image. *)
Theorem linkedin_attaches_empty_asset
        (account : SocialMediaAccount) (content media_url : string)
        (st : State) (r : Response) (d : pydict) :
  (forall rq, net env (st_tick st) rq = Responded r) ->
  status_ok r = true ->
  rs_json r = Some (JObj d) ->
  Py.dict_has d "error" = false ->
  Py.dict_has d "value" = false ->
  LinkedInAPI.create_post env account content (Some [media_url]) st
  = _make_request env
      (LinkedInAPI.ugc_request account
         [("shareCommentary", JObj [("text", JStr content)]);
          ("shareMediaCategory", JStr "IMAGE");
          ("media",
           JArr [JObj [("status", JStr "READY");
                       ("description", JObj [("text", JStr "Uploaded media")]);
                       ("media", JStr "")]])])
      (tick st).
Proof.
  intros Hnet Hok Hjson Herror Hvalue.
  unfold LinkedInAPI.create_post, some_media. cbv beta match zeta.
  unfold bind at 1. unfold bind at 1.
  unfold upload_each, bind at 1, LinkedInAPI._upload_media. cbv zeta.
  unfold bind at 1.
  rewrite (make_request_body env _ st (Hnet _) Hok Hjson).
  unfold bind, lift, ret. simpl py_in. rewrite Herror.
  simpl py_get. rewrite (dict_get_absent d "value" _ Hvalue).
  reflexivity.
Qed.

End MoreCreateFacts.

Lemma twitter_posts_text_when_downloads_fail_witness :
  (forall n media_url,
      In media_url ["http://img.example/1.png"] ->
      exists r,
        net (Scenario.world Scenario.facebook_ok_twitter_limited) n
          (request "GET" media_url) = Responded r /\
        rs_status_code r <> 200%Z) /\
  TwitterAPI.create_post (Scenario.world Scenario.facebook_ok_twitter_limited)
    Scenario.twitter_account "hello" (Some ["http://img.example/1.png"])
    Cases.nothing
  = _make_request (Scenario.world Scenario.facebook_ok_twitter_limited)
      (TwitterAPI.tweets_request Scenario.twitter_account
         (TwitterAPI.text_only "hello"))
      (advance 1 Cases.nothing).
Proof.
  assert (H : forall n media_url,
             In media_url ["http://img.example/1.png"] ->
             exists r,
               net (Scenario.world Scenario.facebook_ok_twitter_limited) n
                 (request "GET" media_url) = Responded r /\
               rs_status_code r <> 200%Z).
  { intros n media_url [<- | []]. eexists. split; [reflexivity |].
    simpl. discriminate. }
  split; [exact H |].
  exact (@twitter_posts_text_when_downloads_fail
           (Scenario.world Scenario.facebook_ok_twitter_limited)
           Scenario.twitter_account "hello" ["http://img.example/1.png"]
           Cases.nothing H).
Defined.

Lemma linkedin_attaches_empty_asset_witness :
  (forall rq,
      net Cases.accepting_world (st_tick Cases.nothing) rq
      = Responded Cases.accepted) /\
  status_ok Cases.accepted = true /\
  rs_json Cases.accepted = Some (JObj [("id", JStr "urn:li:share:1")]) /\
  Py.dict_has [("id", JStr "urn:li:share:1")] "error" = false /\
  Py.dict_has [("id", JStr "urn:li:share:1")] "value" = false /\
  LinkedInAPI.create_post Cases.accepting_world Scenario.facebook_account
    "hello" (Some ["http://img.example/1.png"]) Cases.nothing
  = _make_request Cases.accepting_world
      (LinkedInAPI.ugc_request Scenario.facebook_account
         [("shareCommentary", JObj [("text", JStr "hello")]);
          ("shareMediaCategory", JStr "IMAGE");
          ("media",
           JArr [JObj [("status", JStr "READY");
                       ("description", JObj [("text", JStr "Uploaded media")]);
                       ("media", JStr "")]])])
      (tick Cases.nothing).
Proof.
  assert (Hnet : forall rq,
             net Cases.accepting_world (st_tick Cases.nothing) rq
             = Responded Cases.accepted)
    by (intro; reflexivity).
  split; [exact Hnet |].
  split; [reflexivity |]. split; [reflexivity |].
  split; [reflexivity |]. split; [reflexivity |].
  exact (@linkedin_attaches_empty_asset Cases.accepting_world
           Scenario.facebook_account "hello" "http://img.example/1.png"
           Cases.nothing Cases.accepted [("id", JStr "urn:li:share:1")]
           Hnet eq_refl eq_refl eq_refl eq_refl).
Defined.

(* ===================================================================== *)
(** ** Publishing, beyond the claims *)

Section MorePublishFacts.

Variable env : Env.

Lemma account_get_cases user platform st :
  match active_accounts (st_db st) user platform with
  | [] =>
      exists msg,
        ORM.SocialMediaAccount_get user platform st
        = (Raise (Exn DoesNotExist msg), st)
  | [a] => ORM.SocialMediaAccount_get user platform st = (Ok a, st)
  | _ :: _ :: _ =>
      exists msg,
        ORM.SocialMediaAccount_get user platform st
        = (Raise (Exn MultipleObjectsReturned msg), st)
  end.
Proof.
  unfold active_accounts, ORM.SocialMediaAccount_get, bind, get_db. simpl.
  destruct (filter _ _) as [| a [| b l]]; simpl;
    [eexists; reflexivity | reflexivity | eexists; reflexivity].
Qed.

Lemma wp_now_some (Q : res (option Z) -> State -> Prop) st :
  Q (Ok (Some (clock env (st_tick st)))) (tick st) ->
  wp (bind (ORM.now env) (fun t => ret (Some t))) Q st.
Proof. exact (fun H => H). Qed.

Lemma active_account_facts d user platform a :
  In a (active_accounts d user platform) ->
  In a (db_accounts d) /\ acc_user a = user /\
  acc_platform a = platform /\ acc_is_active a = true.
Proof.
  unfold active_accounts. intro H. apply filter_In in H.
  destruct H as [Hin H]. unfold ORM.account_matches in H.
  apply andb_true_iff in H. destruct H as [H Hactive].
  apply andb_true_iff in H. destruct H as [Huser Hplatform].
  apply Nat.eqb_eq in Huser. apply String.eqb_eq in Hplatform. auto.
Qed.

Lemma wp_if {A} (b : bool) (m1 m2 : M A) Q st :
  (b = true -> wp m1 Q st) -> (b = false -> wp m2 Q st) ->
  wp (if b then m1 else m2) Q st.
Proof. destruct b; auto. Qed.

(** One turn of the loop, with what it stores. *)
Lemma publish_to_adds post media results platform st :
  In platform (post_platforms post) ->
  wp (PostService.publish_to env post media results platform)
     (fun _ st1 =>
        db_accounts (st_db st1) = db_accounts (st_db st) /\
        exists added,
          db_publications (st_db st1) = db_publications (st_db st) ++ added /\
          Forall (fun row => coherent row /\ attempt_of (st_db st) post row)
                 added) st.
Proof.
  intro Hplatform.
  set (S1 := fun st1 =>
               db_accounts (st_db st1) = db_accounts (st_db st) /\
               exists added,
                 db_publications (st_db st1)
                 = db_publications (st_db st) ++ added /\
                 Forall (fun row => coherent row /\
                                    attempt_of (st_db st) post row) added).
  assert (Hsame : forall st1, st_db st1 = st_db st -> S1 st1).
  { intros st1 H. split; [rewrite H; reflexivity |].
    exists []. rewrite H, app_nil_r. split; [reflexivity | constructor]. }
  unfold PostService.publish_to.
  apply wp_try.
  apply wp_weaken with (Q := fun (_ : res PostService.Results) st1 => S1 st1).
  2: { intros [a | e] st1 H; [exact H |].
       destruct (is_DoesNotExist (exn_cls e)); exact H. }
  apply wp_bind. unfold wp at 1.
  pose proof (account_get_cases (post_user post) platform st) as Hget.
  destruct (active_accounts (st_db st) (post_user post) platform)
    as [| account [| b l]] eqn:Hactive.
  1: { destruct Hget as [msg ->]. apply Hsame. reflexivity. }
  2: { destruct Hget as [msg ->]. apply Hsame. reflexivity. }
  rewrite Hget. cbn [fst snd].
  assert (Haccount : In account
                        (active_accounts (st_db st) (post_user post) platform))
    by (rewrite Hactive; left; reflexivity).
  apply active_account_facts in Haccount.
  destruct Haccount as (Hin & Huser & Hplat & Hact).
  destruct (PostService.API_CLASSES env platform) as [api |] eqn:Hapi.
  2: { apply wp_ret, Hsame. reflexivity. }
  destruct (keeps_db_api env _ Hapi) as (Hcreate & _ & _).
  apply wp_bind, wp_keeps_db; [apply Hcreate |].
  intros [result | e] st2 H2; [| apply Hsame; congruence].
  apply wp_bind, wp_lift.
  destruct result as [| | | | | d];
    try (cbn [py_get]; apply Hsame; congruence).
  cbn [py_get].
  apply wp_bind, wp_lift. cbn [py_in].
  apply wp_bind.
  assert (Hstored :
            forall published_at st3,
              st_db st3 = st_db st ->
              (if Py.dict_has d "error" then published_at = None
               else published_at <> None) ->
              wp (error_message <-
                    lift (py_get (JObj d) "error" (JStr "")) ;;
                  has_error <- lift (py_in "error" (JObj d)) ;;
                  publication <-
                    ORM.PostPublication_create env post account
                      (Py.dict_get d "id" (JStr "")) published_at
                      error_message (negb has_error) ;;
                  ret (Py.dict_set results platform
                         [("success", JBool (pub_is_success publication));
                          ("post_id", Py.dict_get d "id" (JStr ""));
                          ("error", error_message)]))
                 (fun _ st1 => S1 st1) st3).
  { intros published_at st3 H3 Hdate.
    apply wp_bind, wp_lift. cbn [py_get].
    apply wp_bind, wp_lift. cbn [py_in].
    apply wp_bind.
    eapply wp_weaken; [apply wp_PostPublication_create |].
    intros [row | e] st4 H4; [| apply Hsame; congruence].
    destruct H4 as (_ & _ & Herr & Hpost & Hacc & Hat & Hok & Hpubs
                    & Ha & _).
    apply wp_ret. split; [congruence |].
    exists [row]. split; [congruence |].
    constructor; [| constructor]. split.
    - unfold coherent. rewrite Hok, Hat.
      destruct (Py.dict_has d "error") eqn:E; simpl; [exact Hdate |].
      split; [exact Hdate |].
      rewrite (dict_get_absent d "error" _ E) in Herr.
      simpl in Herr. congruence.
    - split; [exact Hpost |]. exists account.
      rewrite Hplat. auto. }
  apply wp_if; intro E.
  - apply negb_true_iff in E. apply wp_now_some.
    apply Hstored; [simpl; congruence | rewrite E; discriminate].
  - apply negb_false_iff in E. apply wp_ret.
    apply Hstored; [congruence | rewrite E; reflexivity].
Qed.

Lemma attempt_of_same_accounts d d' post row :
  db_accounts d' = db_accounts d ->
  attempt_of d' post row -> attempt_of d post row.
Proof.
  intros H (Hpost & a & Hin & Ha). split; [exact Hpost |].
  exists a. rewrite <- H. auto.
Qed.

Lemma publish_loop_adds post media platforms results st :
  (forall p, In p platforms -> In p (post_platforms post)) ->
  wp (PostService.for_each (PostService.publish_to env post media)
        platforms results)
     (fun _ st1 =>
        db_accounts (st_db st1) = db_accounts (st_db st) /\
        exists added,
          db_publications (st_db st1) = db_publications (st_db st) ++ added /\
          Forall (fun row => coherent row /\ attempt_of (st_db st) post row)
                 added) st.
Proof.
  revert results st.
  induction platforms as [| platform rest IH]; intros results st Hsub; simpl.
  - apply wp_ret. split; [reflexivity |].
    exists []. rewrite app_nil_r. split; [reflexivity | constructor].
  - apply wp_bind.
    eapply wp_weaken;
      [apply (publish_to_adds post media results platform st);
       apply Hsub; left; reflexivity |].
    intros r st1 (Ha & added & Hadded & Hrows).
    destruct r as [results1 | e]; simpl.
    + eapply wp_weaken;
        [apply (IH results1 st1); intros; apply Hsub; right; assumption |].
      intros r st2 (Ha' & added' & Hadded' & Hrows').
      split; [congruence |].
      exists (added ++ added'). split.
      * rewrite Hadded', Hadded, app_assoc. reflexivity.
      * apply Forall_app. split; [exact Hrows |].
        eapply Forall_impl; [| exact Hrows'].
        intros row [Hc Hat]. split; [exact Hc |].
        eapply attempt_of_same_accounts; eassumption.
    + split; [exact Ha |]. exists added. auto.
Qed.

(** The rows a publish adds, and the rows of [Post] it leaves. *)
Lemma publish_post_effect post media st :
  exists results post' st',
    PostService.publish_post env post media st = (Ok (results, post'), st') /\
    post_pk post' = post_pk post /\
    post_user post' = post_user post /\
    post_scheduled_date post' = post_scheduled_date post /\
    (post_status post' = published \/ post_status post' = failed) /\
    db_posts (st_db st') = rows_after_save post' (db_posts (st_db st)) /\
    db_accounts (st_db st') = db_accounts (st_db st) /\
    db_analytics (st_db st') = db_analytics (st_db st) /\
    exists added,
      db_publications (st_db st') = db_publications (st_db st) ++ added /\
      Forall (fun row => coherent row /\ attempt_of (st_db st) post row)
             added.
Proof.
  destruct (publish_post_run env post media st)
    as (results & st1 & Hloop & _ & _ & G & Hrun).
  pose proof (publish_loop_adds post media (post_platforms post) [] st
                (fun p H => H)) as Hadds.
  unfold wp in Hadds. rewrite Hloop in Hadds. simpl in Hadds.
  destruct Hadds as (_ & added & Hadded & Hrows).
  destruct G as (Ha & Hp & Hn & _).
  assert (Hsave : forall p s,
             db_posts (st_db (snd (ORM.Post_save p s)))
             = rows_after_save p (db_posts (st_db s)) /\
             db_accounts (st_db (snd (ORM.Post_save p s)))
             = db_accounts (st_db s) /\
             db_analytics (st_db (snd (ORM.Post_save p s)))
             = db_analytics (st_db s)).
  { intros p s. unfold ORM.Post_save, rows_after_save, bind, get_db. simpl.
    destruct (existsb _ (db_posts (st_db s))); repeat split. }
  destruct (existsb _ results); simpl in Hrun;
    (eexists results, _, _; split; [exact Hrun |]);
    rewrite Post_save_publications;
    match goal with
    | |- context [ORM.Post_save ?p ?s] =>
        destruct (Hsave p s) as (-> & -> & ->)
    end; simpl; rewrite ?Hp, ?Ha, ?Hn;
    repeat (split; [auto; fail |]); eauto.
Qed.

End MorePublishFacts.

Section PublishTheorems.

Variable env : Env.

(** X8: if every stored attempt is coherent (a success has a date and an
    empty error message, a failure has no date), every stored attempt
    is coherent after [publish_post]. *)
Theorem publish_post_keeps_attempts_coherent
        (post : Post) (media_urls : option (list string)) (st : State) :
  Forall coherent (db_publications (st_db st)) ->
  Forall coherent
         (db_publications
            (st_db (snd (PostService.publish_post env post media_urls st)))).
Proof.
  intro H.
  destruct (publish_post_effect env post media_urls st)
    as (results & post' & st' & Hrun & _ & _ & _ & _ & _ & _ & _
        & added & Hadded & Hrows).
  rewrite Hrun. simpl. rewrite Hadded. apply Forall_app. split; [exact H |].
  eapply Forall_impl; [| exact Hrows]. intros row [Hc _]. exact Hc.
Qed.

(** X9: every row [publish_post] adds is an attempt of the post itself,
    made with an active account of the post's author on one of the
    post's platforms; the rows that were there stay first. *)
Theorem publish_post_adds_own_attempts
        (post : Post) (media_urls : option (list string)) (st : State) :
  exists added,
    db_publications
      (st_db (snd (PostService.publish_post env post media_urls st)))
    = db_publications (st_db st) ++ added /\
    Forall (attempt_of (st_db st) post) added.
Proof.
  destruct (publish_post_effect env post media_urls st)
    as (results & post' & st' & Hrun & _ & _ & _ & _ & _ & _ & _
        & added & Hadded & Hrows).
  rewrite Hrun. simpl. exists added. split; [exact Hadded |].
  eapply Forall_impl; [| exact Hrows]. intros row [_ Ha]. exact Ha.
Qed.

Lemma lookup_after_save post rows :
  ORM.Post_lookup (post_pk post) (post_user post)
    {| db_accounts := []; db_posts := rows_after_save post rows;
       db_publications := []; db_analytics := []; db_next_pk := 0 |}
  = Some post.
Proof.
  unfold ORM.Post_lookup, rows_after_save. simpl.
  destruct (existsb _ rows) eqn:E.
  - induction rows as [| p rows IH]; simpl in *; [discriminate |].
    destruct (Nat.eqb (post_pk p) (post_pk post)) eqn:Hp; simpl.
    + rewrite !Nat.eqb_refl. reflexivity.
    + rewrite Hp. simpl. apply IH. exact E.
  - induction rows as [| p rows IH]; simpl in *.
    + rewrite !Nat.eqb_refl. reflexivity.
    + apply orb_false_iff in E. destruct E as [Hp E].
      rewrite Hp. simpl. apply IH. exact E.
Qed.

(** X10: [publish_post] saves what it returns: the post found afterwards
    under the same primary key and author is the post returned, with
    the status and date the publish gave it. *)
Theorem publish_post_saves_what_it_returns
        (post : Post) (media_urls : option (list string)) (st : State) :
  exists results post' st',
    PostService.publish_post env post media_urls st
    = (Ok (results, post'), st') /\
    ORM.Post_lookup (post_pk post) (post_user post) (st_db st') = Some post'.
Proof.
  destruct (publish_post_effect env post media_urls st)
    as (results & post' & st' & Hrun & Hpk & Huser & _ & _ & Hposts & _).
  exists results, post', st'. split; [exact Hrun |].
  pose proof (lookup_after_save post' (db_posts (st_db st))) as H.
  unfold ORM.Post_lookup in *. simpl in H.
  rewrite Hposts, <- Hpk, <- Huser. exact H.
Qed.

(** X11: [publish_post] leaves the accounts, the analytics snapshots and
    every post with another primary key as they were. *)
Theorem publish_post_leaves_the_rest
        (post : Post) (media_urls : option (list string)) (st : State) :
  let d' := st_db (snd (PostService.publish_post env post media_urls st)) in
  db_accounts d' = db_accounts (st_db st) /\
  db_analytics d' = db_analytics (st_db st) /\
  forall other,
    post_pk other <> post_pk post ->
    (In other (db_posts d') <-> In other (db_posts (st_db st))).
Proof.
  destruct (publish_post_effect env post media_urls st)
    as (results & post' & st' & Hrun & Hpk & _ & _ & _ & Hposts & Ha & Hn
        & _).
  rewrite Hrun. simpl. split; [exact Ha |]. split; [exact Hn |].
  intros other Hother. rewrite Hposts. unfold rows_after_save.
  rewrite Hpk.
  destruct (existsb _ (db_posts (st_db st))).
  - rewrite in_map_iff. split.
    + intros (p & Hp & Hin).
      destruct (Nat.eqb_spec (post_pk p) (post_pk post)); subst; auto.
      contradiction Hother. 
    + intro Hin. exists other. split; [| exact Hin].
      destruct (Nat.eqb_spec (post_pk other) (post_pk post));
        [contradiction | reflexivity].
  - rewrite in_app_iff. simpl. split.
    + intros [H | [<- | []]]; [exact H | contradiction].
    + auto.
Qed.

Lemma publish_to_undeliverable post media results platform st :
  undeliverable env (st_db st) (post_user post) platform ->
  exists msg,
    PostService.publish_to env post media results platform st
    = (Ok (Py.dict_set results platform [("error", JStr msg)]), st).
Proof.
  intro H. unfold PostService.publish_to, try_except.
  unfold bind at 1.
  pose proof (account_get_cases (post_user post) platform st) as Hget.
  unfold undeliverable in H.
  destruct (active_accounts (st_db st) (post_user post) platform)
    as [| account [| b l]].
  - destruct Hget as [msg ->]. simpl. eexists. reflexivity.
  - rewrite Hget. destruct H as [H | ->]; [contradiction H; reflexivity |].
    eexists. reflexivity.
  - destruct Hget as [msg ->]. simpl. eexists. reflexivity.
Qed.

Lemma dict_set_only_errors (results : PostService.Results) platform msg :
  Forall only_error (map snd results) ->
  Forall only_error
         (map snd (Py.dict_set results platform [("error", JStr msg)])).
Proof.
  induction results as [| [k v] results IH]; simpl; intro H.
  - constructor; [exists msg; reflexivity | constructor].
  - inversion H as [| ? ? Hv Hrest]; subst.
    destruct (String.eqb k platform); simpl.
    + constructor; [exists msg; reflexivity | exact Hrest].
    + constructor; [exact Hv | apply IH, Hrest].
Qed.

Lemma only_errors_no_success (results : PostService.Results) :
  Forall only_error (map snd results) ->
  existsb (fun outcome => succeeded (snd outcome)) results = false.
Proof.
  induction results as [| [k v] results IH]; simpl; intro H;
    [reflexivity |].
  inversion H as [| ? ? [msg ->] Hrest]; subst.
  simpl. apply IH, Hrest.
Qed.

(** X12: when no platform of the post can be reached (for each, the
    author has no active account or several, or no adapter exists),
    [publish_post] makes no request and stores no attempt; every
    outcome is an error and the post ends [failed]. *)
Theorem publish_post_nothing_to_call
        (post : Post) (media_urls : option (list string)) (st : State) :
  (forall platform,
      In platform (post_platforms post) ->
      undeliverable env (st_db st) (post_user post) platform) ->
  exists results st',
    PostService.publish_post env post media_urls st
    = (Ok (results, PostService.set_status failed post), st') /\
    Forall only_error (map snd results) /\
    st_tick st' = st_tick st /\
    db_publications (st_db st') = db_publications (st_db st).
Proof.
  intro H.
  assert (Hloop : forall platforms results,
             (forall p, In p platforms -> In p (post_platforms post)) ->
             Forall only_error (map snd results) ->
             exists results',
               PostService.for_each (PostService.publish_to env post media_urls)
                 platforms results st = (Ok results', st) /\
               Forall only_error (map snd results')).
  { induction platforms as [| platform rest IH]; intros results Hsub Herr;
      simpl.
    - exists results. auto.
    - destruct (@publish_to_undeliverable post media_urls results platform
                  st (H platform (Hsub platform (or_introl eq_refl))))
        as [msg Hto].
      unfold bind. rewrite Hto.
      apply IH; [intros; apply Hsub; right; assumption |].
      apply dict_set_only_errors, Herr. }
  destruct (Hloop (post_platforms post) [] (fun p Hp => Hp) (Forall_nil _))
    as (results & Hrun & Herr).
  exists results.
  exists (snd (ORM.Post_save (PostService.set_status failed post) st)).
  split; [| split; [exact Herr |
                    split; [apply Post_save_tick
                           | apply Post_save_publications]]].
  unfold PostService.publish_post. unfold bind at 1. rewrite Hrun.
  pose proof (proj2 (successful_platforms_nil results)
                (only_errors_no_success results Herr)) as Hnone.
  rewrite Hnone. unfold bind, ret.
  unfold ORM.Post_save, bind, get_db. simpl.
  destruct (existsb _ (db_posts (st_db st))); reflexivity.
Qed.

End PublishTheorems.

Lemma publish_post_keeps_attempts_coherent_witness :
  Forall coherent (db_publications (st_db Scenario.synced)) /\
  Forall coherent
         (db_publications
            (st_db (snd (PostService.publish_post
                           (Scenario.world Scenario.all_accept)
                           Scenario.both None Scenario.synced)))).
Proof.
  assert (H : Forall coherent (db_publications (st_db Scenario.synced))).
  { constructor; [| constructor]. split; [discriminate | reflexivity]. }
  split; [exact H |].
  exact (publish_post_keeps_attempts_coherent
           (Scenario.world Scenario.all_accept) Scenario.both None
           Scenario.synced H).
Defined.

Lemma publish_post_nothing_to_call_witness :
  (forall platform,
      In platform (post_platforms Cases.unreachable_post) ->
      undeliverable (Scenario.world Scenario.all_accept)
        (st_db Cases.with_instagram)
        (post_user Cases.unreachable_post) platform) /\
  exists results st',
    PostService.publish_post (Scenario.world Scenario.all_accept)
      Cases.unreachable_post None Cases.with_instagram
    = (Ok (results, PostService.set_status failed Cases.unreachable_post),
       st') /\
    Forall only_error (map snd results) /\
    st_tick st' = st_tick Cases.with_instagram /\
    db_publications (st_db st') = db_publications (st_db Cases.with_instagram).
Proof.
  assert (H : forall platform,
             In platform (post_platforms Cases.unreachable_post) ->
             undeliverable (Scenario.world Scenario.all_accept)
               (st_db Cases.with_instagram)
               (post_user Cases.unreachable_post) platform).
  { intros platform [<- | [<- | []]].
    - left. simpl. discriminate.
    - right. reflexivity. }
  split; [exact H |].
  exact (@publish_post_nothing_to_call (Scenario.world Scenario.all_accept)
           Cases.unreachable_post None Cases.with_instagram H).
Defined.

(* ===================================================================== *)
(** ** Connecting accounts *)

Lemma text_field_given env v :
  v <> JNull -> ORM.text_field env v = Ok (text_of env v).
Proof. destruct v; simpl; intro H; (reflexivity || contradiction). Qed.

Lemma truthy_given v : Py.truthy v = true -> v <> JNull.
Proof. intros H ->. discriminate. Qed.

Lemma given_or_not (v : json) : v = JNull \/ v <> JNull.
Proof. destruct v; (left; reflexivity) || (right; discriminate). Qed.

Section Connecting.

Variable env : Env.

(** What [connect_account] does when its three required values are
    given and a name comes with them: the row with the same
    (user, platform, account_id) is rewritten and activated, or a new
    row is added. *)
Lemma connect_account_effect user platform access_token account_id
      account_name st :
  Py.truthy platform = true -> Py.truthy access_token = true ->
  Py.truthy account_id = true -> account_name <> JNull ->
  exists a' created st',
    connect_account env user platform access_token account_id account_name st
    = (Ok (Some (a', created)), st') /\
    acc_user a' = user /\ acc_platform a' = text_of env platform /\
    acc_account_id a' = text_of env account_id /\
    acc_account_name a' = text_of env account_name /\
    acc_access_token a' = text_of env access_token /\
    acc_is_active a' = true /\
    st_tick st' = st_tick st /\
    match find (ORM.same_account_key user (text_of env platform)
                  (text_of env account_id))
               (db_accounts (st_db st)) with
    | Some a =>
        acc_pk a' = acc_pk a /\
        db_next_pk (st_db st') = db_next_pk (st_db st) /\
        db_accounts (st_db st')
        = map (fun x => if Nat.eqb (acc_pk x) (acc_pk a) then a' else x)
              (db_accounts (st_db st))
    | None =>
        acc_pk a' = db_next_pk (st_db st) /\
        db_next_pk (st_db st') = S (db_next_pk (st_db st)) /\
        db_accounts (st_db st') = db_accounts (st_db st) ++ [a']
    end.
Proof.
  intros Hp Ht Hi Hn.
  unfold connect_account. rewrite Hp, Ht, Hi. simpl.
  unfold ORM.SocialMediaAccount_update_or_create, bind, lift, get_db.
  rewrite (text_field_given env (truthy_given Hp)),
    (text_field_given env (truthy_given Hi)).
  simpl.
  destruct (find _ (db_accounts (st_db st))) as [a |] eqn:Hfind; simpl;
    rewrite (text_field_given env Hn),
      (text_field_given env (truthy_given Ht)); simpl.
  - apply find_some in Hfind. destruct Hfind as [_ Hkey].
    unfold ORM.same_account_key in Hkey.
    apply andb_true_iff in Hkey. destruct Hkey as [Hkey Hid].
    apply andb_true_iff in Hkey. destruct Hkey as [Hu Hpl].
    apply Nat.eqb_eq in Hu. apply String.eqb_eq in Hpl, Hid.
    eexists _, _, _. split; [reflexivity |]. simpl. auto 10.
  - eexists _, _, _. split; [reflexivity |]. simpl. auto 10.
Qed.

(** Without a name, the three required values being given, the row
    cannot be written: [update_or_create] raises and nothing changes. *)
Lemma connect_account_nameless user platform access_token account_id st :
  Py.truthy platform = true -> Py.truthy access_token = true ->
  Py.truthy account_id = true ->
  connect_account env user platform access_token account_id JNull st
  = (Raise (Exn IntegrityError "NOT NULL constraint failed"), st).
Proof.
  intros Hp Ht Hi.
  unfold connect_account. rewrite Hp, Ht, Hi. simpl.
  unfold ORM.SocialMediaAccount_update_or_create, bind, lift, get_db.
  rewrite (text_field_given env (truthy_given Hp)),
    (text_field_given env (truthy_given Hi)).
  simpl. destruct (find _ (db_accounts (st_db st))); reflexivity.
Qed.

Lemma connect_account_rejects user platform access_token account_id
      account_name st :
  Py.truthy platform = false \/ Py.truthy access_token = false \/
  Py.truthy account_id = false ->
  connect_account env user platform access_token account_id account_name st
  = (Ok None, st).
Proof.
  unfold connect_account.
  intros [-> | [-> | ->]]; simpl; rewrite ?andb_false_r; reflexivity.
Qed.

Lemma same_pk_same_row (l : list SocialMediaAccount) x y :
  NoDup (map acc_pk l) -> In x l -> In y l -> acc_pk x = acc_pk y -> x = y.
Proof. apply NoDup_map_eq. Qed.

Lemma replace_row_elsewhere (l : list SocialMediaAccount) a a' :
  ~ In (acc_pk a) (map acc_pk l) ->
  map (fun x => if Nat.eqb (acc_pk x) (acc_pk a) then a' else x) l = l.
Proof.
  induction l as [| x l IH]; simpl; intro H; [reflexivity |].
  destruct (Nat.eqb_spec (acc_pk x) (acc_pk a)) as [E | E].
  - exfalso. apply H. left. exact E.
  - rewrite IH; [reflexivity |]. intro Hin. apply H. right. exact Hin.
Qed.

Lemma filter_replaced (p : SocialMediaAccount -> bool) l a a' :
  NoDup (map acc_pk l) -> In a l -> filter p l = [] -> p a' = true ->
  filter p (map (fun x => if Nat.eqb (acc_pk x) (acc_pk a) then a' else x) l)
  = [a'].
Proof.
  induction l as [| x l IH]; simpl; intros Hnd Hin Hnone Ha';
    [contradiction |].
  inversion Hnd as [| ? ? Hx Hl]; subst.
  destruct (p x) eqn:Hpx; [discriminate |].
  destruct (Nat.eqb_spec (acc_pk x) (acc_pk a)) as [E | E].
  - simpl. rewrite Ha'. rewrite replace_row_elsewhere.
    + rewrite Hnone. reflexivity.
    + rewrite <- E. exact Hx.
  - simpl. rewrite Hpx. destruct Hin as [-> | Hin]; [contradiction |].
    apply IH; assumption.
Qed.

Lemma filter_snoc {A} (p : A -> bool) l x :
  filter p (l ++ [x]) = filter p l ++ (if p x then [x] else []).
Proof.
  induction l as [| y l IH]; simpl; [reflexivity |].
  rewrite IH. destruct (p y); reflexivity.
Qed.

(** X13: connect, then look up.  The three required values being given
    and the user having no active account on the platform: when a name
    comes with them, the account just connected is the one
    [publish_post] finds for that platform, with the id, the name and
    the token given; when no name comes ([account_name] is not
    required by the view), the connection raises [IntegrityError] and
    connects nothing. *)
Theorem connect_account_then_get
        (user : nat) (platform access_token account_id account_name : json)
        (st : State) :
  Py.truthy platform = true -> Py.truthy access_token = true ->
  Py.truthy account_id = true ->
  NoDup (map acc_pk (db_accounts (st_db st))) ->
  active_accounts (st_db st) user (text_of env platform) = [] ->
  match account_name with
  | JNull =>
      exists msg,
        connect_account env user platform access_token account_id
          account_name st
        = (Raise (Exn IntegrityError msg), st)
  | _ =>
      exists a created st',
        connect_account env user platform access_token account_id
          account_name st
        = (Ok (Some (a, created)), st') /\
        ORM.SocialMediaAccount_get user (text_of env platform) st'
        = (Ok a, st') /\
        acc_account_id a = text_of env account_id /\
        acc_account_name a = text_of env account_name /\
        acc_access_token a = text_of env access_token
  end.
Proof.
  intros Hp Ht Hi Hpks Hnone.
  destruct (given_or_not account_name) as [-> | Hn].
  { eexists. apply connect_account_nameless; assumption. }
  assert (Hgoal :
            exists a created st',
              connect_account env user platform access_token account_id
                account_name st
              = (Ok (Some (a, created)), st') /\
              ORM.SocialMediaAccount_get user (text_of env platform) st'
              = (Ok a, st') /\
              acc_account_id a = text_of env account_id /\
              acc_account_name a = text_of env account_name /\
              acc_access_token a = text_of env access_token).
  { destruct (@connect_account_effect user platform access_token account_id
              account_name st Hp Ht Hi Hn)
      as (a' & created & st' & Hrun & Hu & Hpl & Hid & Hname & Htok & Hact
          & _ & Hrows).
    exists a', created, st'. split; [exact Hrun |].
    split; [| auto].
    assert (Hmatch :
              ORM.account_matches user (text_of env platform) a' = true).
    { unfold ORM.account_matches.
      rewrite Hu, Hpl, Hact, Nat.eqb_refl, String.eqb_refl. reflexivity. }
    assert (Hone : active_accounts (st_db st') user (text_of env platform)
                   = [a']).
    { unfold active_accounts in *.
      destruct (find _ (db_accounts (st_db st))) as [a |] eqn:Hfind.
      - destruct Hrows as (_ & _ & ->).
        apply find_some in Hfind. destruct Hfind as [Hin _].
        apply filter_replaced; assumption.
      - destruct Hrows as (_ & _ & ->).
        rewrite filter_snoc, Hnone, Hmatch. reflexivity. }
    pose proof (account_get_cases user (text_of env platform) st') as Hget.
    rewrite Hone in Hget. exact Hget. }
  destruct account_name; [contradiction Hn; reflexivity | | | | |];
    exact Hgoal.
Qed.

Lemma two_matches {A} (p : A -> bool) l x y :
  In x l -> In y l -> x <> y -> p x = true -> p y = true ->
  2 <= length (filter p l).
Proof.
  intros Hx Hy Hne Hpx Hpy.
  assert (Hone : forall z l', In z l' -> p z = true ->
                              1 <= length (filter p l')).
  { intros z l' Hz Hpz.
    assert (Hin : In z (filter p l')) by (apply filter_In; auto).
    destruct (filter p l'); [contradiction | simpl; lia]. }
  induction l as [| z l IH]; simpl in *; [contradiction |].
  destruct Hx as [-> | Hx], Hy as [-> | Hy].
  - contradiction.
  - rewrite Hpx. simpl. pose proof (Hone y l Hy Hpy). lia.
  - rewrite Hpy. simpl. pose proof (Hone x l Hx Hpx). lia.
  - specialize (IH Hx Hy). destruct (p z); simpl; lia.
Qed.

(** X14: [connect_account] never deactivates another account.  When the
    user already has an active account on the platform and connects,
    with a name, one with another account id, the connection succeeds
    and the lookup made by [publish_post] for that platform raises
    [MultipleObjectsReturned] from then on.  (Without a name the
    connection raises and the lookup is as before, see X13.) *)
Theorem connect_second_account_breaks_get
        (user : nat) (platform access_token account_id account_name : json)
        (st : State) (other : SocialMediaAccount) :
  Py.truthy platform = true -> Py.truthy access_token = true ->
  Py.truthy account_id = true -> account_name <> JNull ->
  NoDup (map acc_pk (db_accounts (st_db st))) ->
  In other (active_accounts (st_db st) user (text_of env platform)) ->
  acc_account_id other <> text_of env account_id ->
  exists r st' msg,
    connect_account env user platform access_token account_id account_name st
    = (Ok (Some r), st') /\
    ORM.SocialMediaAccount_get user (text_of env platform) st'
    = (Raise (Exn MultipleObjectsReturned msg), st').
Proof.
  intros Hp Ht Hi Hn Hpks Hother Hdiff.
  destruct (@connect_account_effect user platform access_token account_id
              account_name st Hp Ht Hi Hn)
    as (a' & created & st' & Hrun & Hu & Hpl & Hid & _ & Htok & Hact & _
        & Hrows).
  assert (Hmatch : ORM.account_matches user (text_of env platform) a' = true).
  { unfold ORM.account_matches.
    rewrite Hu, Hpl, Hact, Nat.eqb_refl, String.eqb_refl. reflexivity. }
  unfold active_accounts in Hother. apply filter_In in Hother.
  destruct Hother as [Hin Hmatch'].
  assert (Hne : other <> a') by (intros ->; contradiction).
  assert (Htwo : 2 <= length (active_accounts (st_db st') user
                                (text_of env platform))).
  { unfold active_accounts.
    apply two_matches with (x := other) (y := a'); try assumption.
    - destruct (find _ (db_accounts (st_db st))) as [a |] eqn:Hfind.
      + destruct Hrows as (_ & _ & ->).
        apply find_some in Hfind. destruct Hfind as [Ha Hkey].
        apply in_map_iff. exists other. split; [| exact Hin].
        destruct (Nat.eqb_spec (acc_pk other) (acc_pk a)) as [E | E];
          [| reflexivity].
        exfalso. apply Hdiff.
        rewrite (same_pk_same_row _ other a Hpks Hin Ha E).
        unfold ORM.same_account_key in Hkey.
        apply andb_true_iff in Hkey. destruct Hkey as [_ Hkey].
        apply String.eqb_eq in Hkey. exact Hkey.
      + destruct Hrows as (_ & _ & ->). apply in_or_app. left. exact Hin.
    - destruct (find _ (db_accounts (st_db st))) as [a |] eqn:Hfind.
      + destruct Hrows as (_ & _ & ->).
        apply find_some in Hfind. destruct Hfind as [Ha _].
        apply in_map_iff. exists a. split; [| exact Ha].
        rewrite Nat.eqb_refl. reflexivity.
      + destruct Hrows as (_ & _ & ->). apply in_or_app. right.
        left. reflexivity. }
  pose proof (account_get_cases user (text_of env platform) st') as Hget.
  destruct (active_accounts (st_db st') user (text_of env platform))
    as [| x [| y l]];
    simpl in Htwo; try lia.
  destruct Hget as [msg Hget].
  exists (a', created), st', msg. split; assumption.
Qed.

Lemma key_absent user platform account_id l :
  find (ORM.same_account_key user platform account_id) l = None ->
  ~ In (user, platform, account_id) (map account_key l).
Proof.
  intros Hnone Hin. apply in_map_iff in Hin.
  destruct Hin as (x & Hkey & Hx).
  pose proof (find_none _ _ Hnone x Hx) as H.
  unfold account_key in Hkey. injection Hkey as Hu Hp Hi.
  unfold ORM.same_account_key in H.
  rewrite Hu, Hp, Hi, Nat.eqb_refl, !String.eqb_refl in H. discriminate.
Qed.

Lemma NoDup_snoc {A} (l : list A) x :
  NoDup l -> ~ In x l -> NoDup (l ++ [x]).
Proof.
  intros Hl Hx. induction l as [| y l IH]; simpl.
  - constructor; [intros [] | constructor].
  - inversion Hl as [| ? ? Hy Hl']; subst. constructor.
    + rewrite in_app_iff. simpl. intros [H | [H | []]]; [auto |].
      apply Hx. left. symmetry. exact H.
    + apply IH; [assumption |]. intro H. apply Hx. right. exact H.
Qed.

(** X15: [connect_account] keeps the table of accounts well keyed,
    whatever it is given (values of any type, a name or none): primary
    keys stay distinct and below the next one, and no two rows share
    (user, platform, account_id), so that connecting the same account
    again rewrites its row instead of adding one. *)
Theorem connect_account_keeps_accounts_ok
        (user : nat) (platform access_token account_id account_name : json)
        (st : State) :
  accounts_ok (st_db st) ->
  accounts_ok
    (st_db (snd (connect_account env user platform access_token account_id
                   account_name st))).
Proof.
  intros (Hpks & Hkeys & Hnext).
  destruct (Py.truthy platform) eqn:Hp;
    [| rewrite connect_account_rejects by auto; repeat split; assumption].
  destruct (Py.truthy access_token) eqn:Ht;
    [| rewrite connect_account_rejects by auto; repeat split; assumption].
  destruct (Py.truthy account_id) eqn:Hi;
    [| rewrite connect_account_rejects by auto; repeat split; assumption].
  destruct (given_or_not account_name) as [-> | Hn];
    [rewrite connect_account_nameless by assumption;
     repeat split; assumption |].
  destruct (@connect_account_effect user platform access_token account_id
              account_name st Hp Ht Hi Hn)
    as (a' & created & st' & Hrun & Hu & Hpl & Hid & _ & _ & _ & _ & Hrows).
  rewrite Hrun. simpl. unfold accounts_ok.
  destruct (find _ (db_accounts (st_db st))) as [a |] eqn:Hfind.
  - destruct Hrows as (Hpk & Hnext' & Hrows). rewrite Hrows, Hnext'.
    apply find_some in Hfind. destruct Hfind as [Ha Hkey].
    assert (Hkey' : account_key a' = account_key a).
    { unfold ORM.same_account_key in Hkey.
      apply andb_true_iff in Hkey. destruct Hkey as [Hkey Hkid].
      apply andb_true_iff in Hkey. destruct Hkey as [Hku Hkp].
      apply Nat.eqb_eq in Hku. apply String.eqb_eq in Hkp, Hkid.
      unfold account_key. congruence. }
    assert (Hsame : forall (B : Type) (f : SocialMediaAccount -> B),
               f a' = f a ->
               map f (map (fun x => if Nat.eqb (acc_pk x) (acc_pk a)
                                    then a' else x)
                          (db_accounts (st_db st)))
               = map f (db_accounts (st_db st))).
    { intros B f Hf. rewrite map_map. apply map_ext_in. intros x Hx.
      destruct (Nat.eqb_spec (acc_pk x) (acc_pk a)) as [E | E];
        [| reflexivity].
      rewrite (same_pk_same_row _ x a Hpks Hx Ha E). exact Hf. }
    rewrite (Hsame _ acc_pk Hpk), (Hsame _ account_key Hkey').
    repeat split; try assumption.
    intros x Hx. apply in_map_iff in Hx. destruct Hx as (y & Hy & Hin).
    destruct (Nat.eqb (acc_pk y) (acc_pk a)); subst.
    + rewrite Hpk. apply Hnext, Ha.
    + apply Hnext, Hin.
  - destruct Hrows as (Hpk & Hnext' & Hrows). rewrite Hrows, Hnext'.
    rewrite !map_app. simpl. repeat split.
    + apply NoDup_snoc; [assumption |]. rewrite Hpk. intro Hin.
      apply in_map_iff in Hin. destruct Hin as (x & Hx & Hin).
      pose proof (Hnext x Hin). lia.
    + apply NoDup_snoc; [assumption |].
      replace (account_key a')
        with (user, text_of env platform, text_of env account_id)
        by (unfold account_key; congruence).
      apply key_absent, Hfind.
    + intros x Hx. apply in_app_iff in Hx.
      destruct Hx as [Hx | [<- | []]].
      * pose proof (Hnext x Hx). lia.
      * lia.
Qed.

End Connecting.

Lemma connect_account_keeps_accounts_ok_witness :
  accounts_ok (st_db Cases.one_account) /\
  accounts_ok
    (st_db (snd (connect_account (Scenario.world Scenario.all_accept) 1
                   (JStr "facebook") (JStr "fresh") (JStr "me") (JStr "Me")
                   Cases.one_account))).
Proof.
  assert (H : accounts_ok (st_db Cases.one_account)).
  { repeat split.
    - constructor; [intros [] | constructor].
    - constructor; [intros [] | constructor].
    - intros a [<- | []]. vm_compute. lia. }
  split; [exact H |].
  exact (connect_account_keeps_accounts_ok
           (Scenario.world Scenario.all_accept) 1
           (JStr "facebook") (JStr "fresh") (JStr "me") (JStr "Me")
           Cases.one_account H).
Defined.

Lemma connect_account_then_get_witness :
  Py.truthy (JStr "twitter") = true /\ Py.truthy (JStr "secret") = true /\
  Py.truthy (JStr "me") = true /\
  NoDup (map acc_pk (db_accounts (st_db Cases.one_account))) /\
  active_accounts (st_db Cases.one_account) 1 "twitter" = [] /\
  exists a created st',
    connect_account (Scenario.world Scenario.all_accept) 1
      (JStr "twitter") (JStr "secret") (JStr "me") (JStr "Me")
      Cases.one_account
    = (Ok (Some (a, created)), st') /\
    ORM.SocialMediaAccount_get 1 "twitter" st' = (Ok a, st') /\
    acc_account_id a = "me" /\
    acc_account_name a = "Me" /\
    acc_access_token a = "secret".
Proof.
  assert (H4 : NoDup (map acc_pk (db_accounts (st_db Cases.one_account))))
    by (constructor; [intros [] | constructor]).
  assert (H5 : active_accounts (st_db Cases.one_account) 1
                 (text_of (Scenario.world Scenario.all_accept)
                    (JStr "twitter")) = [])
    by reflexivity.
  split; [reflexivity |]. split; [reflexivity |]. split; [reflexivity |].
  split; [exact H4 |]. split; [exact H5 |].
  exact (@connect_account_then_get (Scenario.world Scenario.all_accept) 1
           (JStr "twitter") (JStr "secret") (JStr "me") (JStr "Me")
           Cases.one_account eq_refl eq_refl eq_refl H4 H5).
Defined.

Lemma connect_second_account_breaks_get_witness :
  Py.truthy (JStr "facebook") = true /\ Py.truthy (JStr "secret") = true /\
  Py.truthy (JStr "page2") = true /\ JStr "Page" <> JNull /\
  NoDup (map acc_pk (db_accounts (st_db Cases.one_account))) /\
  In Scenario.facebook_account
     (active_accounts (st_db Cases.one_account) 1 "facebook") /\
  acc_account_id Scenario.facebook_account <> "page2" /\
  exists r st' msg,
    connect_account (Scenario.world Scenario.all_accept) 1
      (JStr "facebook") (JStr "secret") (JStr "page2") (JStr "Page")
      Cases.one_account
    = (Ok (Some r), st') /\
    ORM.SocialMediaAccount_get 1 "facebook" st'
    = (Raise (Exn MultipleObjectsReturned msg), st').
Proof.
  assert (H0 : JStr "Page" <> JNull) by discriminate.
  assert (H4 : NoDup (map acc_pk (db_accounts (st_db Cases.one_account))))
    by (constructor; [intros [] | constructor]).
  assert (H5 : In Scenario.facebook_account
                  (active_accounts (st_db Cases.one_account) 1
                     (text_of (Scenario.world Scenario.all_accept)
                        (JStr "facebook"))))
    by (left; reflexivity).
  assert (H6 : acc_account_id Scenario.facebook_account
               <> text_of (Scenario.world Scenario.all_accept) (JStr "page2"))
    by discriminate.
  split; [reflexivity |]. split; [reflexivity |]. split; [reflexivity |].
  split; [exact H0 |]. split; [exact H4 |]. split; [exact H5 |].
  split; [exact H6 |].
  exact (@connect_second_account_breaks_get
           (Scenario.world Scenario.all_accept) 1
           (JStr "facebook") (JStr "secret") (JStr "page2") (JStr "Page")
           Cases.one_account Scenario.facebook_account
           eq_refl eq_refl eq_refl H0 H4 H5 H6).
Defined.

(* ===================================================================== *)
(** ** Creating posts, the view and the periodic job *)

Lemma find_after_save post rows :
  find (fun p => Nat.eqb (post_pk p) (post_pk post)
                 && Nat.eqb (post_user p) (post_user post))
       (rows_after_save post rows)
  = Some post.
Proof.
  pose proof (lookup_after_save post rows) as H. exact H.
Qed.

Section CreateAndView.

Variable env : Env.

Lemma publish_post_lookup post media st :
  exists results post' st',
    PostService.publish_post env post media st = (Ok (results, post'), st') /\
    ORM.Post_lookup (post_pk post) (post_user post) (st_db st') = Some post' /\
    post_pk post' = post_pk post /\
    post_user post' = post_user post /\
    (post_status post' = published \/ post_status post' = failed).
Proof.
  destruct (publish_post_effect env post media st)
    as (results & post' & st' & Hrun & Hpk & Huser & _ & Hstatus & Hposts & _).
  exists results, post', st'. split; [exact Hrun |].
  split; [| auto].
  unfold ORM.Post_lookup. rewrite Hposts, <- Hpk, <- Huser.
  apply find_after_save.
Qed.


(** X17: a post is published through the view at most once.  After the
    view has published a post, asking again is refused with
    "Only draft posts can be published" and changes nothing, whether
    the first publish succeeded on a platform or not. *)
Theorem publish_view_only_once
        (user pk : nat) (media_urls again : list string) (st st1 : State)
        (body : Post * PostService.Results) :
  publish env user pk media_urls st = (Ok (Http200 body), st1) ->
  publish env user pk again st1
  = (Ok (Http400 "Only draft posts can be published"), st1).
Proof.
  unfold publish. unfold bind at 1. unfold get_db at 1.
  destruct (ORM.Post_lookup pk user (st_db st)) as [post |] eqn:Hlookup;
    [| discriminate].
  unfold ORM.Post_lookup in Hlookup. apply find_some in Hlookup.
  destruct Hlookup as [_ Hmatch]. apply andb_true_iff in Hmatch.
  destruct Hmatch as [Hpk Huser].
  apply Nat.eqb_eq in Hpk, Huser. subst pk user.
  destruct (post_status post); try discriminate.
  destruct (publish_post_lookup post (Some media_urls) st)
    as (results & post' & st' & Hrun & Hfound & _ & _ & Hstatus).
  unfold bind at 1. rewrite Hrun. unfold ret. intros [= _ <-].
  unfold bind, get_db. rewrite Hfound.
  destruct Hstatus as [-> | ->]; reflexivity.
Qed.

End CreateAndView.


Lemma publish_view_only_once_witness :
  Cases.view_publish = (Ok (Http200 Cases.view_body), snd Cases.view_publish)
  /\
  publish (Scenario.world Scenario.all_accept) 1 7 ["http://img.example/1.png"]
    (snd Cases.view_publish)
  = (Ok (Http400 "Only draft posts can be published"),
     snd Cases.view_publish).
Proof.
  assert (H : Cases.view_publish
              = (Ok (Http200 Cases.view_body), snd Cases.view_publish))
    by (vm_compute; reflexivity).
  split; [exact H |].
  exact (@publish_view_only_once (Scenario.world Scenario.all_accept) 1 7 []
           ["http://img.example/1.png"] Cases.with_draft
           (snd Cases.view_publish) Cases.view_body H).
Defined.

(* ===================================================================== *)
(** ** The status a publish leaves *)



Section PublishStatus.

Variable env : Env.






Lemma Post_save_rows post st :
  db_posts (st_db (snd (ORM.Post_save post st)))
  = rows_after_save post (db_posts (st_db st)).
Proof.
  unfold ORM.Post_save, rows_after_save, bind, get_db. simpl.
  destruct (existsb _ (db_posts (st_db st))); reflexivity.
Qed.

End PublishStatus.



(** C10, as the code has it: with no platform, [publish_post] returns an
    empty map, makes no request and adds no row; the post, returned and
    stored, is [failed], and its [published_date] is left as it was:
    unset when it was unset, still set when an earlier publish had set
    it. *)
Theorem publish_post_no_platform
        (env : Env) (post : Post) (media_urls : option (list string))
        (st : State) :
  post_platforms post = [] ->
  exists post' st',
    PostService.publish_post env post media_urls st = (Ok ([], post'), st') /\
    post_status post' = failed /\
    post_published_date post' = post_published_date post /\
    ORM.Post_lookup (post_pk post) (post_user post) (st_db st') = Some post' /\
    db_publications (st_db st') = db_publications (st_db st) /\
    st_tick st' = st_tick st.
Proof.
  intro Hnone.
  exists (PostService.set_status failed post),
         (snd (ORM.Post_save (PostService.set_status failed post) st)).
  split.
  - unfold PostService.publish_post. rewrite Hnone. simpl.
    unfold bind, ret. simpl.
    destruct (ORM.Post_save (PostService.set_status failed post) st)
      as [[[] | e] st'] eqn:E; simpl.
    + reflexivity.
    + unfold ORM.Post_save, bind, get_db in E. simpl in E.
      destruct (existsb _ _); discriminate.
  - split; [reflexivity |]. split; [reflexivity |].
    split; [| split; [apply Post_save_publications | apply Post_save_tick]].
    unfold ORM.Post_lookup. rewrite Post_save_rows.
    apply (find_after_save (PostService.set_status failed post)).
Qed.

Lemma publish_post_no_platform_witness :
  post_platforms (Scenario.post []) = [] /\
  exists post' st',
    PostService.publish_post (Scenario.world Scenario.all_accept)
      (Scenario.post []) None
      (Scenario.start [Scenario.facebook_account] (Scenario.post []))
    = (Ok ([], post'), st') /\
    post_status post' = failed /\
    post_published_date post' = None /\
    ORM.Post_lookup 7 1 (st_db st') = Some post' /\
    db_publications (st_db st') = [] /\
    st_tick st' = 0.
Proof.
  split; [reflexivity |].
  apply (publish_post_no_platform (Scenario.world Scenario.all_accept)
           (Scenario.post []) None
           (Scenario.start [Scenario.facebook_account] (Scenario.post []))).
  reflexivity.
Defined.

(** C10 fails as stated for a post that carries a date: published
    earlier and dated 500, its platforms emptied since, it is published
    again; it ends [failed] and is still dated 500, on the object
    returned and in the stored row. *)
Lemma no_platform_keeps_earlier_date :
  post_platforms Scenario.dated = [] /\
  Scenario.returned Scenario.dated_publish
  = Some ([], PostService.set_status failed Scenario.dated) /\
  post_status (PostService.set_status failed Scenario.dated) = failed /\
  post_published_date (PostService.set_status failed Scenario.dated)
  = Some 500%Z /\
  ORM.Post_lookup 7 1 (st_db (snd Scenario.dated_publish))
  = Some (PostService.set_status failed Scenario.dated).
Proof. vm_compute. repeat split. Qed.

Section ScheduledJob.

Variable env : Env.

Lemma publish_scheduled_step post s :
  exists post' s',
    publish_scheduled env tt post s = (Ok tt, s') /\
    post_pk post' = post_pk post /\
    (post_status post' = published \/ post_status post' = failed) /\
    db_posts (st_db s') = rows_after_save post' (db_posts (st_db s)).
Proof.
  destruct (publish_post_effect env post None s)
    as (results & post' & s' & Hrun & Hpk & _ & _ & Hstatus & Hposts & _).
  exists post', s'.
  unfold publish_scheduled, try_except, bind. rewrite Hrun. simpl. auto.
Qed.

Lemma not_due_after_publish now post :
  post_status post = published \/ post_status post = failed ->
  is_due now post = false.
Proof. unfold is_due. intros [-> | ->]; reflexivity. Qed.

Lemma rows_after_save_member post' rows q :
  In q rows -> post_pk post' = post_pk q ->
  rows_after_save post' rows
  = map (fun p => if Nat.eqb (post_pk p) (post_pk post') then post' else p)
        rows.
Proof.
  intros Hq Hpk. unfold rows_after_save.
  assert (E : existsb (fun p => Nat.eqb (post_pk p) (post_pk post')) rows
              = true).
  { apply existsb_exists. exists q. split; [exact Hq |].
    apply Nat.eqb_eq. congruence. }
  rewrite E. reflexivity.
Qed.

Lemma publish_scheduled_loop now l s :
  NoDup l ->
  NoDup (map post_pk (db_posts (st_db s))) ->
  (forall q, In q l -> In q (db_posts (st_db s)) /\ is_due now q = true) ->
  (forall p, In p (db_posts (st_db s)) -> is_due now p = true -> In p l) ->
  exists s',
    PostService.for_each (publish_scheduled env) l tt s = (Ok tt, s') /\
    (forall p, In p (db_posts (st_db s')) -> is_due now p = false) /\
    (forall p, In p (db_posts (st_db s)) -> is_due now p = false ->
               In p (db_posts (st_db s'))).
Proof.
  revert s. induction l as [| q l IH]; intros s Hl Hpks Hsub Hdue; simpl.
  - exists s. split; [reflexivity |]. split; [| auto].
    intros p Hp. destruct (is_due now p) eqn:E; [| reflexivity].
    destruct (Hdue p Hp E).
  - destruct (publish_scheduled_step q s)
      as (q' & s1 & Hrun & Hpk & Hstatus & Hposts).
    unfold bind. rewrite Hrun.
    inversion Hl as [| ? ? Hq Hl']; subst.
    destruct (Hsub q (or_introl eq_refl)) as [Hqin Hqdue].
    rewrite (rows_after_save_member q' _ q Hqin Hpk) in Hposts.
    rewrite Hpk in Hposts.
    assert (Hother : forall p, In p (db_posts (st_db s)) -> p <> q ->
                               Nat.eqb (post_pk p) (post_pk q) = false).
    { intros p Hp Hne. apply Nat.eqb_neq. intro E. apply Hne.
      eapply NoDup_map_eq; eassumption. }
    destruct (IH s1) as (s' & Hloop & Hnone & Hkept).
    + exact Hl'.
    + rewrite Hposts, map_map.
      erewrite map_ext_in; [exact Hpks |].
      intros p Hp. simpl.
      destruct (Nat.eqb_spec (post_pk p) (post_pk q)); congruence.
    + intros p Hp. destruct (Hsub p (or_intror Hp)) as [Hpin Hpdue].
      split; [| exact Hpdue].
      rewrite Hposts. apply in_map_iff. exists p. split; [| exact Hpin].
      rewrite Hother; [reflexivity | exact Hpin |].
      intros ->. contradiction.
    + intros p Hp Hpdue. rewrite Hposts in Hp. apply in_map_iff in Hp.
      destruct Hp as (x & Hx & Hin).
      destruct (Nat.eqb (post_pk x) (post_pk q)) eqn:E; subst.
      * rewrite (not_due_after_publish now p Hstatus) in Hpdue.
        discriminate.
      * destruct (Hdue p Hin Hpdue) as [-> | Hp]; [| exact Hp].
        rewrite Nat.eqb_refl in E. discriminate.
    + exists s'. split; [exact Hloop |]. split; [exact Hnone |].
      intros p Hp Hnot. apply Hkept; [| exact Hnot].
      rewrite Hposts. apply in_map_iff. exists p. split; [| exact Hp].
      rewrite Hother; [reflexivity | exact Hp |].
      intros ->. congruence.
Qed.

(** X18: [publish_scheduled_posts] leaves no due post behind.  With
    distinct primary keys, the job returns, and afterwards no post is
    both [scheduled] and due at the time the job read; the posts that
    were not due are still there, untouched. *)
Theorem publish_scheduled_posts_leaves_none_due (st : State) :
  NoDup (map post_pk (db_posts (st_db st))) ->
  exists st',
    publish_scheduled_posts env st = (Ok tt, st') /\
    (forall p, In p (db_posts (st_db st')) ->
               is_due (clock env (st_tick st)) p = false) /\
    (forall p, In p (db_posts (st_db st)) ->
               is_due (clock env (st_tick st)) p = false ->
               In p (db_posts (st_db st'))).
Proof.
  intro Hpks.
  unfold publish_scheduled_posts, bind, ORM.now, get_db. simpl.
  apply (@publish_scheduled_loop (clock env (st_tick st))
           (filter (is_due (clock env (st_tick st))) (db_posts (st_db st)))
           (tick st)); simpl.
  - apply NoDup_filter. eapply NoDup_map_inv. exact Hpks.
  - exact Hpks.
  - intros q Hq. apply filter_In in Hq. exact Hq.
  - intros p Hp Hdue. apply filter_In. auto.
Qed.

End ScheduledJob.

Lemma publish_scheduled_posts_leaves_none_due_witness :
  NoDup (map post_pk (db_posts (st_db Cases.with_scheduled))) /\
  exists st',
    publish_scheduled_posts (Scenario.world Scenario.all_accept)
      Cases.with_scheduled = (Ok tt, st') /\
    (forall p, In p (db_posts (st_db st')) ->
               is_due (clock (Scenario.world Scenario.all_accept)
                         (st_tick Cases.with_scheduled)) p = false) /\
    (forall p, In p (db_posts (st_db Cases.with_scheduled)) ->
               is_due (clock (Scenario.world Scenario.all_accept)
                         (st_tick Cases.with_scheduled)) p = false ->
               In p (db_posts (st_db st'))).
Proof.
  assert (H : NoDup (map post_pk (db_posts (st_db Cases.with_scheduled)))).
  { vm_compute. repeat constructor; simpl; intuition discriminate. }
  split; [exact H |].
  exact (publish_scheduled_posts_leaves_none_due
           (Scenario.world Scenario.all_accept) Cases.with_scheduled H).
Defined.

(** The job on the stored example: the post due at 1000 is published,
    the one due at 5000 and the draft are left alone. *)
Example scheduled_job_runs :
  map (fun p => (post_pk p, post_status p))
      (db_posts
         (st_db (snd (publish_scheduled_posts
                        (Scenario.world Scenario.all_accept)
                        Cases.with_scheduled))))
  = [(8, published); (9, scheduled); (7, draft)].
Proof. vm_compute. reflexivity. Qed.

(* ===================================================================== *)
(** ** Deleting from the platforms, validating platforms *)

Section DeleteFacts.

Variable env : Env.

Lemma dict_set_outcomes (P : pydict -> Prop) (results : PostService.Results)
      k v :
  Forall P (map snd results) -> P v ->
  Forall P (map snd (Py.dict_set results k v)).
Proof.
  intros H Hv. induction results as [| [k' v'] results IH]; simpl.
  - constructor; [exact Hv | constructor].
  - inversion H as [| ? ? Hv' Hrest]; subst.
    destruct (String.eqb k' k); simpl; constructor; auto.
Qed.

(** Each adapter deletes with one request, and does nothing else. *)
Lemma delete_post_state platform api account post_id st :
  PostService.API_CLASSES env platform = Some api ->
  snd (api_delete_post api account post_id st) = tick st.
Proof.
  unfold PostService.API_CLASSES.
  destruct (String.eqb platform "facebook");
    [| destruct (String.eqb platform "twitter");
       [| destruct (String.eqb platform "linkedin"); [| discriminate]]];
    intros [= <-]; simpl;
    unfold FacebookAPI.delete_post, TwitterAPI.delete_post,
      LinkedInAPI.delete_post, bind, lift;
    match goal with
    | |- context [_make_request env ?rq st] =>
        pose proof (make_request_state env rq st) as H;
        destruct (_make_request env rq st) as [[j | e] st1];
        simpl in H; subst st1;
        [destruct (py_in "error" j); reflexivity | reflexivity]
    end.
Qed.

Lemma adapter_iff_delete_request platform account post_id :
  match PostService.API_CLASSES env platform,
        delete_request_of platform account post_id with
  | Some _, Some _ | None, None => True
  | _, _ => False
  end.
Proof.
  unfold PostService.API_CLASSES, delete_request_of.
  repeat match goal with
         | |- context [String.eqb platform ?s] =>
             destruct (String.eqb platform s)
         end; exact I.
Qed.

Lemma deletion_report_outcome r : deletion_outcome (deletion_report r).
Proof.
  destruct r as [success | e]; simpl.
  - exists success. eexists. split; [reflexivity |]. intros ->. reflexivity.
  - exists false. eexists. split; [reflexivity | discriminate].
Qed.

(** One turn of the loop of [PostService.delete_post]: without an
    adapter nothing happens; with one, the adapter is called once and
    what it gave is recorded under the platform of the account. *)
Lemma delete_publication_run results p a st :
  account_of (st_db st) p = Some a ->
  PostService.delete_publication env results p st
  = match PostService.API_CLASSES env (acc_platform a) with
    | Some api =>
        (Ok (Py.dict_set results (acc_platform a)
               (deletion_report
                  (fst (api_delete_post api a (pub_platform_post_id p) st)))),
         tick st)
    | None => (Ok results, st)
    end.
Proof.
  intro Ha. unfold PostService.delete_publication.
  rewrite (@try_bind_found _ _ _ _ _ _ _ (by_pk_found _ _ Ha)).
  destruct (PostService.API_CLASSES env (acc_platform a)) as [api |] eqn:Hapi;
    [| reflexivity].
  pose proof (@delete_post_state _ _ a (pub_platform_post_id p) st Hapi)
    as Hst.
  unfold try_except, bind.
  destruct (api_delete_post api a (pub_platform_post_id p) st)
    as [[success | e] st1]; simpl in Hst; subst st1; simpl.
  - reflexivity.
  - assert (Ha' : account_of (st_db (tick st)) p = Some a) by exact Ha.
    rewrite (by_pk_found _ _ Ha'). reflexivity.
Qed.

Lemma deletion_requests_cons d p l :
  deletion_requests d (p :: l)
  = deletion_requests d [p] ++ deletion_requests d l.
Proof.
  unfold deletion_requests. simpl. rewrite app_nil_r. reflexivity.
Qed.

(** The state after a turn, counted in requests. *)
Lemma delete_publication_state results p a st :
  account_of (st_db st) p = Some a ->
  snd (PostService.delete_publication env results p st)
  = advance (length (deletion_requests (st_db st) [p])) st.
Proof.
  intro Ha. rewrite (delete_publication_run results p st Ha).
  unfold deletion_requests. simpl. rewrite Ha.
  pose proof (adapter_iff_delete_request (acc_platform a) a
                (pub_platform_post_id p)) as Hboth.
  destruct (PostService.API_CLASSES env (acc_platform a));
    destruct (delete_request_of (acc_platform a) a (pub_platform_post_id p));
    try contradiction; simpl.
  - rewrite <- tick_advance, advance_0. reflexivity.
  - rewrite advance_0. reflexivity.
Qed.

Lemma advance_advance n m st : advance n (advance m st) = advance (m + n) st.
Proof. unfold advance. simpl. f_equal. lia. Qed.

(** The whole loop, over the publications [l]. *)
Lemma delete_loop_spec l results st :
  (forall p, In p l -> exists a, account_of (st_db st) p = Some a) ->
  exists results',
    PostService.for_each (PostService.delete_publication env) l results st
    = (Ok results', advance (length (deletion_requests (st_db st) l)) st) /\
    (Forall deletion_outcome (map snd results) ->
     Forall deletion_outcome (map snd results')) /\
    (forall platform,
        In platform (Py.keys results') <->
        In platform (Py.keys results) \/
        exists p a,
          In p l /\ account_of (st_db st) p = Some a /\
          acc_platform a = platform /\
          PostService.API_CLASSES env platform <> None) /\
    (forall platform,
        (forall p a, In p l -> account_of (st_db st) p = Some a ->
                     acc_platform a <> platform) ->
        Py.lookup results' platform = Py.lookup results platform).
Proof.
  revert results st.
  induction l as [| p l IH]; intros results st Haccounts.
  - exists results. simpl. rewrite advance_0.
    split; [reflexivity |]. split; [auto |]. split; [| auto].
    intro platform. split; [auto |].
    intros [H | (p & a & [] & _)]. exact H.
  - destruct (Haccounts p (or_introl eq_refl)) as [a Ha].
    pose proof (delete_publication_run results p st Ha) as Hrun.
    pose proof (delete_publication_state results p st Ha) as Hstate.
    rewrite Hrun in Hstate.
    simpl PostService.for_each. unfold bind. rewrite Hrun.
    rewrite (deletion_requests_cons (st_db st) p l), length_app.
    rewrite <- advance_advance.
    destruct (PostService.API_CLASSES env (acc_platform a)) as [api |]
      eqn:Hapi; cbn [snd] in Hstate; rewrite <- Hstate.
    + destruct (IH (Py.dict_set results (acc_platform a)
                      (deletion_report
                         (fst (api_delete_post api a
                                 (pub_platform_post_id p) st))))
                   (tick st))
        as (results' & Hloop & Hout & Hkeys & Hother).
      { intros q Hq. apply Haccounts. right. exact Hq. }
      exists results'. split; [exact Hloop |].
      split; [| split].
      * intro H. apply Hout. apply dict_set_outcomes; [exact H |].
        apply deletion_report_outcome.
      * intro platform. rewrite Hkeys, dict_set_keys. split.
        -- intros [[-> | H] | (q & b & Hq & Hb & Hplat & Hsome)].
           ++ right. exists p, a. split; [left; reflexivity |].
              split; [exact Ha |]. split; [reflexivity |].
              rewrite Hapi. discriminate.
           ++ left. exact H.
           ++ right. exists q, b. split; [right; exact Hq |].
              split; [exact Hb |]. split; assumption.
        -- intros [H | (q & b & [<- | Hq] & Hb & Hplat & Hsome)].
           ++ left. right. exact H.
           ++ left. left. congruence.
           ++ right. exists q, b. split; [exact Hq |].
              split; [exact Hb |]. split; assumption.
      * intros platform Hnone. rewrite Hother.
        -- apply lookup_dict_set_other.
           apply (Hnone p a); [left; reflexivity | exact Ha].
        -- intros q b Hq Hb. apply (Hnone q b); [right; exact Hq | exact Hb].
    + destruct (IH results st)
        as (results' & Hloop & Hout & Hkeys & Hother).
      { intros q Hq. apply Haccounts. right. exact Hq. }
      exists results'. split; [exact Hloop |].
      split; [exact Hout | split].
      * intro platform. rewrite Hkeys. split.
        -- intros [H | (q & b & Hq & Hb & Hplat & Hsome)];
             [left; exact H |].
           right. exists q, b. split; [right; exact Hq |].
           split; [exact Hb |]. split; assumption.
        -- intros [H | (q & b & [<- | Hq] & Hb & Hplat & Hsome)].
           ++ left. exact H.
           ++ exfalso. apply Hsome. rewrite <- Hplat.
              replace b with a by congruence. exact Hapi.
           ++ right. exists q, b. split; [exact Hq |].
              split; [exact Hb |]. split; assumption.
      * intros platform Hnone. apply Hother.
        intros q b Hq Hb. apply (Hnone q b); [right; exact Hq | exact Hb].
Qed.

(** What the loop leaves under a platform is the report of the last
    call made for it, at the moment it was made. *)
Lemma delete_loop_last before p after a api results st :
  (forall q, In q (before ++ p :: after) ->
             exists b, account_of (st_db st) q = Some b) ->
  account_of (st_db st) p = Some a ->
  PostService.API_CLASSES env (acc_platform a) = Some api ->
  (forall q b, In q after -> account_of (st_db st) q = Some b ->
               acc_platform b <> acc_platform a) ->
  exists results' st',
    PostService.for_each (PostService.delete_publication env)
      (before ++ p :: after) results st = (Ok results', st') /\
    Py.lookup results' (acc_platform a)
    = Some (deletion_report
              (fst (api_delete_post api a (pub_platform_post_id p)
                      (advance (length (deletion_requests (st_db st) before))
                         st)))).
Proof.
  revert results st.
  induction before as [| q before IH]; intros results st Haccounts Ha Hapi
                                              Hlater.
  - simpl app. simpl PostService.for_each. unfold bind.
    rewrite (delete_publication_run results p st Ha), Hapi.
    destruct (delete_loop_spec after
                (Py.dict_set results (acc_platform a)
                   (deletion_report
                      (fst (api_delete_post api a
                              (pub_platform_post_id p) st))))
                (tick st))
      as (results' & Hloop & _ & _ & Hother).
    { intros r Hr. apply Haccounts. right. exact Hr. }
    eexists results', _. split; [exact Hloop |].
    rewrite Hother by exact Hlater.
    simpl. rewrite advance_0. apply lookup_dict_set_same.
  - destruct (Haccounts q (or_introl eq_refl)) as [b Hb].
    pose proof (delete_publication_run results q st Hb) as Hrun.
    pose proof (delete_publication_state results q st Hb) as Hstate.
    rewrite Hrun in Hstate.
    simpl app. simpl PostService.for_each. unfold bind. rewrite Hrun.
    rewrite (deletion_requests_cons (st_db st) q before), length_app.
    rewrite <- advance_advance.
    destruct (PostService.API_CLASSES env (acc_platform b)) as [api' |];
      cbn [snd] in Hstate; rewrite <- Hstate;
      [apply (IH _ (tick st)) | apply (IH _ st)]; try assumption;
      intros r Hr; apply Haccounts; right; exact Hr.
Qed.

(** X19: [PostService.delete_post] asks the platforms and changes
    nothing here.  With every publication pointing to an account row:
    - it returns, and the database is as before, so that the attempts
      still count as successes;
    - each outcome is a flag with a message that is empty on success;
    - the platforms reported are exactly those of the successful
      attempts of the post that have an adapter;
    - one deletion request is made for each such attempt, in order;
    - the outcome left under a platform is what the adapter's
      [delete_post] gave for the last such attempt on it, at the moment
      it was called: the boolean it returned, or the exception it
      raised. *)
Theorem service_delete_post_keeps_rows (post : Post) (st : State) :
  accounts_exist (st_db st) ->
  exists results st',
    PostService.delete_post env post st = (Ok results, st') /\
    st_db st' = st_db st /\
    Forall deletion_outcome (map snd results) /\
    (forall platform,
        In platform (Py.keys results) <->
        exists p a,
          In p (db_publications (st_db st)) /\
          successful_attempt post p = true /\
          account_of (st_db st) p = Some a /\
          acc_platform a = platform /\
          PostService.API_CLASSES env platform <> None) /\
    st_tick st'
    = st_tick st
      + length (deletion_requests (st_db st)
                  (successful_attempts (st_db st) post)) /\
    (forall before p after a api,
        successful_attempts (st_db st) post = before ++ p :: after ->
        account_of (st_db st) p = Some a ->
        PostService.API_CLASSES env (acc_platform a) = Some api ->
        (forall q b, In q after -> account_of (st_db st) q = Some b ->
                     acc_platform b <> acc_platform a) ->
        Py.lookup results (acc_platform a)
        = Some (deletion_report
                  (fst (api_delete_post api a (pub_platform_post_id p)
                          (advance
                             (length (deletion_requests (st_db st) before))
                             st))))).
Proof.
  intro Haccounts.
  set (l := successful_attempts (st_db st) post).
  assert (Hrun : PostService.delete_post env post st
                 = PostService.for_each (PostService.delete_publication env)
                     l [] st)
    by reflexivity.
  assert (Hl : forall p, In p l <->
                         In p (db_publications (st_db st)) /\
                         successful_attempt post p = true)
    by (intro p; apply filter_In).
  assert (Hfound : forall p, In p l ->
                             exists a, account_of (st_db st) p = Some a)
    by (intros p Hp; apply Haccounts, Hl, Hp).
  destruct (delete_loop_spec l [] st Hfound)
    as (results & Hloop & Hout & Hkeys & _).
  exists results, (advance (length (deletion_requests (st_db st) l)) st).
  rewrite Hrun. split; [exact Hloop |]. split; [reflexivity |].
  split; [apply Hout; constructor |].
  split; [| split].
  - intro platform. rewrite Hkeys. split.
    + intros [[] | (p & a & Hp & Ha & Hplat & Hsome)].
      apply Hl in Hp. destruct Hp as [Hp Hsucc]. exists p, a. auto.
    + intros (p & a & Hp & Hsucc & Ha & Hplat & Hsome).
      right. exists p, a. split; [apply Hl; auto | auto].
  - simpl. lia.
  - intros before p after a api Hsplit Ha Hapi Hlater.
    assert (Hfound' : forall q, In q (before ++ p :: after) ->
                                exists b, account_of (st_db st) q = Some b)
      by (rewrite <- Hsplit; exact Hfound).
    destruct (delete_loop_last before p after [] st Hfound' Ha Hapi Hlater)
      as (results' & st' & Hloop' & Hlast).
    rewrite <- Hsplit in Hloop'. fold l in Hloop'.
    rewrite Hloop in Hloop'. injection Hloop' as <- _. exact Hlast.
Qed.

End DeleteFacts.

Lemma service_delete_post_keeps_rows_witness :
  accounts_exist (st_db Scenario.synced) /\
  exists results st',
    PostService.delete_post (Scenario.world Scenario.delete_denied)
      Scenario.only_facebook Scenario.synced = (Ok results, st') /\
    st_db st' = st_db Scenario.synced /\
    Forall deletion_outcome (map snd results) /\
    (forall platform,
        In platform (Py.keys results) <->
        exists p a,
          In p (db_publications (st_db Scenario.synced)) /\
          successful_attempt Scenario.only_facebook p = true /\
          account_of (st_db Scenario.synced) p = Some a /\
          acc_platform a = platform /\
          PostService.API_CLASSES (Scenario.world Scenario.delete_denied)
            platform <> None) /\
    st_tick st'
    = st_tick Scenario.synced
      + length (deletion_requests (st_db Scenario.synced)
                  (successful_attempts (st_db Scenario.synced)
                     Scenario.only_facebook)) /\
    (forall before p after a api,
        successful_attempts (st_db Scenario.synced) Scenario.only_facebook
        = before ++ p :: after ->
        account_of (st_db Scenario.synced) p = Some a ->
        PostService.API_CLASSES (Scenario.world Scenario.delete_denied)
          (acc_platform a) = Some api ->
        (forall q b, In q after ->
                     account_of (st_db Scenario.synced) q = Some b ->
                     acc_platform b <> acc_platform a) ->
        Py.lookup results (acc_platform a)
        = Some (deletion_report
                  (fst (api_delete_post api a (pub_platform_post_id p)
                          (advance
                             (length (deletion_requests
                                        (st_db Scenario.synced) before))
                             Scenario.synced))))).
Proof.
  assert (Ha : accounts_exist (st_db Scenario.synced)).
  { intros p [<- | []]. eexists. reflexivity. }
  split; [exact Ha |].
  exact (@service_delete_post_keeps_rows
           (Scenario.world Scenario.delete_denied)
           Scenario.only_facebook Scenario.synced Ha).
Defined.

(** The stored example: Facebook is asked once; when nothing answers
    the outcome says so, and the attempt is still stored as a
    success. *)
Example delete_post_asks_facebook :
  PostService.delete_post (Scenario.world Scenario.down)
    Scenario.only_facebook Scenario.synced
  = (Ok [("facebook",
          [("success", JBool false);
           ("error", JStr "Failed to delete from platform")])],
     advance 1 Scenario.synced).
Proof. vm_compute. reflexivity. Qed.

Lemma available_iff_active (d : DB) (user : nat) (platform : string) :
  existsb (String.eqb platform)
          (map acc_platform
               (filter (fun a => Nat.eqb (acc_user a) user && acc_is_active a)
                       (db_accounts d)))
  = true
  <-> active_accounts d user platform <> [].
Proof.
  unfold active_accounts, ORM.account_matches.
  induction (db_accounts d) as [| a l IH]; simpl.
  - split; [discriminate | intro H; contradiction H; reflexivity].
  - destruct (Nat.eqb (acc_user a) user); simpl; [| exact IH].
    destruct (acc_is_active a); simpl.
    + rewrite (String.eqb_sym platform (acc_platform a)).
      destruct (String.eqb (acc_platform a) platform); simpl.
      * split; [discriminate | reflexivity].
      * exact IH.
    + rewrite andb_false_r. exact IH.
Qed.

(** X20: [validate_platforms] accepts a list of platforms exactly when
    the user has at least one active account on each of them; it reads
    the accounts and changes nothing.  (It does not ask for a single
    account, which [publish_post] needs.) *)
Theorem validate_platforms_accepts_iff
        (user : nat) (value : list string) (st : State) :
  exists r,
    validate_platforms user value st = (Ok r, st) /\
    (r = inr value <->
     forall platform,
       In platform value -> active_accounts (st_db st) user platform <> []).
Proof.
  unfold validate_platforms, bind, get_db. simpl.
  set (available := map acc_platform _).
  assert (Havailable : forall platform,
             existsb (String.eqb platform) available = true <->
             active_accounts (st_db st) user platform <> [])
    by (intro; apply available_iff_active).
  assert (Hcheck : check_platforms available value = None <->
                   forall platform,
                     In platform value ->
                     active_accounts (st_db st) user platform <> []).
  { clearbody available. induction value as [| p rest IH]; simpl.
    - split; [intros _ q [] | reflexivity].
    - destruct (existsb (String.eqb p) available) eqn:E.
      + rewrite IH. split.
        * intros H q [<- | Hq]; [apply Havailable, E | apply H, Hq].
        * intros H q Hq. apply H. right. exact Hq.
      + split; [discriminate |]. intro H.
        assert (Hp : existsb (String.eqb p) available = true)
          by (apply Havailable, H; left; reflexivity).
        congruence. }
  destruct (check_platforms available value) as [message |].
  - exists (inl message). split; [reflexivity |].
    split; [discriminate |]. intro H. apply Hcheck in H. discriminate.
  - exists (inr value). split; [reflexivity |].
    split; [intros _; apply Hcheck; reflexivity | reflexivity].
Qed.

(* ===================================================================== *)
(** ** Snapshots stay one per publication *)

Section SnapshotInvariant.

Variable env : Env.

Lemma keeps_db_by_pk pk : keeps_db (ORM.SocialMediaAccount_by_pk pk).
Proof.
  intro st. unfold ORM.SocialMediaAccount_by_pk, bind, get_db. simpl.
  destruct (find _ _); reflexivity.
Qed.

Lemma save_keeps_one_each o st :
  one_snapshot_each (st_db st) ->
  wp (ORM.PostAnalytics_save env o)
     (fun _ st1 => one_snapshot_each (st_db st1)) st.
Proof.
  intro H. unfold ORM.PostAnalytics_save.
  apply wp_bind. eapply wp_weaken; [apply wp_to_row |].
  intros [row | e] st1 [-> Hrow]; [| exact H].
  unfold wp, bind, get_db, put_db, one_snapshot_each. simpl.
  rewrite map_map.
  erewrite map_ext; [exact H |].
  intro r. simpl. unfold ORM.for_publication.
  destruct (Nat.eqb_spec (an_publication r) (ORM.o_publication o));
    congruence.
Qed.

Lemma get_or_create_keeps_one_each publication defaults st :
  one_snapshot_each (st_db st) ->
  wp (ORM.PostAnalytics_get_or_create env publication defaults)
     (fun r st1 =>
        one_snapshot_each (st_db st1) /\
        match r with
        | Ok (o, _) => ORM.o_publication o = pub_pk publication
        | Raise _ => True
        end) st.
Proof.
  intro H. unfold ORM.PostAnalytics_get_or_create.
  apply wp_bind. unfold wp at 1, get_db. simpl.
  destruct (find _ _) as [r |] eqn:Hfind.
  - apply wp_ret. split; [exact H |].
    apply find_some in Hfind. destruct Hfind as [_ Hr].
    apply Nat.eqb_eq in Hr. exact Hr.
  - destruct defaults; try (apply wp_raise; split; [exact H | exact I]).
    apply wp_bind, wp_lift.
    destruct (ORM.init_kwargs _ _) as [o | e] eqn:Hinit;
      [| split; [exact H | exact I]].
    apply init_kwargs_publication in Hinit. simpl in Hinit.
    apply wp_bind. eapply wp_weaken; [apply wp_to_row |].
    intros [row | e] st1 [-> Hrow]; [| split; [exact H | exact I]].
    unfold wp, bind, get_db, put_db, ret. simpl.
    split; [| exact Hinit].
    unfold one_snapshot_each. simpl. rewrite map_app. simpl.
    apply NoDup_snoc; [exact H |].
    rewrite Hrow, Hinit. intro Hin. apply in_map_iff in Hin.
    destruct Hin as (r & Hr & Hin).
    pose proof (find_none _ _ Hfind r Hin) as Hnot.
    unfold ORM.for_publication in Hnot.
    rewrite Hr, Nat.eqb_refl in Hnot. discriminate.
Qed.

Lemma sync_publication_keeps_one_each analytics publication st :
  one_snapshot_each (st_db st) ->
  wp (PostService.sync_publication env analytics publication)
     (fun _ st1 => one_snapshot_each (st_db st1)) st.
Proof.
  intro H.
  assert (Hsame : forall st1, st_db st1 = st_db st ->
                              one_snapshot_each (st_db st1))
    by (intros st1 ->; exact H).
  unfold PostService.sync_publication.
  apply wp_try.
  apply wp_weaken
    with (Q := fun (_ : res PostService.Analytics) st1 =>
                 one_snapshot_each (st_db st1)).
  2: { intros [a | e] st1 H1; [exact H1 |].
       apply wp_keeps_db.
       - apply keeps_db_bind; [apply keeps_db_by_pk |].
         intro. apply keeps_db_ret.
       - intros r st2 ->. exact H1. }
  apply wp_bind, wp_keeps_db; [apply keeps_db_by_pk |].
  intros [account | e] st0 H0; [| apply Hsame, H0].
  destruct (PostService.API_CLASSES env (acc_platform account))
    as [api |] eqn:Hapi.
  2: { apply wp_ret, Hsame, H0. }
  destruct (keeps_db_api env _ Hapi) as (_ & _ & Hget).
  apply wp_bind, wp_keeps_db; [apply Hget |].
  intros [platform_analytics | e] st1 H1; [| apply Hsame; congruence].
  destruct (Py.truthy platform_analytics).
  2: { apply wp_ret, Hsame. congruence. }
  apply wp_bind.
  eapply wp_weaken;
    [apply get_or_create_keeps_one_each, Hsame; congruence |].
  intros [[post_analytics created] | e] st2 [H2 Ho]; [| exact H2].
  apply wp_bind.
  destruct created; simpl.
  - apply wp_ret, wp_ret. exact H2.
  - apply wp_bind, wp_lift.
    destruct (PostService.py_items platform_analytics) as [items | e];
      [| exact H2].
    apply wp_bind, wp_lift.
    destruct (py_get platform_analytics "raw_data" (JObj []))
      as [raw_data | e]; [| exact H2].
    eapply wp_weaken; [apply save_keeps_one_each, H2 |].
    intros [[] | e] st3 H3; [apply wp_ret |]; exact H3.
Qed.

(** X21: [get_post_analytics] never gives a publication a second
    snapshot: if every publication has at most one snapshot before the
    synchronisation, so it is afterwards, whether the call returns or
    raises. *)
Theorem sync_keeps_one_snapshot_each (post : Post) (st : State) :
  one_snapshot_each (st_db st) ->
  one_snapshot_each
    (st_db (snd (PostService.get_post_analytics env post st))).
Proof.
  intro H.
  unfold PostService.get_post_analytics, ORM.successful_publications.
  unfold bind at 1. unfold bind at 1. unfold get_db, ret.
  cbn [fst snd].
  generalize (@nil (string * json)) as analytics.
  revert H. generalize st at 1 3 as s.
  induction (filter _ (db_publications (st_db st))) as [| p l IH];
    intros s H analytics; simpl.
  - exact H.
  - pose proof (sync_publication_keeps_one_each analytics p s H) as Hstep.
    unfold wp in Hstep. unfold bind.
    destruct (PostService.sync_publication env analytics p s)
      as [[analytics1 | e] s1]; simpl in Hstep.
    + apply IH. exact Hstep.
    + exact Hstep.
Qed.

End SnapshotInvariant.

Lemma sync_keeps_one_snapshot_each_witness :
  one_snapshot_each (st_db Scenario.synced) /\
  one_snapshot_each
    (st_db (snd (PostService.get_post_analytics
                   (Scenario.world Scenario.all_accept)
                   Scenario.only_facebook Scenario.synced))).
Proof.
  assert (H : one_snapshot_each (st_db Scenario.synced))
    by (constructor; [intros [] | constructor]).
  split; [exact H |].
  exact (sync_keeps_one_snapshot_each (Scenario.world Scenario.all_accept)
           Scenario.only_facebook Scenario.synced H).
Defined.

(* ===================================================================== *)
(** ** Counters no adapter reports *)

Lemma keeps_reach_refl d : keeps_reach_and_clicks d d.
Proof. intros k row H. exists row. auto. Qed.

Lemma keeps_reach_trans d1 d2 d3 :
  keeps_reach_and_clicks d1 d2 -> keeps_reach_and_clicks d2 d3 ->
  keeps_reach_and_clicks d1 d3.
Proof.
  intros H12 H23 k row H.
  destruct (H12 k row H) as (row2 & H2 & Hr & Hc).
  destruct (H23 k row2 H2) as (row3 & H3 & Hr' & Hc').
  exists row3. split; [exact H3 |]. split; congruence.
Qed.

Lemma set_field_reach o key value o' :
  ORM.set_field o key value = Some o' ->
  key <> "reach" -> key <> "clicks" ->
  ORM.o_reach o' = ORM.o_reach o /\ ORM.o_clicks o' = ORM.o_clicks o.
Proof.
  unfold ORM.set_field. intros H Hr Hc.
  apply String.eqb_neq in Hr, Hc. rewrite Hr, Hc in H.
  repeat match type of H with
         | (if ?b then _ else _) = _ =>
             destruct b; [injection H as <-; split; reflexivity |]
         end.
  discriminate.
Qed.

Lemma copy_counters_reach items o :
  Py.dict_has items "reach" = false ->
  Py.dict_has items "clicks" = false ->
  ORM.o_reach (PostService.copy_counters o items) = ORM.o_reach o /\
  ORM.o_clicks (PostService.copy_counters o items) = ORM.o_clicks o.
Proof.
  revert o. induction items as [| [key value] rest IH]; intros o; simpl.
  - auto.
  - destruct (String.eqb_spec key "reach") as [| Hr]; [discriminate |].
    destruct (String.eqb_spec key "clicks") as [| Hc]; [discriminate |].
    intros H1 H2. destruct (IH (if negb (String.eqb key "raw_data")
                                then ORM.setattr o key value else o) H1 H2)
      as [-> ->].
    destruct (negb _); [| auto].
    unfold ORM.setattr.
    destruct (ORM.set_field o key value) as [o' |] eqn:E; [| auto].
    eapply set_field_reach; eassumption.
Qed.

Section ReachAndClicks.

Variable env : Env.

(** No adapter reports ['reach'] or ['clicks']. *)
Lemma adapters_report_no_reach platform api account post_id st j :
  PostService.API_CLASSES env platform = Some api ->
  fst (api_get_post_analytics api account post_id st) = Ok j ->
  exists d, j = JObj d /\
            Py.dict_has d "reach" = false /\
            Py.dict_has d "clicks" = false.
Proof.
  unfold PostService.API_CLASSES.
  destruct (String.eqb platform "facebook");
    [| destruct (String.eqb platform "twitter");
       [| destruct (String.eqb platform "linkedin"); [| discriminate]]];
    intros [= <-]; simpl;
    unfold FacebookAPI.get_post_analytics, TwitterAPI.get_post_analytics,
      LinkedInAPI.get_post_analytics, bind, lift, ret;
    intro H; returned_cases H; injection H as <-;
    (eexists; split; [reflexivity | split; reflexivity]).
Qed.

Lemma to_row_reach o st row st1 :
  ORM.to_row env o st = (Ok row, st1) ->
  forall r c, ORM.o_reach o = JNum r -> ORM.o_clicks o = JNum c ->
              an_reach row = r /\ an_clicks row = c.
Proof.
  unfold ORM.to_row, bind, lift, ret, raise. intros H r c Hr Hc.
  rewrite Hr, Hc in H. simpl in H.
  returned_cases H; injection H as <- <-; simpl; auto.
Qed.

Lemma save_keeps_reach o st old :
  snapshot (st_db st) (ORM.o_publication o) = Some old ->
  ORM.o_reach o = JNum (an_reach old) ->
  ORM.o_clicks o = JNum (an_clicks old) ->
  keeps_reach_and_clicks
    (st_db st) (st_db (snd (ORM.PostAnalytics_save env o st))).
Proof.
  intros Hold Hr Hc.
  unfold ORM.PostAnalytics_save, bind.
  pose proof (wp_to_row env o st) as Hrow. unfold wp in Hrow.
  destruct (ORM.to_row env o st) as [[row | e] st1] eqn:E;
    simpl in Hrow; destruct Hrow as [-> Hpub];
    [| apply keeps_reach_refl].
  destruct (@to_row_reach o st row st E _ _ Hr Hc) as [Hr' Hc'].
  unfold get_db, put_db. simpl.
  intros k row0 Hk. unfold snapshot in *. simpl.
  destruct (Nat.eq_dec k (ORM.o_publication o)) as [-> | Hne].
  - rewrite Hold in Hk. injection Hk as <-.
    exists row. split; [| auto].
    clear - Hold Hpub.
    induction (db_analytics (st_db st)) as [| r l IH]; simpl in *;
      [discriminate |].
    destruct (ORM.for_publication (ORM.o_publication o) r) eqn:F.
    + unfold ORM.for_publication at 1. rewrite Hpub, Nat.eqb_refl.
      reflexivity.
    + rewrite F. apply IH, Hold.
  - exists row0. split; [| auto].
    rewrite find_replace; assumption.
Qed.

Lemma find_app_found {A} (f : A -> bool) l l' x :
  find f l = Some x -> find f (l ++ l') = Some x.
Proof.
  induction l as [| y l IH]; simpl; [discriminate |].
  destruct (f y); auto.
Qed.

Lemma get_or_create_keeps_reach publication defaults st :
  wp (ORM.PostAnalytics_get_or_create env publication defaults)
     (fun r st1 =>
        keeps_reach_and_clicks (st_db st) (st_db st1) /\
        match r with
        | Ok (o, false) =>
            exists old,
              snapshot (st_db st1) (pub_pk publication) = Some old /\
              o = ORM.of_row old
        | _ => True
        end) st.
Proof.
  unfold ORM.PostAnalytics_get_or_create.
  apply wp_bind. unfold wp at 1, get_db. simpl.
  destruct (find _ _) as [r |] eqn:Hfind.
  - apply wp_ret. split; [apply keeps_reach_refl |].
    exists r. split; [exact Hfind | reflexivity].
  - destruct defaults;
      try (apply wp_raise; split; [apply keeps_reach_refl | exact I]).
    apply wp_bind, wp_lift.
    destruct (ORM.init_kwargs _ _) as [o | e];
      [| split; [apply keeps_reach_refl | exact I]].
    apply wp_bind. eapply wp_weaken; [apply wp_to_row |].
    intros [row | e] st1 [-> Hrow];
      [| split; [apply keeps_reach_refl | exact I]].
    unfold wp, bind, get_db, put_db, ret. simpl.
    split; [| exact I].
    intros k row0 Hk. exists row0. split; [| auto].
    unfold snapshot in *. simpl. apply find_app_found, Hk.
Qed.

Lemma sync_publication_keeps_reach analytics publication st :
  wp (PostService.sync_publication env analytics publication)
     (fun _ st1 => keeps_reach_and_clicks (st_db st) (st_db st1)) st.
Proof.
  assert (Hsame : forall st1, st_db st1 = st_db st ->
                              keeps_reach_and_clicks (st_db st) (st_db st1))
    by (intros st1 ->; apply keeps_reach_refl).
  unfold PostService.sync_publication.
  apply wp_try.
  apply wp_weaken
    with (Q := fun (_ : res PostService.Analytics) st1 =>
                 keeps_reach_and_clicks (st_db st) (st_db st1)).
  2: { intros [a | e] st1 H1; [exact H1 |].
       apply wp_keeps_db.
       - apply keeps_db_bind; [apply keeps_db_by_pk |].
         intro. apply keeps_db_ret.
       - intros r st2 ->. exact H1. }
  apply wp_bind, wp_keeps_db; [apply keeps_db_by_pk |].
  intros [account | e] st0 H0; [| apply Hsame, H0].
  destruct (PostService.API_CLASSES env (acc_platform account))
    as [api |] eqn:Hapi.
  2: { apply wp_ret, Hsame, H0. }
  destruct (keeps_db_api env _ Hapi) as (_ & _ & Hget).
  apply wp_bind. unfold wp at 1.
  pose proof (Hget account (pub_platform_post_id publication) st0) as H1.
  assert (Hshape :
            forall j,
              fst (api_get_post_analytics api account
                     (pub_platform_post_id publication) st0) = Ok j ->
              exists d, j = JObj d /\
                        Py.dict_has d "reach" = false /\
                        Py.dict_has d "clicks" = false)
    by (intros j Hj; eapply adapters_report_no_reach; eassumption).
  destruct (api_get_post_analytics api account
              (pub_platform_post_id publication) st0)
    as [[platform_analytics | e] st1]; cbn [fst snd] in *;
    [| apply Hsame; congruence].
  destruct (Hshape platform_analytics eq_refl) as (d & -> & Hreach & Hclicks).
  destruct (Py.truthy (JObj d)).
  2: { apply wp_ret, Hsame. congruence. }
  apply wp_bind.
  eapply wp_weaken; [apply get_or_create_keeps_reach |].
  assert (H10 : st_db st1 = st_db st) by congruence.
  intros [[post_analytics created] | e] st2 [H2 Hold];
    rewrite H10 in H2; [| exact H2].
  apply wp_bind.
  destruct created; simpl.
  - apply wp_ret, wp_ret. exact H2.
  - destruct Hold as (old & Hold & ->).
    apply wp_bind, wp_lift. cbn [PostService.py_items].
    apply wp_bind, wp_lift. cbn [py_get].
    set (o := ORM.setattr (PostService.copy_counters (ORM.of_row old) d)
                "raw_data" (Py.dict_get d "raw_data" (JObj []))).
    assert (Ho : ORM.o_publication o = pub_pk publication /\
                 ORM.o_reach o = JNum (an_reach old) /\
                 ORM.o_clicks o = JNum (an_clicks old)).
    { subst o. rewrite setattr_publication, copy_counters_publication.
      split.
      - unfold snapshot in Hold. apply find_some in Hold.
        destruct Hold as [_ Hk]. apply Nat.eqb_eq in Hk. exact Hk.
      - destruct (copy_counters_reach d (ORM.of_row old) Hreach Hclicks)
          as [Hr Hc].
        unfold ORM.setattr.
        destruct (ORM.set_field _ "raw_data" _) as [o' |] eqn:E.
        + destruct (@set_field_reach _ _ _ _ E) as [-> ->];
            [discriminate | discriminate |].
          rewrite Hr, Hc. auto.
        + rewrite Hr, Hc. auto. }
    destruct Ho as (Hpk & Hr & Hc).
    rewrite <- Hpk in Hold.
    pose proof (save_keeps_reach o st2 Hold Hr Hc) as H3.
    unfold wp at 1.
    destruct (ORM.PostAnalytics_save env o st2) as [[[] | e] st3];
      cbn [fst snd] in *.
    + apply wp_ret. eapply keeps_reach_trans; eassumption.
    + eapply keeps_reach_trans; eassumption.
Qed.

Lemma sync_loop_keeps_reach l analytics s :
  keeps_reach_and_clicks
    (st_db s)
    (st_db (snd (PostService.for_each (PostService.sync_publication env)
                   l analytics s))).
Proof.
  revert analytics s. induction l as [| p l IH]; intros analytics s; simpl.
  - apply keeps_reach_refl.
  - pose proof (sync_publication_keeps_reach analytics p s) as Hstep.
    unfold wp in Hstep. unfold bind.
    destruct (PostService.sync_publication env analytics p s)
      as [[analytics1 | e] s1]; simpl in Hstep.
    + eapply keeps_reach_trans; [exact Hstep | apply IH].
    + exact Hstep.
Qed.

(** X22: no adapter reports reach or clicks, so [get_post_analytics]
    never changes them: every snapshot stored before the
    synchronisation is still stored afterwards, for the same
    publication, with the reach and the clicks it had. *)
Theorem sync_never_changes_reach_and_clicks (post : Post) (st : State) :
  keeps_reach_and_clicks
    (st_db st)
    (st_db (snd (PostService.get_post_analytics env post st))).
Proof.
  unfold PostService.get_post_analytics, ORM.successful_publications.
  unfold bind at 1. unfold bind at 1. unfold get_db, ret.
  cbn [fst snd]. apply sync_loop_keeps_reach.
Qed.

End ReachAndClicks.

(** The stored example again, this time with an answer: the likes are
    overwritten by what Facebook reports, reach and clicks are not. *)
Example reported_counters_are_stored :
  snapshot
    (st_db (snd (PostService.get_post_analytics
                   (Scenario.world
                      (Cases.always
                         (Cases.says
                            (JObj [("reactions",
                                    JObj [("summary",
                                           JObj [("total_count",
                                                  JNum 42)])])]))))
                   Scenario.only_facebook Scenario.synced)))
    100
  = Some {| an_publication := 100; an_likes := 42; an_comments := 0;
            an_shares := 0; an_impressions := 0; an_reach := 0;
            an_clicks := 0;
            an_raw_data :=
              JObj [("reactions",
                     JObj [("summary",
                            JObj [("total_count", JNum 42)])])] |}.
Proof. vm_compute. reflexivity. Qed.
